(** * Restatement_Process.py: the rule table, the message evaluator and the
      status write-back of [RestatementProcessor]

    A shallow embedding of [src/Restatement_Process.py].  Python values are
    modelled as follows.

    - A [str] is a [string] whose characters are read as code points below
      256; [str.lower] and [str.strip] are written out on that range.
    - A dict is a [gmap]; [mapping_dict] maps a (sender, subject) pair to the
      list of its rules, [updates] maps a row index to its update.
    - The worksheet is a finite map from (row, column) to the cell's value;
      a cell whose value is [None] is absent from the map.
    - An exception is a constructor of [Exn]; a method returns the processor
      and the world after the call together with a [Result].
    - [fnmatch.fnmatch] and [os.path.join] belong to the Python standard
      library: the engine is stated for any such pair of functions (section
      variables), and [fnmatch_glob] and [ntpath_join] give executable
      instances for concrete runs. *)

From Stdlib Require Import Ascii String List Arith Lia Bool ZArith.
From stdpp Require Import gmap strings list fin_maps sorting.

Local Open Scope string_scope.
Local Open Scope list_scope.

(** ** Python strings *)

Module PyStr.

(** [str.isspace] on one code point below 256. *)
Definition is_space (c : ascii) : bool :=
  let n := nat_of_ascii c in
  (((9 <=? n) && (n <=? 13)) || ((28 <=? n) && (n <=? 32))
   || (n =? 133) || (n =? 160))%nat.

(** [str.lower] on one code point below 256: A-Z, and the upper-case
    letters of Latin-1 (192..222 but for the multiplication sign 215). *)
Definition lower_char (c : ascii) : ascii :=
  let n := nat_of_ascii c in
  if (((65 <=? n) && (n <=? 90))
      || ((192 <=? n) && (n <=? 222) && negb (n =? 215)))%nat
  then ascii_of_nat (n + 32) else c.

Fixpoint lower (s : string) : string :=
  match s with
  | EmptyString => EmptyString
  | String c r => String (lower_char c) (lower r)
  end.

Fixpoint lstrip (s : string) : string :=
  match s with
  | EmptyString => EmptyString
  | String c r => if is_space c then lstrip r else s
  end.

Fixpoint rstrip (s : string) : string :=
  match s with
  | EmptyString => EmptyString
  | String c r =>
      match rstrip r with
      | EmptyString => if is_space c then EmptyString else String c EmptyString
      | r' => String c r'
      end
  end.

(** [s.strip()] with no argument. *)
Definition strip (s : string) : string := rstrip (lstrip s).

(** The character class of the [re.sub] call in
    [match_and_save_attachments] holds nine characters: less-than,
    greater-than, colon, double quote, slash, backslash, bar, question mark
    and star (code points 60 62 58 34 47 92 124 63 42); every occurrence is
    replaced by the underscore. *)
Definition illegal_codes : list nat := [60; 62; 58; 34; 47; 92; 124; 63; 42].

Definition is_illegal (c : ascii) : bool :=
  existsb (Nat.eqb (nat_of_ascii c)) illegal_codes.

Definition illegal_chars : list ascii := ascii_of_nat <$> illegal_codes.

Definition underscore : ascii := ascii_of_nat 95.

Fixpoint re_sub_illegal (s : string) : string :=
  match s with
  | EmptyString => EmptyString
  | String c r =>
      String (if is_illegal c then underscore else c) (re_sub_illegal r)
  end.

(** Two strings that differ only in the case of their letters. *)
Inductive same_letters : string -> string -> Prop :=
| same_nil : same_letters EmptyString EmptyString
| same_cons c c' r r' :
    lower_char c = lower_char c' -> same_letters r r' ->
    same_letters (String c r) (String c' r').

Fixpoint all_chars (P : ascii -> bool) (s : string) : bool :=
  match s with
  | EmptyString => true
  | String c r => P c && all_chars P r
  end.

Fixpoint occurs (c : ascii) (s : string) : bool :=
  match s with
  | EmptyString => false
  | String d r => (nat_of_ascii c =? nat_of_ascii d)%nat || occurs c r
  end.

End PyStr.

Import PyStr.

(** ** The rule table *)

(** A cell of the DataFrame returned by [pd.read_excel]: an empty cell is read
    as the float NaN, a text cell as its string. *)
Inductive Cell :=
| NaN
| Text (s : string).

(** [str(x)] on a cell. *)
Definition py_str (x : Cell) : string :=
  match x with
  | NaN => "nan"
  | Text s => s
  end.

(** The cells of one DataFrame row under the five required columns: what
    [row['sender']], [row['subject']], ... are when each of the five names
    is the label of exactly one column.  (With two columns of one label the
    lookup by label gives a Series, not a cell; the record does not model
    such a table, and the properties of the loader take [required_once].) *)
Record Row := mkRow {
  sender : Cell;
  subject : Cell;
  attachment : Cell;
  savename : Cell;
  status : Cell
}.

(** What [pd.read_excel] returns: the header as written in the sheet and the
    rows below it. *)
Record RawTable := mkRawTable {
  raw_columns : list string;
  raw_rows : list Row
}.

(** The DataFrame after [df.columns = df.columns.str.strip().str.lower()]. *)
Record DataFrame := mkDataFrame {
  columns : list string;
  rows : list Row
}.

(** One entry of a [mapping_dict] list. *)
Record Rule := mkRule {
  AttachmentPattern : string;
  SaveName : string;
  RowIndex : nat
}.

#[global] Instance Rule_eq_dec : EqDecision Rule.
Proof. solve_decision. Defined.

Abbreviation MappingDict := (gmap (string * string) (list Rule)).

(** One entry of [updates]: a dict that may hold the key ['Status']. *)
Record Update := mkUpdate { Status : option string }.

Abbreviation Updates := (gmap nat Update).

(** ** Messages and the outside world *)

Record Attachment := mkAttachment {
  FileName : string;
  (** the bytes [SaveAsFile] writes; [None] when the attachment cannot be
      read, in which case [SaveAsFile] raises *)
  Payload : option (list Byte.byte)
}.

Record Message := mkMessage {
  Class : nat;
  SenderEmailAddress : string;
  Subject : string;
  Attachments : list Attachment
}.

(** [OutlookMAPIType.MAIL.value] *)
Definition MAIL : nat := 43.

Inductive Exn := ValueError | KeyError | AttributeError | com_error.

Inductive Result (A : Type) :=
| Return (a : A)
| Raise (e : Exn).
Arguments Return {A} a.
Arguments Raise {A} e.

(** The records the logger receives from the modelled methods. *)
Inductive LogRecord :=
| ErrFailedToReadWorkbook
| InfoMappingCreated (unique_keys : nat)
| InfoProcessingMessage (i : nat) (sender subject : string)
| InfoSaved (save_path : string)
| InfoNoMatch (sender subject attachment_name : string)
| ErrProcessingMessage (i : nat) (e : Exn)
| InfoEmailsProcessed (saved : nat)
| ErrWorkbookNotLoaded
| InfoWorkbookLoaded
| InfoStatusReset (cleared : nat)
| InfoExcelUpdated.

(** The worksheet: (row, column) to value, both counted from 1. *)
Abbreviation Worksheet := (gmap (nat * nat) string).

(** What the methods touch outside the processor: the files written by
    [SaveAsFile] with the path each was written to, oldest first, and the
    log.  Whether the directory of a path exists is the file system's matter
    and is not modelled. *)
Record World := mkWorld {
  files : list (string * list Byte.byte);
  logged : list LogRecord
}.

Record Processor := mkProcessor {
  excel_file : string;
  auto_ws : option Worksheet;
  mailbox_name : option string;
  archive_folder : string;
  mapping_df : option DataFrame;
  mapping_dict : option MappingDict;
  items : option (list Message);
  excel_doc_updates : option Updates
}.

(** [RestatementProcessor.__init__(excel_file, archive_folder, mailbox_name)] *)
Definition init (excel_file archive_folder : string)
    (mailbox_name : option string) : Processor :=
  {| excel_file := excel_file;
     auto_ws := None;
     mailbox_name := mailbox_name;
     archive_folder := archive_folder;
     mapping_df := None;
     mapping_dict := None;
     items := None;
     excel_doc_updates := None |}.

Definition info (r : LogRecord) (w : World) : World :=
  {| files := files w; logged := logged w ++ [r] |}.

(** ** build_dictionary_from_excel *)

Definition required_cols : list string :=
  ["sender"; "subject"; "attachment"; "savename"; "status"].

Definition normalize_columns (t : RawTable) : DataFrame :=
  {| columns := (fun c => lower (strip c)) <$> raw_columns t;
     rows := raw_rows t |}.

Definition missing_cols (df : DataFrame) : list string :=
  filter (fun col => col ∉ columns df) required_cols.

(** Each required name is the label of exactly one column: it comes from
    exactly one label of the header as written in the sheet. *)
Definition required_once (df : DataFrame) : Prop :=
  Forall (fun col => length (filter (fun c => c = col) (columns df)) = 1)
         required_cols.

Definition row_key (row : Row) : string * string :=
  (strip (lower (py_str (sender row))), strip (lower (py_str (subject row)))).

Definition row_value (idx : nat) (row : Row) : Rule :=
  {| AttachmentPattern := strip (lower (py_str (attachment row)));
     SaveName := strip (py_str (savename row));
     RowIndex := idx |}.

(** [mapping_dict.setdefault(key, []).append(value)] *)
Definition setdefault_append (key : string * string) (value : Rule)
    (d : MappingDict) : MappingDict :=
  <[key := default [] (d !! key) ++ [value]]> d.

(** The loop [for idx, row in df.iterrows()], from row [idx] on. *)
Fixpoint iterrows (idx : nat) (rs : list Row) (d : MappingDict) : MappingDict :=
  match rs with
  | [] => d
  | row :: rs' =>
      iterrows (S idx) rs' (setdefault_append (row_key row) (row_value idx row) d)
  end.

(** The rules the table holds under [key], in table order, the first row
    numbered [idx]: what the loop above appends under that key. *)
Fixpoint rules_for (key : string * string) (idx : nat) (rs : list Row)
  : list Rule :=
  match rs with
  | [] => []
  | row :: rs' =>
      (if decide (row_key row = key) then [row_value idx row] else [])
      ++ rules_for key (S idx) rs'
  end.

Definition set_mapping_df (p : Processor) (df : DataFrame) : Processor :=
  {| excel_file := excel_file p; auto_ws := auto_ws p;
     mailbox_name := mailbox_name p; archive_folder := archive_folder p;
     mapping_df := Some df; mapping_dict := mapping_dict p;
     items := items p; excel_doc_updates := excel_doc_updates p |}.

Definition set_mapping_dict (p : Processor) (d : MappingDict) : Processor :=
  {| excel_file := excel_file p; auto_ws := auto_ws p;
     mailbox_name := mailbox_name p; archive_folder := archive_folder p;
     mapping_df := mapping_df p; mapping_dict := Some d;
     items := items p; excel_doc_updates := excel_doc_updates p |}.

(** [read] is what [pd.read_excel] gives for the sheet, [None] when the read
    raises (then the method logs the error and returns [(None, None)]).
    [self.mapping_dict] is assigned inside the loop, so a table without rows
    leaves it as it was. *)
Definition build_dictionary_from_excel (read : option RawTable)
    (p : Processor) (w : World)
  : Processor * World * Result (option (DataFrame * MappingDict)) :=
  match read with
  | None => (p, info ErrFailedToReadWorkbook w, Return None)
  | Some t =>
      let df := normalize_columns t in
      let p1 := set_mapping_df p df in
      match missing_cols df with
      | _ :: _ => (p1, w, Raise KeyError)
      | [] =>
          let d := iterrows 0 (rows df) ∅ in
          let p2 := match rows df with
                    | [] => p1
                    | _ :: _ => set_mapping_dict p1 d
                    end in
          (p2, info (InfoMappingCreated (size d)) w, Return (Some (df, d)))
      end
  end.

(** ** The try block of match_and_save_attachments

    The body of the [try] statement mutates [updates], the archive and the
    log, and may raise halfway: what was done before the exception stays
    done.  A computation of the block takes the run state and returns the
    state reached together with its result or the exception. *)

Record Run := mkRun {
  updates : Updates;
  world : World
}.

Definition Try (A : Type) : Type := Run -> Run * Result A.

Definition ret {A} (a : A) : Try A := fun s => (s, Return a).

Definition raise {A} (e : Exn) : Try A := fun s => (s, Raise e).

Definition bind {A B} (m : Try A) (k : A -> Try B) : Try B :=
  fun s =>
    match m s with
    | (s', Return a) => k a s'
    | (s', Raise e) => (s', Raise e)
    end.

Declare Scope try_scope.
Delimit Scope try_scope with try.
Notation "x <- m ;; k" := (bind m (fun x => k))
  (at level 100, m at next level, right associativity) : try_scope.
Notation "m ;; k" := (bind m (fun _ => k))
  (at level 100, right associativity) : try_scope.

(** [logger.info(...)] and [logger.error(...)] *)
Definition log (r : LogRecord) : Try unit :=
  fun s => ({| updates := updates s; world := info r (world s) |}, Return tt).

(** [attachment.SaveAsFile(save_path)] *)
Definition SaveAsFile (a : Attachment) (save_path : string) : Try unit :=
  match Payload a with
  | None => raise com_error
  | Some bytes =>
      fun s =>
        ({| updates := updates s;
            world := {| files := files (world s) ++ [(save_path, bytes)];
                        logged := logged (world s) |} |}, Return tt)
  end.

(** [updates[idx] = u] *)
Definition set_update (idx : nat) (u : Update) : Try unit :=
  fun s => ({| updates := <[idx := u]> (updates s); world := world s |}, Return tt).

(** [self.mapping_dict.get(key, [])]; the attribute access raises when
    [self.mapping_dict] is still [None]. *)
Definition dict_get (d : option MappingDict) (key : string * string)
  : Try (list Rule) :=
  match d with
  | None => raise AttributeError
  | Some d => ret (default [] (d !! key))
  end.

Definition Saved : Update := {| Status := Some "Saved" |}.

Module Evaluator.

Section Engine.

(** [fnmatch.fnmatch(name, pat)], taken as a total function *)
Variable fnmatch : string -> string -> bool.
(** [os.path.join(path, p)] *)
Variable os_path_join : string -> string -> string.

Local Open Scope try_scope.

(** [for match in possible_matches: ...]; the result is [matched]. *)
Fixpoint for_matches (folder : string) (a : Attachment)
    (attachment_name : string) (possible_matches : list Rule)
    (matched : bool) : Try bool :=
  match possible_matches with
  | [] => ret matched
  | m :: rest =>
      if fnmatch attachment_name (AttachmentPattern m) then
        let safe_name := re_sub_illegal (SaveName m) in
        let save_path := os_path_join folder safe_name in
        SaveAsFile a save_path ;;
        log (InfoSaved save_path) ;;
        set_update (RowIndex m) Saved ;;
        for_matches folder a attachment_name rest true
      else for_matches folder a attachment_name rest matched
  end.

(** [for attachment in message.Attachments: ...] *)
Fixpoint for_attachments (folder sender subject : string)
    (possible_matches : list Rule) (atts : list Attachment) : Try unit :=
  match atts with
  | [] => ret tt
  | a :: rest =>
      let attachment_name := strip (lower (FileName a)) in
      matched <- for_matches folder a attachment_name possible_matches false ;;
      (if matched : bool then ret tt
       else log (InfoNoMatch sender subject attachment_name)) ;;
      for_attachments folder sender subject possible_matches rest
  end.

(** The body of the [try] for message number [i]. *)
Definition try_message (p : Processor) (i : nat) (message : Message)
  : Try unit :=
  if (Class message =? MAIL)%nat && (0 <? length (Attachments message))%nat
  then
    let sender := strip (lower (SenderEmailAddress message)) in
    let subject := strip (lower (Subject message)) in
    let key := (sender, subject) in
    possible_matches <- dict_get (mapping_dict p) key ;;
    log (InfoProcessingMessage i sender subject) ;;
    for_attachments (archive_folder p) sender subject possible_matches
      (Attachments message)
  else ret tt.

(** [try: ... except Exception as emsg_error: logger.error(...)] *)
Definition process_message (p : Processor) (i : nat) (message : Message)
    (s : Run) : Run :=
  match try_message p i message s with
  | (s', Return _) => s'
  | (s', Raise e) =>
      {| updates := updates s'; world := info (ErrProcessingMessage i e) (world s') |}
  end.

(** [for i, message in enumerate(self.items)], from message [i] on. *)
Fixpoint for_messages (p : Processor) (i : nat) (ms : list Message)
    (s : Run) : Run :=
  match ms with
  | [] => s
  | message :: rest =>
      for_messages p (S i) rest (process_message p i message s)
  end.

Definition set_excel_doc_updates (p : Processor) (u : Updates) : Processor :=
  {| excel_file := excel_file p; auto_ws := auto_ws p;
     mailbox_name := mailbox_name p; archive_folder := archive_folder p;
     mapping_df := mapping_df p; mapping_dict := mapping_dict p;
     items := items p; excel_doc_updates := Some u |}.

Definition match_and_save_attachments (p : Processor) (w : World)
  : Processor * World * Result Updates :=
  match items p with
  | None => (p, w, Raise ValueError)
  | Some ms =>
      let s := for_messages p 0 ms {| updates := ∅; world := w |} in
      (set_excel_doc_updates p (updates s),
       info (InfoEmailsProcessed (size (updates s))) (world s),
       Return (updates s))
  end.

(** The test of the [if]: the name satisfies the rule's pattern. *)
Definition hit (attachment_name : string) (m : Rule) : bool :=
  fnmatch attachment_name (AttachmentPattern m).

(** The candidates whose pattern the attachment name satisfies, in the
    order of the candidate list. *)
Definition matching (attachment_name : string) (cands : list Rule)
  : list Rule :=
  filter (fun m => hit attachment_name m = true) cands.

Definition save_path_of (folder : string) (m : Rule) : string :=
  os_path_join folder (re_sub_illegal (SaveName m)).

(** The run state after rule [m] has saved [bytes]: the file, the log
    record and the update of the three statements under the [if]. *)
Definition record_hit (folder : string) (bytes : list Byte.byte)
    (s : Run) (m : Rule) : Run :=
  {| updates := <[RowIndex m := Saved]> (updates s);
     world :=
       {| files := files (world s) ++ [(save_path_of folder m, bytes)];
          logged := logged (world s) ++ [InfoSaved (save_path_of folder m)] |} |}.

Definition record_hits (folder : string) (bytes : list Byte.byte)
    (hits : list Rule) (s : Run) : Run :=
  foldl (record_hit folder bytes) s hits.

(** The run state after one readable attachment has been tried against the
    candidates. *)
Definition attachment_done (folder sender subject : string)
    (cands : list Rule) (s : Run) (a : Attachment) : Run :=
  let attachment_name := strip (lower (FileName a)) in
  let hits := matching attachment_name cands in
  let s' := record_hits folder (default [] (Payload a)) hits s in
  match hits with
  | [] => {| updates := updates s';
             world := info (InfoNoMatch sender subject attachment_name) (world s') |}
  | _ :: _ => s'
  end.

(** The files one readable attachment adds to the archive. *)
Definition files_of (folder : string) (cands : list Rule) (a : Attachment)
  : list (string * list Byte.byte) :=
  (fun m => (save_path_of folder m, default [] (Payload a)))
  <$> matching (strip (lower (FileName a))) cands.

(** The row indexes one attachment marks. *)
Definition rows_of (cands : list Rule) (a : Attachment) : list nat :=
  RowIndex <$> matching (strip (lower (FileName a))) cands.

(** File [f] was written for a rule of the processor's index: its path
    is the archive folder joined with the rule's sanitized save name. *)
Definition from_index (p : Processor) (f : string * list Byte.byte) : Prop :=
  exists (d : MappingDict) key rules m,
    mapping_dict p = Some d /\ d !! key = Some rules /\ m ∈ rules
    /\ f.1 = save_path_of (archive_folder p) m.

End Engine.

End Evaluator.

Import Evaluator.

(** [get_items] stores what the mail folder returned. *)
Definition set_items (p : Processor) (ms : list Message) : Processor :=
  {| excel_file := excel_file p; auto_ws := auto_ws p;
     mailbox_name := mailbox_name p; archive_folder := archive_folder p;
     mapping_df := mapping_df p; mapping_dict := mapping_dict p;
     items := Some ms; excel_doc_updates := excel_doc_updates p |}.

(** ** Inputs that differ in letter case only *)

Inductive cell_variant : Cell -> Cell -> Prop :=
| variant_NaN : cell_variant NaN NaN
| variant_Text s s' : same_letters s s' -> cell_variant (Text s) (Text s').

(** Two rows that differ only in the letter case of the sender, subject and
    attachment cells. *)
Record row_variant (r r' : Row) : Prop := {
  rv_sender : cell_variant (sender r) (sender r');
  rv_subject : cell_variant (subject r) (subject r');
  rv_attachment : cell_variant (attachment r) (attachment r');
  rv_savename : savename r = savename r'
}.

Record attachment_variant (a a' : Attachment) : Prop := {
  av_name : same_letters (FileName a) (FileName a');
  av_payload : Payload a = Payload a'
}.

(** Two messages that differ only in the letter case of the sender address,
    the subject and the attachment file names. *)
Record message_variant (m m' : Message) : Prop := {
  mv_class : Class m = Class m';
  mv_sender : same_letters (SenderEmailAddress m) (SenderEmailAddress m');
  mv_subject : same_letters (Subject m) (Subject m');
  mv_attachments : Forall2 attachment_variant (Attachments m) (Attachments m')
}.

(** ** The worksheet: reset_excel_template and update_excel_status *)

Definition col_E : nat := 5.
Definition col_F : nat := 6.

(** [ws[coordinate].value = None] *)
Definition clear_cell (row col : nat) (ws : Worksheet) : Worksheet :=
  delete (row, col) ws.

(** The loop [while auto_ws[f"E{row}"].value is not None], from [row] on; the
    result is the sheet and the value of [row] when the loop stops, [None]
    when [fuel] iterations were not enough. *)
Fixpoint reset_loop (fuel : nat) (ws : Worksheet) (row : nat)
  : option (Worksheet * nat) :=
  match fuel with
  | 0 => None
  | S fuel' =>
      match ws !! (row, col_E) with
      | None => Some (ws, row)
      | Some _ =>
          reset_loop fuel' (clear_cell row col_F (clear_cell row col_E ws)) (S row)
      end
  end.

Definition set_auto_ws (p : Processor) (ws : Worksheet) : Processor :=
  {| excel_file := excel_file p; auto_ws := Some ws;
     mailbox_name := mailbox_name p; archive_folder := archive_folder p;
     mapping_df := mapping_df p; mapping_dict := mapping_dict p;
     items := items p; excel_doc_updates := excel_doc_updates p |}.

(** [reset_excel_template], for the automated sheet [loaded] of the workbook
    ([None] when the workbook or the sheet cannot be had: the method logs the
    error and returns).  The four named cells the method stamps before the
    loop lie outside the table and are left out.  The result is [None] only
    if the loop did not stop within its fuel, which
    [reset_excel_template_total] excludes. *)
Definition reset_excel_template (loaded : option Worksheet)
    (p : Processor) (w : World) : option (Processor * World) :=
  match loaded with
  | None => Some (p, info ErrWorkbookNotLoaded w)
  | Some ws =>
      match reset_loop (S (size ws)) ws 2 with
      | None => None
      | Some (ws', row) =>
          Some (set_auto_ws p ws',
                info (InfoStatusReset (row - 2)) (info InfoWorkbookLoaded w))
      end
  end.

(** [Index.get_loc(name)]: the position of the label, [KeyError] without it. *)
Definition get_loc (cols : list string) (name : string) : Result nat :=
  match list_find (fun c => c = name) cols with
  | Some (i, _) => Return i
  | None => Raise KeyError
  end.

(** [for idx, update in self.excel_doc_updates.items(): ...]; the cells
    written before an exception stay written.  The entries come in the order
    of [map_to_list], not in Python's insertion order: every entry writes a
    cell of its own row, and whether [get_loc] raises does not depend on the
    entry, so the order has no bearing on the result. *)
Fixpoint write_statuses (df : option DataFrame) (us : list (nat * Update))
    (ws : option Worksheet) : option Worksheet * Result unit :=
  match us with
  | [] => (ws, Return tt)
  | (idx, update) :: rest =>
      let excel_row := idx + 2 in
      match Status update with
      | None => write_statuses df rest ws
      | Some st =>
          match df with
          | None => (ws, Raise AttributeError)
          | Some df' =>
              match get_loc (columns df') "Status" with
              | Raise e => (ws, Raise e)
              | Return loc =>
                  let status_col := loc + 1 in
                  match ws with
                  | None => (ws, Raise AttributeError)
                  | Some ws' =>
                      write_statuses df rest
                        (Some (<[(excel_row, status_col) := st]> ws'))
                  end
              end
          end
      end
  end.

Definition with_auto_ws (p : Processor) (ws : option Worksheet) : Processor :=
  {| excel_file := excel_file p; auto_ws := ws;
     mailbox_name := mailbox_name p; archive_folder := archive_folder p;
     mapping_df := mapping_df p; mapping_dict := mapping_dict p;
     items := items p; excel_doc_updates := excel_doc_updates p |}.

(** [update_excel_status] up to its log record; the stamping of the end time
    and the saving of the workbook that follow are the spreadsheet's side and
    are left out. *)
Definition update_excel_status (p : Processor) (w : World)
  : Processor * World * Result unit :=
  match excel_doc_updates p with
  | None => (p, w, Raise ValueError)
  | Some u =>
      match write_statuses (mapping_df p) (map_to_list u) (auto_ws p) with
      | (ws, Raise e) => (with_auto_ws p ws, w, Raise e)
      | (ws, Return _) => (with_auto_ws p ws, info InfoExcelUpdated w, Return tt)
      end
  end.

(** ** main *)

(** The call [RestatementProcessor(EXCEL_FILE, SHARED_MAILBOX, save_dir)] of
    [main]: three positional arguments, bound in the order of [__init__]'s
    parameters [excel_file, archive_folder, mailbox_name]. *)
Definition main_processor (EXCEL_FILE SHARED_MAILBOX save_dir : string)
  : Processor :=
  init EXCEL_FILE SHARED_MAILBOX (Some save_dir).

(** [Extends P s s']: the run state [s'] is [s] with more done: an update
    present in [s] is still present (possibly overwritten with [Saved]), any
    other update is [Saved], the archive and the log have only grown, and
    every file added satisfies [P]. *)
Record Extends (P : string * list Byte.byte -> Prop) (s s' : Run) : Prop := {
  ext_kept : forall idx u, updates s !! idx = Some u ->
             updates s' !! idx = Some u \/ updates s' !! idx = Some Saved;
  ext_new : forall idx u, updates s' !! idx = Some u ->
            updates s !! idx = Some u \/ u = Saved;
  ext_files : exists new, files (world s') = files (world s) ++ new /\ Forall P new;
  ext_logged : exists lg, logged (world s') = logged (world s) ++ lg
}.

(** ** Executable instances of the two library functions *)

Module Lib.

Definition backslash : ascii := ascii_of_nat 92.

Definition is_sep (c : ascii) : bool :=
  (nat_of_ascii c =? 92)%nat || (nat_of_ascii c =? 47)%nat.

Fixpoint last_char (s : string) : option ascii :=
  match s with
  | EmptyString => None
  | String c EmptyString => Some c
  | String _ r => last_char r
  end.

(** [ntpath.join(path, p)] for a second component that holds neither a
    separator nor a colon and is not empty (a sanitized file name): the
    component is appended, after a backslash unless [path] is empty, ends
    with a separator, or is a bare drive such as [C:]. *)
Definition ntpath_join (path p : string) : string :=
  let bare_drive :=
    match path with
    | String _ (String c EmptyString) => (nat_of_ascii c =? 58)%nat
    | _ => false
    end in
  match last_char path with
  | None => p
  | Some c =>
      if is_sep c || bare_drive then path +:+ p
      else path +:+ String backslash p
  end.

(** [ntpath.normcase]: slashes become backslashes, letters lower case. *)
Fixpoint normcase (s : string) : string :=
  match s with
  | EmptyString => EmptyString
  | String c r =>
      String (if (nat_of_ascii c =? 47)%nat then backslash else lower_char c)
             (normcase r)
  end.

(** An item of a bracket expression. *)
Inductive Item :=
| One (c : ascii)
| Range (lo hi : ascii).

Inductive Token :=
| Star
| AnyChar
| Lit (c : ascii)
| Bracket (negated : bool) (items : list Item).

Definition is_char (n : nat) (c : ascii) : bool := (nat_of_ascii c =? n)%nat.

(** The members of a bracket expression, between the brackets: [a-z] is a
    range, a hyphen that is first or last stands for itself. *)
Fixpoint class_items (stuff : list ascii) : list Item :=
  match stuff with
  | [] => []
  | c :: rest =>
      match rest with
      | h :: d :: rest' =>
          if is_char 45 h then Range c d :: class_items rest'
          else One c :: class_items rest
      | _ => One c :: class_items rest
      end
  end.

(** The text up to the closing bracket and the text after it; a closing
    bracket that comes first is a member. *)
Fixpoint until_close (first : bool) (s : list ascii)
  : option (list ascii * list ascii) :=
  match s with
  | [] => None
  | c :: r =>
      if is_char 93 c && negb first then Some ([], r)
      else match until_close false r with
           | Some (stuff, after) => Some (c :: stuff, after)
           | None => None
           end
  end.

(** The pattern as [fnmatch.translate] reads it: star, question mark,
    bracket expression (an opening bracket that is never closed stands for
    itself), and any other character for itself. *)
Fixpoint tokens (fuel : nat) (pat : list ascii) : list Token :=
  match fuel with
  | 0 => []
  | S fuel' =>
      match pat with
      | [] => []
      | c :: r =>
          if is_char 42 c then Star :: tokens fuel' r
          else if is_char 63 c then AnyChar :: tokens fuel' r
          else if is_char 91 c then
            let (negated, body) :=
              match r with
              | b :: r' => if is_char 33 b then (true, r') else (false, r)
              | [] => (false, r)
              end in
            match until_close true body with
            | None => Lit c :: tokens fuel' r
            | Some (stuff, after) =>
                Bracket negated (class_items stuff) :: tokens fuel' after
            end
          else Lit c :: tokens fuel' r
      end
  end.

Definition in_item (x : ascii) (i : Item) : bool :=
  match i with
  | One c => (nat_of_ascii x =? nat_of_ascii c)%nat
  | Range lo hi =>
      (nat_of_ascii lo <=? nat_of_ascii x)%nat
      && (nat_of_ascii x <=? nat_of_ascii hi)%nat
  end.

Definition token_accepts (t : Token) (x : ascii) : bool :=
  match t with
  | Star => true
  | AnyChar => true
  | Lit c => (nat_of_ascii x =? nat_of_ascii c)%nat
  | Bracket negated items => xorb negated (existsb (in_item x) items)
  end.

(** Whole-string match of the tokens against the name. *)
Fixpoint glob (ts : list Token) (name : list ascii) : bool :=
  match ts with
  | [] => match name with [] => true | _ => false end
  | Star :: ts' =>
      (fix star (n : list ascii) : bool :=
         glob ts' n || match n with [] => false | _ :: n' => star n' end) name
  | t :: ts' =>
      match name with
      | [] => false
      | x :: name' => token_accepts t x && glob ts' name'
      end
  end.

(** [fnmatch.fnmatch(name, pat)] on Windows: both arguments go through
    [normcase], then the whole name is matched. *)
Definition fnmatch_glob (name pat : string) : bool :=
  let pat' := list_ascii_of_string (normcase pat) in
  glob (tokens (length pat') pat') (list_ascii_of_string (normcase name)).

End Lib.

(** ** Concrete runs *)

Module Scenario.

Import Lib.

Definition header : list string :=
  ["Sender"; "Subject"; "Attachment"; "SaveName"; "Status"].

(** The table of the spec's first scenario, with a second rule whose
    pattern overlaps the first and whose name needs sanitizing. *)
Definition table : RawTable :=
  {| raw_columns := header;
     raw_rows :=
       [ mkRow (Text "a@x.com") (Text "Report") (Text "*.csv")
               (Text "daily.csv") NaN;
         mkRow (Text "a@x.com") (Text " report ") (Text "Data*")
               (Text "Q1/Q2:Report?.csv") NaN;
         mkRow (Text "b@x.com") (Text "Report") (Text "*.csv")
               (Text "other.csv") NaN ] |}.

Definition csv_bytes : list Byte.byte := [Byte.x31; Byte.x2c; Byte.x32].

Definition data_csv : Attachment :=
  {| FileName := "Data.CSV"; Payload := Some csv_bytes |}.

Definition unreadable : Attachment :=
  {| FileName := "data.csv"; Payload := None |}.

Definition notes_txt : Attachment :=
  {| FileName := "notes.txt"; Payload := Some [] |}.

Definition msg (from subj : string) (atts : list Attachment) : Message :=
  {| Class := MAIL; SenderEmailAddress := from; Subject := subj;
     Attachments := atts |}.

Definition nowhere : World := {| files := []; logged := [] |}.

Definition archive : string := "C:\Statements\2024\May\COB 05.01.2024".

(** The processor after the table has been loaded. *)
Definition loaded (t : RawTable) (folder : string) : Processor :=
  (build_dictionary_from_excel (Some t) (init "rules.xlsx" folder None)
     nowhere).1.1.

(** The automated sheet as a previous run left it: the header in row 1,
    the three rules in rows 2 to 4, and the status [Saved] on the first and
    the third rule only. *)
Definition sheet : Worksheet :=
  list_to_map
    [ ((1, 1), "Sender"); ((1, 2), "Subject"); ((1, 3), "Attachment");
      ((1, 4), "SaveName"); ((1, 5), "Status"); ((1, 6), "Comment");
      ((2, 1), "a@x.com"); ((2, 2), "Report"); ((2, 3), "*.csv");
      ((2, 4), "daily.csv"); ((2, 5), "Saved"); ((2, 6), "ok");
      ((3, 1), "a@x.com"); ((3, 2), " report "); ((3, 3), "Data*");
      ((3, 4), "Q1/Q2:Report?.csv");
      ((4, 1), "b@x.com"); ((4, 2), "Report"); ((4, 3), "*.csv");
      ((4, 4), "other.csv"); ((4, 5), "Saved"); ((4, 6), "late") ].

Definition mailbox : string := "restatements@corp.com".

(** The stages of the processor [p] in the order [main] calls them, with
    what the spreadsheet and the mail folder hand over: the template is
    reset on the sheet, the table is loaded, the messages are stored as
    [get_items] stores them, and the attachments are matched and saved. *)
Definition stages (p : Processor) (ms : list Message)
  : option (Processor * World) :=
  match reset_excel_template (Some sheet) p nowhere with
  | None => None
  | Some (p1, w1) =>
      let '(p2, w2, _) := build_dictionary_from_excel (Some table) p1 w1 in
      let '(p3, w3, _) :=
        match_and_save_attachments fnmatch_glob ntpath_join
          (set_items p2 ms) w2 in
      Some (p3, w3)
  end.

End Scenario.

(** ** The stages around the engine *)

(** The exceptions of the code outside the engine: those of [Exn], and the
    ones only that code can raise. *)
Inductive Failure :=
| Engine (e : Exn)
| TypeError
| OverflowError
| IndexError
| PlainException
| OSError.

Inductive Outcome (A : Type) :=
| Done (a : A)
| Failed (f : Failure).
Arguments Done {A} a.
Arguments Failed {A} f.

(** ** get_prior_business_days *)

Module BusinessDays.

Local Open Scope Z_scope.

(** A [date] is its proleptic Gregorian ordinal ([date.toordinal()]): day 1
    is Monday, 1 January of year 1, which is [date.min].  [weekday()] counts
    from Monday = 0 to Sunday = 6. *)
Definition weekday (d : Z) : Z := (d + 6) mod 7.

(** [d - timedelta(days=1)]; below [date.min] the subtraction raises. *)
Definition minus_one_day (d : Z) : Outcome Z :=
  if d - 1 <? 1 then Failed OverflowError else Done (d - 1).

(** [while reference_date.weekday() >= 5: reference_date -= timedelta(days=1)];
    [None] when [fuel] iterations were not enough. *)
Fixpoint back_to_weekday (fuel : nat) (reference_date : Z) : option (Outcome Z) :=
  match fuel with
  | O => None
  | S fuel' =>
      if 5 <=? weekday reference_date then
        match minus_one_day reference_date with
        | Failed f => Some (Failed f)
        | Done d => back_to_weekday fuel' d
        end
      else Some (Done reference_date)
  end.

(** [while business_days_count < abs(n): ...]; [None] when [fuel] iterations
    were not enough. *)
Fixpoint count_back (fuel : nat) (abs_n business_days_count target_date : Z)
  : option (Outcome Z) :=
  match fuel with
  | O => None
  | S fuel' =>
      if business_days_count <? abs_n then
        match minus_one_day target_date with
        | Failed f => Some (Failed f)
        | Done d =>
            count_back fuel' abs_n
              (if weekday d <? 5 then business_days_count + 1
               else business_days_count) d
        end
      else Some (Done target_date)
  end.

(** [get_prior_business_days(n)], with [today] for [date.today()].  Each
    business day counted takes at most three iterations, so the fuel given
    is enough. *)
Definition get_prior_business_days (today n : Z) : option (Outcome Z) :=
  if n =? 0 then back_to_weekday 3 today
  else count_back (S (3 * Z.to_nat (Z.abs n))) (Z.abs n) 0 today.

(** The business day before [d]: Friday when [d] is a Saturday, Sunday or
    Monday, the day before otherwise. *)
Definition previous_business_day (d : Z) : Z :=
  if weekday d =? 0 then d - 3 else if weekday d =? 6 then d - 2 else d - 1.

(** The number of business days from [lo] up to, and without, [hi]. *)
Definition business_days_between (lo hi : Z) : nat :=
  length (filter (fun x => weekday x < 5) (seqZ lo (hi - lo))).

End BusinessDays.

(** ** What a run marks and writes

    The rows a run marks and the files it writes, read off the loops of
    [match_and_save_attachments]: an attachment that cannot be read ends its
    message at the first candidate it satisfies. *)

Module Trace.

(** [leaves s s' rows new]: from [s] to [s'] exactly the rows [rows] were
    marked [Saved] and exactly the files [new] were written, in that order. *)
Definition leaves (s s' : Run) (rows : list nat)
    (new : list (string * list Byte.byte)) : Prop :=
  (forall idx, updates s' !! idx
               = if decide (idx ∈ rows) then Some Saved else updates s !! idx)
  /\ files (world s') = files (world s) ++ new.

Section Trace.

Variable fnmatch : string -> string -> bool.
Variable os_path_join : string -> string -> string.

(** The rows marked by the attachments of one message, up to the failure. *)
Fixpoint marked_rows (cands : list Rule) (atts : list Attachment) : list nat :=
  match atts with
  | [] => []
  | a :: rest =>
      match Payload a with
      | Some _ => rows_of fnmatch cands a ++ marked_rows cands rest
      | None =>
          if existsb (hit fnmatch (strip (lower (FileName a)))) cands then []
          else marked_rows cands rest
      end
  end.

(** The files written for the attachments of one message, up to the
    failure. *)
Fixpoint written (folder : string) (cands : list Rule) (atts : list Attachment)
  : list (string * list Byte.byte) :=
  match atts with
  | [] => []
  | a :: rest =>
      match Payload a with
      | Some _ =>
          files_of fnmatch os_path_join folder cands a ++ written folder cands rest
      | None =>
          if existsb (hit fnmatch (strip (lower (FileName a)))) cands then []
          else written folder cands rest
      end
  end.

(** The candidates of a message: none when the message is skipped or the
    index is not there. *)
Definition candidates (p : Processor) (message : Message) : list Rule :=
  if (Class message =? MAIL)%nat && (0 <? length (Attachments message))%nat
  then
    match mapping_dict p with
    | None => []
    | Some d =>
        default [] (d !! (strip (lower (SenderEmailAddress message)),
                          strip (lower (Subject message))))
    end
  else [].

Definition message_rows (p : Processor) (message : Message) : list nat :=
  marked_rows (candidates p message) (Attachments message).

Definition message_files (p : Processor) (message : Message)
  : list (string * list Byte.byte) :=
  written (archive_folder p) (candidates p message) (Attachments message).

End Trace.

(** The message with other attachments. *)
Definition with_attachments (message : Message) (atts : list Attachment)
  : Message :=
  {| Class := Class message;
     SenderEmailAddress := SenderEmailAddress message;
     Subject := Subject message;
     Attachments := atts |}.

End Trace.

(** ** The script around the engine: configuration, workbook, Outlook, main

    The methods above are the engine; this part models the code around them
    as the source has it: the workbook object with its named cells, the
    Outlook folder, the clean-up and [main].  What the libraries and the
    machine give (the workbook on disk, the COM calls, the clock) is read
    from a record [Outside]. *)

Module Session.

(** *** Configuration *)

Record Constants := mkConstants {
  EXCEL_FILE : string;
  AUTOMATED_SHEET : string;
  SETTINGS_SHEET : string;
  REVISION_SHEET : string;
  SHARED_MAILBOX : string;
  FOLDER_NAME : string;
  BASE_PATH : string
}.

Definition and_then {A B} (r : Outcome A) (k : A -> Outcome B) : Outcome B :=
  match r with
  | Done a => k a
  | Failed f => Failed f
  end.

Section Config.

(** [config.get(section, key, fallback=None)]: the text of the option,
    [None] without the section or the option; the call raises when the
    text cannot be interpolated. *)
Variable config_get : string -> string -> Outcome (option string).

Definition get_config_value (section key : string) : Outcome string :=
  match config_get section key with
  | Failed f => Failed f
  | Done None => Failed (Engine ValueError)
  | Done (Some value) =>
      if decide (value = EmptyString) then Failed (Engine ValueError)
      else Done value
  end.

(** The assignments of the module, in the order of the file: what the
    import of the module gives. *)
Definition module_constants : Outcome Constants :=
  and_then (get_config_value "EXCEL" "excel_file") (fun excel_file =>
  and_then (get_config_value "EXCEL" "automated_sheet") (fun automated_sheet =>
  and_then (get_config_value "EXCEL" "settings_sheet") (fun settings_sheet =>
  and_then (get_config_value "EXCEL" "revisions_sheet") (fun revisions_sheet =>
  and_then (get_config_value "Outlook" "shared_mailbox") (fun shared_mailbox =>
  and_then (get_config_value "Outlook" "folder_name") (fun folder_name =>
  and_then (get_config_value "Directories" "daily_imported_statements")
    (fun daily_imported_statements =>
  Done {| EXCEL_FILE := excel_file;
          AUTOMATED_SHEET := automated_sheet;
          SETTINGS_SHEET := settings_sheet;
          REVISION_SHEET := revisions_sheet;
          SHARED_MAILBOX := shared_mailbox;
          FOLDER_NAME := folder_name;
          BASE_PATH := daily_imported_statements |}))))))).

End Config.

(** The settings the module reads, as (section, key). *)
Definition settings : list (string * string) :=
  [("EXCEL", "excel_file"); ("EXCEL", "automated_sheet");
   ("EXCEL", "settings_sheet"); ("EXCEL", "revisions_sheet");
   ("Outlook", "shared_mailbox"); ("Outlook", "folder_name");
   ("Directories", "daily_imported_statements")].

(** *** The objects *)

(** What [sheet[cell_address]] is: a cell, or a tuple of cells for an address
    that names more than one. *)
Inductive Address :=
| OneCell (row col : nat)
| ManyCells.

(** A workbook object: its sheets by title, and its defined names, each
    with its destinations (sheet title, cell address) in order. *)
Record Workbook := mkWorkbook {
  sheets : gmap string Worksheet;
  defined_names : gmap string (list (string * Address))
}.

(** A value of the dict [named_cells]: [None], a cell of a sheet of the
    workbook, or a tuple of cells. *)
Inductive Named :=
| NoCell
| CellOf (title : string) (row col : nat)
| Tuple.

Inductive OutlookFolderName := INBOX | SUBFOLDER | CUSTOM.

#[global] Instance OutlookFolderName_eq_dec : EqDecision OutlookFolderName.
Proof. solve_decision. Defined.

(** [OutlookFolderName.value] *)
Definition value (folder_type : OutlookFolderName) : string :=
  match folder_type with
  | INBOX => "inbox"
  | SUBFOLDER => "subfolder"
  | CUSTOM => "custom"
  end.

(** An Outlook folder: its name, and for a filter string the items
    [Items.Restrict(filter)] gives once sorted, in the order of iteration
    (the two COM calls may raise). *)
Record Folder := mkFolder {
  Name : string;
  Restrict : string -> Outcome (list Message)
}.

(** The argument [get_items] is called with: a function, given by what the
    call returns (the text [strftime] gives for the time returned), or a
    [datetime], which cannot be called. *)
Inductive Argument :=
| Function (call : Outcome string)
| Datetime.

(** What lies outside the program.  Each field is the result of the call
    named, [Failed] when the call raises. *)
Record Outside := mkOutside {
  (** [fnmatch.fnmatch] and [os.path.join] *)
  fnmatch : string -> string -> bool;
  os_path_join : string -> string -> string;
  (** [date.today()] at its first, second and third call *)
  today : nat -> Z;
  (** [d.strftime("%Y-%m-%d")] *)
  strftime : Z -> string;
  (** [make_import_archive_path(reference_date)] with [BASE_PATH] *)
  make_import_archive_path : string -> Z -> Outcome string;
  (** the removal of the log handlers and [logging.basicConfig(filename=...)] *)
  basicConfig : string -> Outcome unit;
  CoInitialize : Outcome unit;
  CoUninitialize : Outcome unit;
  (** [load_workbook(path)] *)
  load_workbook : string -> Outcome Workbook;
  (** [pd.read_excel(path, sheet_name=title, engine="openpyxl")], [None]
      when it raises *)
  read_excel : string -> string -> option RawTable;
  (** [wb.save(path)] *)
  save : string -> Workbook -> Outcome unit;
  (** [Dispatch], [GetNamespace] and [CreateRecipient(mailbox_name)] *)
  CreateRecipient : option string -> Outcome unit;
  (** [recipient.Resolve()] *)
  Resolve : option string -> Outcome bool;
  (** [namespace.GetSharedDefaultFolder(recipient, 6)] *)
  GetSharedDefaultFolder : option string -> Outcome Folder;
  (** [shared_inbox.Parent.Folders(folder_name)] *)
  Parent_Folders : Folder -> string -> Outcome Folder;
  (** [shared_inbox.Folders(folder_name)] *)
  Folders : Folder -> string -> Outcome Folder;
  (** [get_filter_time(reference_date, hour, minute, timezone)]: whether the
      call returns; what it returns is a [datetime] *)
  get_filter_time : Z -> nat -> nat -> string -> Outcome unit
}.

(** The records the logger receives: those of the engine, and those of the
    code around it. *)
Inductive Entry :=
| Inner (r : LogRecord)
| WarnNamedRangeNotFound (name : string)
| ErrCannotLoadWorkbook
| ErrAutomatedSheetNotFound
| InfoBusinessDates (cbd pbd p2bd : Z)
| InfoConnecting (mailbox_name : option string)
| InfoConnected (name : string) (folder_type : OutlookFolderName)
| InfoRetrieved (n : nat) (name : string)
| InfoWorkbookSaved (excel_file : string)
| ErrFailedToSaveWorkbook
| ErrCOMUninitialization
| InfoCleanupCompleted
| InfoScriptStarted
| InfoScriptDuration
| InfoProcessedMessages (n : nat)
| InfoSavedAttachments (n : nat)
| ErrUnhandled (f : Failure)
| ExcUnexpected
| InfoStartingCleanup.

(** The world of the script.  The workbook objects [load_workbook] has
    made are kept by identity (their place in [books]): the processor and
    the named cells refer to them, and a write through one reference is seen
    through the others.  [saved] lists what [wb.save] has written, oldest
    first, and [printed] the two numbers of each line [main] has printed. *)
Record Site := mkSite {
  books : list Workbook;
  archive : list (string * list Byte.byte);
  journal : list Entry;
  saved : list (string * Workbook);
  printed : list (nat * nat)
}.

(** The processor object: the fields of [Processor], of which [auto_ws] is
    not used here, and the three fields that refer to objects: [self.wb],
    [self.auto_ws] (a sheet of a workbook object, by its title) and
    [self.folder]. *)
Record Session := mkSession {
  core : Processor;
  wb : option nat;
  sheet : option (nat * string);
  folder : option Folder
}.

(** [RestatementProcessor(excel_file, archive_folder, mailbox_name)] *)
Definition new (p : Processor) : Session :=
  {| core := with_auto_ws p None; wb := None; sheet := None; folder := None |}.

Definition set_core (s : Session) (p : Processor) : Session :=
  {| core := with_auto_ws p None; wb := wb s; sheet := sheet s;
     folder := folder s |}.

Definition set_wb (s : Session) (b : option nat) : Session :=
  {| core := core s; wb := b; sheet := sheet s; folder := folder s |}.

Definition set_sheet (s : Session) (r : option (nat * string)) : Session :=
  {| core := core s; wb := wb s; sheet := r; folder := folder s |}.

Definition set_folder (s : Session) (f : option Folder) : Session :=
  {| core := core s; wb := wb s; sheet := sheet s; folder := f |}.

Definition set_books (t : Site) (bs : list Workbook) : Site :=
  {| books := bs; archive := archive t; journal := journal t;
     saved := saved t; printed := printed t |}.

(** [logger.info(...)], [logger.warning(...)], [logger.error(...)] *)
Definition note (e : Entry) (t : Site) : Site :=
  {| books := books t; archive := archive t; journal := journal t ++ [e];
     saved := saved t; printed := printed t |}.

(** The world after the records [es] were logged. *)
Definition notes (es : list Entry) (t : Site) : Site :=
  {| books := books t; archive := archive t; journal := journal t ++ es;
     saved := saved t; printed := printed t |}.

(** The contents of the sheet [self.auto_ws] refers to. *)
Definition content (s : Session) (t : Site) : option Worksheet :=
  match sheet s with
  | None => None
  | Some (b, title) =>
      match books t !! b with
      | None => None
      | Some book => sheets book !! title
      end
  end.

(** The sheet [title] of workbook [b] becomes [ws]. *)
Definition put_sheet (b : nat) (title : string) (ws : Worksheet)
    (bs : list Workbook) : list Workbook :=
  alter (fun book => {| sheets := <[title := ws]> (sheets book);
                        defined_names := defined_names book |}) b bs.

(** [cell.value = v] for the cell at [(row, col)] of the sheet [title]. *)
Definition write (title : string) (row col : nat) (v : string)
    (book : Workbook) : Workbook :=
  {| sheets := alter (fun ws => <[(row, col) := v]> ws) title (sheets book);
     defined_names := defined_names book |}.

Definition set_cell (b : nat) (title : string) (row col : nat) (v : string)
    (bs : list Workbook) : list Workbook :=
  alter (write title row col v) b bs.

(** *** Steps

    A step of a method takes the processor and the world and gives those it
    leaves, with its result or the exception; [None] when the fuel of a loop
    was not enough. *)

Definition Step (A : Type) : Type :=
  Session -> Site -> option (Session * Site * Outcome A).

Definition unit_ {A} (a : A) : Step A := fun s t => Some (s, t, Done a).

Definition fail {A} (f : Failure) : Step A := fun s t => Some (s, t, Failed f).

Definition then_ {A B} (m : Step A) (k : A -> Step B) : Step B :=
  fun s t =>
    match m s t with
    | None => None
    | Some (s', t', Done a) => k a s' t'
    | Some (s', t', Failed f) => Some (s', t', Failed f)
    end.

Declare Scope step_scope.
Delimit Scope step_scope with step.
Notation "x <- m ;; k" := (then_ m (fun x => k))
  (at level 100, m at next level, right associativity) : step_scope.
Notation "m ;; k" := (then_ m (fun _ => k))
  (at level 100, right associativity) : step_scope.

Local Open Scope step_scope.

Definition say (e : Entry) : Step unit :=
  fun s t => Some (s, note e t, Done tt).

(** A call of the outside that gives [r]. *)
Definition outside {A} (r : Outcome A) : Step A := fun s t => Some (s, t, r).

(** A method of the engine, run on the processor as the engine sees it:
    [auto_ws] is the contents of the sheet [self.auto_ws] refers to, and what
    the method writes there is written to that sheet; the records it logs
    are appended to the journal. *)
Definition engine {A}
    (method : Processor -> World -> Processor * World * Result A) : Step A :=
  fun s t =>
    match method (with_auto_ws (core s) (content s t))
                 {| files := archive t; logged := [] |} with
    | (p', w', r) =>
        let bs := match sheet s, auto_ws p' with
                  | Some (b, title), Some ws => put_sheet b title ws (books t)
                  | _, _ => books t
                  end in
        Some (set_core s p',
              {| books := bs; archive := files w';
                 journal := journal t ++ (Inner <$> logged w');
                 saved := saved t; printed := printed t |},
              match r with
              | Return a => Done a
              | Raise e => Failed (Engine e)
              end)
    end.

(** *** _get_named_cell_value *)

Definition default_names : list string :=
  ["CBD"; "PBD"; "P2BD"; "Start_Time"; "End_Time"; "Execution_Time"].

(** [for name in names: ...] on the workbook object [book]. *)
Fixpoint for_names (book : Workbook) (names : list string)
    (named_cells : gmap string Named) : Step (gmap string Named) :=
  match names with
  | [] => unit_ named_cells
  | name :: rest =>
      match defined_names book !! name with
      | None =>
          say (WarnNamedRangeNotFound name) ;;
          for_names book rest (<[name := NoCell]> named_cells)
      | Some destinations =>
          match destinations with
          | [] => fail IndexError
          | (sheet_name, cell_address) :: _ =>
              match sheets book !! sheet_name with
              | None => fail (Engine KeyError)
              | Some _ =>
                  for_names book rest
                    (<[name := match cell_address with
                               | OneCell row col => CellOf sheet_name row col
                               | ManyCells => Tuple
                               end]> named_cells)
              end
          end
      end
  end.

(** What the loop stores under [name] for the workbook [book]; [None] when
    the lookup of the name raises. *)
Definition found (book : Workbook) (name : string) : option Named :=
  match defined_names book !! name with
  | None => Some NoCell
  | Some [] => None
  | Some ((sheet_name, cell_address) :: _) =>
      match sheets book !! sheet_name with
      | None => None
      | Some _ =>
          Some match cell_address with
               | OneCell row col => CellOf sheet_name row col
               | ManyCells => Tuple
               end
      end
  end.

(** The warnings the loop logs for [names]: one for each name the workbook
    does not define, in order. *)
Definition warnings (book : Workbook) (names : list string) : list Entry :=
  WarnNamedRangeNotFound
    <$> filter (fun name => defined_names book !! name = None) names.

(** [RestatementProcessor._get_named_cell_value(wb, names)] for the
    workbook object [b], [None] for [wb = None]; without [names] the six
    default names are looked up. *)
Definition _get_named_cell_value (b : option nat) (names : option (list string))
  : Step (gmap string Named) :=
  fun s t =>
    let names := default default_names names in
    match names with
    | [] => Some (s, t, Done ∅)
    | _ :: _ =>
        match b with
        | None => Some (s, t, Failed (Engine AttributeError))
        | Some b =>
            match books t !! b with
            | None => Some (s, t, Failed (Engine AttributeError))
            | Some book => for_names book names ∅ s t
            end
        end
    end.

(** [named_cells[name].value = v], the cells being those of workbook [b]. *)
Definition assign (b : option nat) (named_cells : gmap string Named)
    (name v : string) : Step unit :=
  fun s t =>
    match named_cells !! name with
    | None => Some (s, t, Failed (Engine KeyError))
    | Some NoCell | Some Tuple => Some (s, t, Failed (Engine AttributeError))
    | Some (CellOf title row col) =>
        match b with
        | None => Some (s, t, Failed (Engine AttributeError))
        | Some b =>
            Some (s, set_books t (set_cell b title row col v (books t)), Done tt)
        end
    end.

(** *** reset_excel_template *)

(** The loop over the rows of the sheet [self.auto_ws] refers to. *)
Definition clear_statuses : Step unit :=
  fun s t =>
    match sheet s, content s t with
    | Some (b, title), Some ws =>
        match reset_loop (S (size ws)) ws 2 with
        | None => None
        | Some (ws', row) =>
            Some (s,
                  note (Inner (InfoStatusReset (row - 2)))
                    (set_books t (put_sheet b title ws' (books t))),
                  Done tt)
        end
    | _, _ => Some (s, t, Failed (Engine AttributeError))
    end.

Definition reset_excel_template (o : Outside) (automated_sheet : string)
    (cbd pbd p2bd : Z) (script_start : string) : Step unit :=
  fun s t =>
    match load_workbook o (excel_file (core s)) with
    | Failed (Engine KeyError) => Some (s, note ErrCannotLoadWorkbook t, Done tt)
    | Failed f => Some (s, t, Failed f)
    | Done book =>
        let b := length (books t) in
        let s1 := set_wb s (Some b) in
        let t1 := note (Inner InfoWorkbookLoaded) (set_books t (books t ++ [book])) in
        match sheets book !! automated_sheet with
        | None => Some (s1, note ErrAutomatedSheetNotFound t1, Done tt)
        | Some _ =>
            (named_cells <- _get_named_cell_value (Some b) None ;;
             assign (Some b) named_cells "CBD" (strftime o cbd) ;;
             assign (Some b) named_cells "PBD" (strftime o pbd) ;;
             assign (Some b) named_cells "P2BD" (strftime o p2bd) ;;
             assign (Some b) named_cells "Start_Time" script_start ;;
             say (InfoBusinessDates cbd pbd p2bd) ;;
             clear_statuses)
              (set_sheet s1 (Some (b, automated_sheet))) t1
        end
    end.

(** *** build_dictionary_from_excel *)

(** The table is read from the file on disk, under the title of the sheet
    [self.auto_ws] refers to; without a sheet the attribute access raises
    inside the [try], as a failed read does. *)
Definition build_dictionary_from_excel (o : Outside)
  : Step (option (DataFrame * MappingDict)) :=
  fun s t =>
    engine (build_dictionary_from_excel
              match sheet s with
              | None => None
              | Some (_, title) => read_excel o (excel_file (core s)) title
              end) s t.

(** *** connect_outlook *)

(** [not folder_name] *)
Definition not_given (folder_name : option string) : bool :=
  match folder_name with
  | None => true
  | Some name => bool_decide (name = EmptyString)
  end.

(** [try: ... except Exception as folder_error: raise Exception(...)] *)
Definition pick_folder (o : Outside) (folder_type : OutlookFolderName)
    (folder_name : option string) (shared_inbox : Folder) : Outcome Folder :=
  if decide (value folder_type = "custom") then
    match Parent_Folders o shared_inbox (default EmptyString folder_name) with
    | Done f => Done f
    | Failed _ => Failed PlainException
    end
  else if decide (value folder_type = "subfolder") then
    match Folders o shared_inbox (default EmptyString folder_name) with
    | Done f => Done f
    | Failed _ => Failed PlainException
    end
  else Done shared_inbox.

Definition connect_outlook (o : Outside) (folder_name : option string)
    (folder_type : option OutlookFolderName) : Step Folder :=
  fun s t =>
    (let folder_type := default INBOX folder_type in
     outside (CreateRecipient o (mailbox_name (core s))) ;;
     say (InfoConnecting (mailbox_name (core s))) ;;
     resolved <- outside (Resolve o (mailbox_name (core s))) ;;
     if negb resolved then fail PlainException
     else if bool_decide (folder_type ∈ [CUSTOM; SUBFOLDER])
             && not_given folder_name
     then fail (Engine ValueError)
     else
       shared_inbox <- outside (GetSharedDefaultFolder o (mailbox_name (core s))) ;;
       folder <- outside (pick_folder o folder_type folder_name shared_inbox) ;;
       say (InfoConnected (Name folder) folder_type) ;;
       (fun s' t' => Some (set_folder s' (Some folder), t', Done folder))) s t.

(** *** get_items *)

Definition get_items (get_filter_time_func : Argument) : Step (list Message) :=
  fun s t =>
    match folder s with
    | None => Some (s, t, Failed (Engine ValueError))
    | Some f =>
        match get_filter_time_func with
        | Datetime => Some (s, t, Failed TypeError)
        | Function call =>
            match call with
            | Failed e => Some (s, t, Failed e)
            | Done filter_time =>
                let filter_str :=
                  "[ReceivedTime] >= '" +:+ filter_time +:+ "'" in
                match Restrict f filter_str with
                | Failed e => Some (s, t, Failed e)
                | Done items =>
                    Some (set_core s (set_items (core s) items),
                          note (InfoRetrieved (length items) (Name f)) t,
                          Done items)
                end
            end
        end
    end.

(** *** match_and_save_attachments and update_excel_status *)

Definition match_and_save_attachments (o : Outside) : Step Updates :=
  engine (match_and_save_attachments (fnmatch o) (os_path_join o)).

(** [try: self.wb.save(self.excel_file) ... except Exception ...] *)
Definition save_workbook (o : Outside) : Step unit :=
  fun s t =>
    match wb s with
    | None => Some (s, note ErrFailedToSaveWorkbook t, Done tt)
    | Some b =>
        match books t !! b with
        | None => Some (s, note ErrFailedToSaveWorkbook t, Done tt)
        | Some book =>
            match save o (excel_file (core s)) book with
            | Failed _ => Some (s, note ErrFailedToSaveWorkbook t, Done tt)
            | Done _ =>
                Some (s,
                      note (InfoWorkbookSaved (excel_file (core s)))
                        {| books := books t; archive := archive t;
                           journal := journal t;
                           saved := saved t ++ [(excel_file (core s), book)];
                           printed := printed t |},
                      Done tt)
            end
        end
    end.

(** The whole method: the guard, the loop and the log record of
    [update_excel_status] above, then the two stamps and the saving;
    [duration] is the text [str(duration).split('.')[0]]. *)
Definition update_excel_status (o : Outside) (script_end duration : string)
  : Step unit :=
  fun s t =>
    (engine update_excel_status ;;
     named_cells <- _get_named_cell_value (wb s) None ;;
     assign (wb s) named_cells "End_Time" script_end ;;
     assign (wb s) named_cells "Execution_Time" duration ;;
     save_workbook o) s t.

(** *** cleanup *)

Definition released (p : Processor) : Processor :=
  {| excel_file := excel_file p; auto_ws := None;
     mailbox_name := mailbox_name p; archive_folder := archive_folder p;
     mapping_df := None; mapping_dict := None;
     items := None; excel_doc_updates := excel_doc_updates p |}.

Definition cleanup (o : Outside) : Step unit :=
  fun s t =>
    Some ({| core := released (core s); wb := None; sheet := None;
             folder := None |},
          note InfoCleanupCompleted
            match CoUninitialize o with
            | Failed _ => note ErrCOMUninitialization t
            | Done _ => t
            end,
          Done tt).

(** *** main *)

(** How [main] ends: it returns, or [SystemExit] or an exception leaves it. *)
Inductive Exit :=
| Returned
| SystemExit (code : nat)
| Uncaught (f : Failure).

(** The clock of [main]: the texts of [script_start] and [script_end] as
    [strftime("%Y-%m-%d %H:%M:%S")] gives them, and of the duration. *)
Record Clock := mkClock {
  script_start : string;
  script_end : string;
  duration : string
}.

(** The statements of the [try] up to the construction of the processor:
    the three dates and the archive directory. *)
Definition prelude (o : Outside) (c : Constants) (t : Site)
  : option (Site * Outcome (Z * Z * Z * string)) :=
  match BusinessDays.get_prior_business_days (today o 0) 0 with
  | None => None
  | Some (Failed f) => Some (t, Failed f)
  | Some (Done cbd) =>
  match BusinessDays.get_prior_business_days (today o 1) 1 with
  | None => None
  | Some (Failed f) => Some (t, Failed f)
  | Some (Done pbd) =>
  match BusinessDays.get_prior_business_days (today o 2) 2 with
  | None => None
  | Some (Failed f) => Some (t, Failed f)
  | Some (Done p2bd) =>
  match make_import_archive_path o (BASE_PATH c) pbd with
  | Failed f => Some (t, Failed f)
  | Done save_dir =>
  match basicConfig o (os_path_join o save_dir "script.log") with
  | Failed f => Some (t, Failed f)
  | Done _ =>
  match CoInitialize o with
  | Failed f => Some (t, Failed f)
  | Done _ => Some (note InfoScriptStarted t, Done (cbd, pbd, p2bd, save_dir))
  end end end end end end.

(** [len(processor.items)] and [len(processor.excel_doc_updates)] *)
Definition summary : Step unit :=
  fun s t =>
    match items (core s) with
    | None => Some (s, t, Failed TypeError)
    | Some ms =>
        match excel_doc_updates (core s) with
        | None => Some (s, note (InfoProcessedMessages (length ms)) t,
                        Failed TypeError)
        | Some u =>
            let t1 := note (InfoSavedAttachments (size u))
                        (note (InfoProcessedMessages (length ms)) t) in
            Some (s,
                  {| books := books t1; archive := archive t1;
                     journal := journal t1; saved := saved t1;
                     printed := printed t1 ++ [(length ms, size u)] |},
                  Done tt)
        end
    end.

(** The statements of the [try] on the processor. *)
Definition stages (o : Outside) (c : Constants) (k : Clock)
    (cbd pbd p2bd : Z) : Step unit :=
  reset_excel_template o (AUTOMATED_SHEET c) cbd pbd p2bd (script_start k) ;;
  build_dictionary_from_excel o ;;
  connect_outlook o (Some (FOLDER_NAME c)) (Some CUSTOM) ;;
  outside (get_filter_time o pbd 16 0 "US/Eastern") ;;
  get_items Datetime ;;
  match_and_save_attachments o ;;
  say InfoScriptDuration ;;
  update_excel_status o (script_end k) (duration k) ;;
  summary.

(** [except Exception as e: ... sys.exit(1)] *)
Definition handler (f : Failure) (t : Site) : Site :=
  note ExcUnexpected (note (ErrUnhandled f) t).

(** [finally: ...]: the test ['processor' is not None] compares a string
    literal with [None] and always holds, so [cleanup] is called on whatever
    [processor] is; on [None] the call raises, and that exception replaces
    the pending exit. *)
Definition finally (o : Outside) (processor : option Session) (t : Site)
    (pending : Exit) : option (option Session * Site * Exit) :=
  let t1 := note InfoStartingCleanup t in
  match processor with
  | None => Some (None, t1, Uncaught (Engine AttributeError))
  | Some s =>
      match cleanup o s t1 with
      | None => None
      | Some (s', t2, Done _) => Some (Some s', t2, pending)
      | Some (s', t2, Failed f) => Some (Some s', t2, Uncaught f)
      end
  end.

Definition main (o : Outside) (c : Constants) (k : Clock) (t : Site)
  : option (option Session * Site * Exit) :=
  match prelude o c t with
  | None => None
  | Some (t1, Failed f) => finally o None (handler f t1) (SystemExit 1)
  | Some (t1, Done (cbd, pbd, p2bd, save_dir)) =>
      let processor :=
        new (main_processor (EXCEL_FILE c) (SHARED_MAILBOX c) save_dir) in
      match stages o c k cbd pbd p2bd processor t1 with
      | None => None
      | Some (s, t2, Failed f) =>
          finally o (Some s) (handler f t2) (SystemExit 1)
      | Some (s, t2, Done _) => finally o (Some s) t2 Returned
      end
  end.

(** [keeps_cells book book']: the two workbooks define the same names, and
    every cell that holds a value in [book] holds one in [book']. *)
Definition keeps_cells (book book' : Workbook) : Prop :=
  defined_names book' = defined_names book
  /\ forall title ws rc,
       sheets book !! title = Some ws -> is_Some (ws !! rc) ->
       exists ws', sheets book' !! title = Some ws' /\ is_Some (ws' !! rc).

(** The names [reset_excel_template] assigns to. *)
Definition reset_names : list string := ["CBD"; "PBD"; "P2BD"; "Start_Time"].

(** *** What a step keeps

    [quiet t t']: no attachment was written, no workbook saved and nothing
    printed from [t] to [t'].  [steady s s']: the arguments of the
    constructor and [excel_doc_updates] are in [s'] what they are in [s]. *)

Definition quiet (t t' : Site) : Prop :=
  archive t' = archive t /\ saved t' = saved t /\ printed t' = printed t.

Definition steady (s s' : Session) : Prop :=
  excel_file (core s') = excel_file (core s)
  /\ archive_folder (core s') = archive_folder (core s)
  /\ mailbox_name (core s') = mailbox_name (core s)
  /\ excel_doc_updates (core s') = excel_doc_updates (core s).

(** The step ends, whatever the processor and the world are. *)
Definition calm {A} (m : Step A) : Prop :=
  forall s t, exists s' t' r,
    m s t = Some (s', t', r) /\ steady s s' /\ quiet t t'.

(** The step ends with an exception, whatever the processor and the world
    are. *)
Definition refuses {A} (m : Step A) : Prop :=
  forall s t, exists s' t' f,
    m s t = Some (s', t', Failed f) /\ steady s s' /\ quiet t t'.

End Session.

(** ** A machine for the script *)

Module Office.

Import Session.

(** The workbook: the automated sheet of [Scenario], and a settings sheet
    with the six named cells in B1 to B6. *)
Definition book : Workbook :=
  {| sheets := list_to_map [("Automated", Scenario.sheet); ("Settings", ∅)];
     defined_names :=
       list_to_map
         [("CBD", [("Settings", OneCell 1 2)]);
          ("PBD", [("Settings", OneCell 2 2)]);
          ("P2BD", [("Settings", OneCell 3 2)]);
          ("Start_Time", [("Settings", OneCell 4 2)]);
          ("End_Time", [("Settings", OneCell 5 2)]);
          ("Execution_Time", [("Settings", OneCell 6 2)])] |}.

(** The same workbook without the name [PBD]. *)
Definition book_without_PBD : Workbook :=
  {| sheets := sheets book; defined_names := delete "PBD" (defined_names book) |}.

Definition statements : Folder :=
  {| Name := "Statements";
     Restrict := fun _ =>
       Done [Scenario.msg "A@X.COM" "report" [Scenario.data_csv]] |}.

Definition inbox : Folder :=
  {| Name := "Inbox"; Restrict := fun _ => Done [] |}.

(** A machine on which every call of the outside succeeds: today is Monday
    6 May 2024, the file holds [workbook], and the mailbox has a folder
    beside the inbox. *)
Definition outside (workbook : Workbook) : Outside :=
  {| fnmatch := Lib.fnmatch_glob;
     os_path_join := Lib.ntpath_join;
     today := fun _ => 739012%Z;
     strftime := fun _ => "2024-05-03";
     make_import_archive_path := fun _ _ => Done Scenario.archive;
     basicConfig := fun _ => Done tt;
     CoInitialize := Done tt;
     CoUninitialize := Done tt;
     load_workbook := fun _ => Done workbook;
     read_excel := fun _ _ => Some Scenario.table;
     save := fun _ _ => Done tt;
     CreateRecipient := fun _ => Done tt;
     Resolve := fun _ => Done true;
     GetSharedDefaultFolder := fun _ => Done inbox;
     Parent_Folders := fun _ _ => Done statements;
     Folders := fun _ _ => Failed (Engine com_error);
     get_filter_time := fun _ _ _ _ => Done tt |}.

Definition constants : Constants :=
  {| EXCEL_FILE := "rules.xlsx";
     AUTOMATED_SHEET := "Automated";
     SETTINGS_SHEET := "Settings";
     REVISION_SHEET := "Revisions";
     SHARED_MAILBOX := Scenario.mailbox;
     FOLDER_NAME := "Statements";
     BASE_PATH := "C:\Statements" |}.

Definition clock : Clock :=
  {| script_start := "2024-05-06 08:00:00";
     script_end := "2024-05-06 08:00:07";
     duration := "0:00:07" |}.

Definition nothing : Site :=
  {| books := []; archive := []; journal := []; saved := []; printed := [] |}.

(** The processor as it should be constructed, on the file [rules.xlsx]. *)
Definition processor : Session :=
  new (init "rules.xlsx" Scenario.archive (Some Scenario.mailbox)).

End Office.

(** * Properties *)

(** ** Strings *)

Section StringFacts.

Lemma append_cons c s t : String c s +:+ t = String c (s +:+ t).
Proof. reflexivity. Qed.

Lemma append_nil s : EmptyString +:+ s = s.
Proof. reflexivity. Qed.

Lemma lower_same_letters s s' : same_letters s s' -> lower s = lower s'.
Proof. induction 1 as [|c c' r r' Hc _ IH]; simpl; congruence. Qed.

Lemma same_letters_refl s : same_letters s s.
Proof. induction s; constructor; auto. Qed.

Lemma lower_char_idem c : lower_char (lower_char c) = lower_char c.
Proof. destruct c as [[] [] [] [] [] [] [] []]; reflexivity. Qed.

(** Upper and lower case spellings of one text are [same_letters]. *)
Lemma same_letters_lower s : same_letters s (lower s).
Proof.
  induction s as [|c r IH]; simpl; constructor; auto.
  symmetry. apply lower_char_idem.
Qed.

(** No lower-cased character is a capital S (code point 83). *)
Lemma lower_char_not_capital_S c : nat_of_ascii (lower_char c) <> 83.
Proof. destruct c as [[] [] [] [] [] [] [] []]; vm_compute; discriminate. Qed.

Lemma lower_not_Status s : lower s <> "Status".
Proof.
  destruct s as [|c r]; simpl; [discriminate|].
  intros H. injection H as Hc _.
  apply (lower_char_not_capital_S c). rewrite Hc. reflexivity.
Qed.

Lemma length_re_sub_illegal s : String.length (re_sub_illegal s) = String.length s.
Proof. induction s; simpl; congruence. Qed.

Lemma get_re_sub_illegal s n :
  String.get n (re_sub_illegal s)
  = (fun c => if is_illegal c then underscore else c) <$> String.get n s.
Proof.
  revert n. induction s as [|c r IH]; intros [|n]; simpl; auto.
Qed.

Lemma re_sub_illegal_clean s :
  all_chars (fun c => negb (is_illegal c)) (re_sub_illegal s) = true.
Proof.
  induction s as [|c r IH]; simpl; [reflexivity|].
  rewrite IH, andb_true_r.
  destruct (is_illegal c) eqn:E; [reflexivity | now rewrite E].
Qed.

(** A character of the class does not occur after the substitution. *)
Lemma re_sub_illegal_occurs c s :
  is_illegal c = true -> occurs c (re_sub_illegal s) = false.
Proof.
  intros Hc. induction s as [|d r IH]; simpl; [reflexivity|].
  rewrite IH, orb_false_r. apply Nat.eqb_neq. intros E.
  apply (f_equal ascii_of_nat) in E. rewrite !ascii_nat_embedding in E.
  destruct (is_illegal d) eqn:Hd; subst c; [discriminate Hc | congruence].
Qed.

(** [lstrip] removes a run of white space from the front and nothing else. *)
Lemma lstrip_spec s :
  exists l, s = l +:+ lstrip s /\ all_chars is_space l = true
            /\ match lstrip s with
               | EmptyString => True
               | String c _ => is_space c = false
               end.
Proof.
  induction s as [|c r (l & Hl & Hw & Hf)]; simpl.
  - exists EmptyString. auto.
  - destruct (is_space c) eqn:E.
    + exists (String c l). simpl. rewrite E, Hw, append_cons.
      split; [congruence | auto].
    + exists EmptyString. simpl. auto.
Qed.

(** [rstrip] removes a run of white space from the back and nothing else. *)
Lemma rstrip_spec s :
  exists r, s = rstrip s +:+ r /\ all_chars is_space r = true
            /\ match Lib.last_char (rstrip s) with
               | None => rstrip s = EmptyString
               | Some c => is_space c = false
               end.
Proof.
  induction s as [|c t (r & Hr & Hw & Hl)]; simpl.
  - exists EmptyString. auto.
  - destruct (rstrip t) as [|d t'] eqn:Et.
    + destruct (is_space c) eqn:E.
      * exists (String c r). simpl in *. rewrite E, Hw.
        rewrite append_nil in *. split; [congruence | auto].
      * exists r. simpl in *. rewrite append_cons, append_nil in *.
        split; [congruence | auto].
    + exists r. rewrite !append_cons in *. split; [congruence|].
      split; [auto|]. simpl in *. destruct t' as [|a t']; auto.
      destruct (Lib.last_char (String a t')); [auto | discriminate Hl].
Qed.

Lemma rstrip_head c s :
  is_space c = false -> exists t, rstrip (String c s) = String c t.
Proof.
  intros E. simpl. destruct (rstrip s); rewrite ?E; eauto.
Qed.

(** [strip] is the text between the surrounding white space: what is cut
    off on either side is white space only, and what is left neither
    starts nor ends with white space. *)
Lemma strip_spec s :
  exists l r,
    s = l +:+ strip s +:+ r
    /\ all_chars is_space l = true /\ all_chars is_space r = true
    /\ match strip s with
       | EmptyString => True
       | String c _ => is_space c = false
       end
    /\ match Lib.last_char (strip s) with
       | None => strip s = EmptyString
       | Some c => is_space c = false
       end.
Proof.
  unfold strip.
  destruct (lstrip_spec s) as (l & Hl & Hwl & Hf).
  destruct (rstrip_spec (lstrip s)) as (r & Hr & Hwr & Hlast).
  exists l, r. repeat split; auto.
  - rewrite <- Hr. exact Hl.
  - destruct (lstrip s) as [|c t]; [simpl; auto|].
    destruct (rstrip_head c t Hf) as [t' ->]. exact Hf.
Qed.

End StringFacts.

(** ** The loader *)

Section Loader.

Lemma lookup_setdefault_append (key : string * string) (v : Rule)
    (d : MappingDict) (key' : string * string) :
  setdefault_append key v d !! key'
  = if decide (key = key') then Some (default [] (d !! key) ++ [v])
    else d !! key'.
Proof. unfold setdefault_append. apply lookup_insert. Qed.

(** What the loop leaves under a key: the list that was there, followed by
    the table's rules for that key in table order. *)
Lemma iterrows_lookup (rs : list Row) :
  forall (idx : nat) (d : MappingDict) (key : string * string),
  iterrows idx rs d !! key
  = match rules_for key idx rs with
    | [] => d !! key
    | l => Some (default [] (d !! key) ++ l)
    end.
Proof.
  induction rs as [|row rs IH]; intros idx d key; simpl; [reflexivity|].
  rewrite IH, lookup_setdefault_append.
  destruct (decide (row_key row = key)) as [->|Hne]; simpl.
  - destruct (rules_for key (S idx) rs); simpl; [reflexivity|].
    now rewrite <- app_assoc.
  - reflexivity.
Qed.

Lemma iterrows_empty_lookup (rs : list Row) (key : string * string) :
  default [] (iterrows 0 rs ∅ !! key) = rules_for key 0 rs.
Proof.
  rewrite iterrows_lookup, lookup_empty.
  destruct (rules_for key 0 rs); reflexivity.
Qed.

Lemma elem_of_rules_for (key : string * string) (rs : list Row) :
  forall (idx : nat) (m : Rule),
  m ∈ rules_for key idx rs
  <-> exists i row, rs !! i = Some row /\ row_key row = key
                    /\ m = row_value (idx + i) row.
Proof.
  induction rs as [|row rs IH]; intros idx m; simpl.
  - split; [intros H; inversion H | intros (i & r & H & _); discriminate H].
  - rewrite elem_of_app, IH. split.
    + intros [H | (i & r & Hi & Hk & ->)].
      * destruct (decide (row_key row = key)); [|inversion H].
        apply list_elem_of_singleton in H as ->.
        exists 0, row. rewrite Nat.add_0_r. auto.
      * exists (S i), r. rewrite Nat.add_succ_r. auto.
    + intros ([|i] & r & Hi & Hk & ->); simpl in Hi.
      * injection Hi as ->. left. rewrite decide_True by done.
        rewrite Nat.add_0_r. apply list_elem_of_singleton. reflexivity.
      * right. exists i, r. rewrite Nat.add_succ_r. auto.
Qed.

Lemma rules_for_RowIndex_ge (key : string * string) (rs : list Row) :
  forall (idx : nat) (m : Rule),
  m ∈ rules_for key idx rs -> idx <= RowIndex m.
Proof.
  intros idx m (i & row & _ & _ & ->)%elem_of_rules_for. simpl. lia.
Qed.

(** The rules under one key carry pairwise distinct row indexes. *)
Lemma rules_for_NoDup (key : string * string) (rs : list Row) :
  forall idx : nat,
  NoDup (RowIndex <$> rules_for key idx rs).
Proof.
  induction rs as [|row rs IH]; intros idx; simpl; [constructor|].
  rewrite fmap_app. apply NoDup_app. split; [|split].
  - destruct (decide (row_key row = key)); simpl;
      [apply NoDup_singleton | constructor].
  - intros n Hn Hn'. apply list_elem_of_fmap in Hn' as (m & -> & Hm).
    apply rules_for_RowIndex_ge in Hm.
    destruct (decide (row_key row = key)); simpl in Hn; [|inversion Hn].
    apply list_elem_of_singleton in Hn. simpl in Hn. lia.
  - apply IH.
Qed.

(** A sublist picked by [filter] keeps the distinctness. *)
Lemma NoDup_RowIndex_filter (P : Rule -> Prop) `{!forall m, Decision (P m)}
    (l : list Rule) :
  NoDup (RowIndex <$> l) -> NoDup (RowIndex <$> filter P l).
Proof.
  intros Hnd. apply (sublist_NoDup _ _ Hnd), fmap_sublist, sublist_filter.
Qed.

(** A table with all required columns and at least one row is loaded
    without an exception, and the processor then holds the index. *)
Lemma build_dictionary_ok (t : RawTable) (p : Processor) (w : World) :
  missing_cols (normalize_columns t) = [] -> raw_rows t <> [] ->
  exists p' w',
    build_dictionary_from_excel (Some t) p w
    = (p', w', Return (Some (normalize_columns t, iterrows 0 (raw_rows t) ∅)))
    /\ mapping_dict p' = Some (iterrows 0 (raw_rows t) ∅)
    /\ mapping_df p' = Some (normalize_columns t)
    /\ archive_folder p' = archive_folder p
    /\ items p' = items p
    /\ files w' = files w.
Proof.
  intros Hm Hr. unfold build_dictionary_from_excel. rewrite Hm. simpl.
  destruct (raw_rows t) as [|r rs] eqn:E; [congruence|].
  eexists _, _. split; [reflexivity|]. simpl. auto 6.
Qed.

End Loader.

(** C4, as amended: for every row of a table that has each required column
    exactly once, the loader files the row's rule under the key made of the sender and
    subject cells, each turned into text, lower-cased and then stripped of
    surrounding white space; the rule's pattern is the attachment cell
    treated the same way, and its row index is the row's position.  No
    exception is raised.  An empty (NaN) cell is turned into the text "nan",
    not into the empty string. *)
Theorem C4_loader_normalizes_key_cells
    (t : RawTable) (p : Processor) (w : World) (idx : nat) (row : Row) :
  missing_cols (normalize_columns t) = [] ->
  required_once (normalize_columns t) ->
  raw_rows t !! idx = Some row ->
  exists p' w' df d rules,
    build_dictionary_from_excel (Some t) p w = (p', w', Return (Some (df, d)))
    /\ mapping_dict p' = Some d
    /\ d !! (strip (lower (py_str (sender row))),
             strip (lower (py_str (subject row)))) = Some rules
    /\ {| AttachmentPattern := strip (lower (py_str (attachment row)));
          SaveName := strip (py_str (savename row));
          RowIndex := idx |} ∈ rules
    /\ strip (lower (py_str NaN)) = "nan".
Proof.
  intros Hm _ Hi.
  assert (Hne : raw_rows t <> []) by (intros E; rewrite E in Hi; discriminate Hi).
  destruct (build_dictionary_ok t p w Hm Hne) as (p' & w' & Hb & Hd & _).
  assert (Hin : row_value idx row ∈ rules_for (row_key row) 0 (raw_rows t)).
  { apply elem_of_rules_for. exists idx, row. auto. }
  exists p', w', (normalize_columns t), (iterrows 0 (raw_rows t) ∅),
    (rules_for (row_key row) 0 (raw_rows t)).
  split; [exact Hb|]. split; [exact Hd|]. split; [|split; [exact Hin | reflexivity]].
  change (strip (lower (py_str (sender row))), strip (lower (py_str (subject row))))
    with (row_key row).
  rewrite iterrows_lookup, lookup_empty.
  destruct (rules_for (row_key row) 0 (raw_rows t)); [inversion Hin | reflexivity].
Qed.

Lemma C4_loader_normalizes_key_cells_witness :
  exists p' w' df d rules,
    build_dictionary_from_excel (Some Scenario.table)
      (init "rules.xlsx" Scenario.archive None) Scenario.nowhere
    = (p', w', Return (Some (df, d)))
    /\ mapping_dict p' = Some d
    /\ d !! ("a@x.com", "report") = Some rules
    /\ {| AttachmentPattern := "data*"; SaveName := "Q1/Q2:Report?.csv";
          RowIndex := 1 |} ∈ rules
    /\ strip (lower (py_str NaN)) = "nan".
Proof.
  apply (C4_loader_normalizes_key_cells Scenario.table
           (init "rules.xlsx" Scenario.archive None) Scenario.nowhere 1
           (mkRow (Text "a@x.com") (Text " report ") (Text "Data*")
              (Text "Q1/Q2:Report?.csv") NaN)).
  - vm_compute. reflexivity.
  - vm_compute. repeat constructor.
  - reflexivity.
Defined.

(** C4 as the spec words it fails: a row whose sender cell is empty is not
    filed under the empty string but under "nan". *)
Lemma C4_nan_cell_is_not_empty_string :
  let t := {| raw_columns := Scenario.header;
              raw_rows := [mkRow NaN (Text "Report") (Text "*.csv")
                             (Text "daily.csv") NaN] |} in
  let p := Scenario.loaded t Scenario.archive in
  row_key (mkRow NaN (Text "Report") (Text "*.csv") (Text "daily.csv") NaN)
  = ("nan", "report")
  /\ (mapping_dict p ≫= fun d => d !! ("", "report")) = None
  /\ (mapping_dict p ≫= fun d => d !! ("nan", "report"))
     = Some [ {| AttachmentPattern := "*.csv"; SaveName := "daily.csv";
                 RowIndex := 0 |} ].
Proof. vm_compute. auto. Qed.

(** ** The evaluator *)

Section ExtendsFacts.

Context (P : string * list Byte.byte -> Prop).

Lemma Extends_refl s : Extends P s s.
Proof.
  split; auto.
  - exists []. rewrite app_nil_r. auto.
  - exists []. now rewrite app_nil_r.
Qed.

Lemma Extends_trans s1 s2 s3 :
  Extends P s1 s2 -> Extends P s2 s3 -> Extends P s1 s3.
Proof.
  intros [K1 N1 (f1 & F1 & P1) (l1 & L1)] [K2 N2 (f2 & F2 & P2) (l2 & L2)].
  split.
  - intros idx u H. destruct (K1 _ _ H) as [H'|H']; destruct (K2 _ _ H'); auto.
  - intros idx u H. destruct (N2 _ _ H) as [H'|H']; [|auto].
    destruct (N1 _ _ H'); auto.
  - exists (f1 ++ f2). rewrite F2, F1, app_assoc. split; [reflexivity|].
    apply Forall_app; auto.
  - exists (l1 ++ l2). now rewrite L2, L1, app_assoc.
Qed.

Lemma Extends_weaken (Q : string * list Byte.byte -> Prop) s s' :
  (forall f, P f -> Q f) -> Extends P s s' -> Extends Q s s'.
Proof.
  intros HPQ [K N (f & F & HP) L]. split; auto.
  exists f. split; [exact F|]. eapply Forall_impl; eauto.
Qed.

Lemma Extends_info r s :
  Extends P s {| updates := updates s; world := info r (world s) |}.
Proof.
  split; simpl; auto.
  - exists []. rewrite app_nil_r. auto.
  - eauto.
Qed.

(** In a run that starts without updates every update is [Saved]. *)
Lemma Extends_from_empty s s' idx u :
  updates s = ∅ -> Extends P s s' -> updates s' !! idx = Some u -> u = Saved.
Proof.
  intros He [_ N _ _] H. destruct (N _ _ H) as [H'|H']; [|exact H'].
  rewrite He, lookup_empty in H'. discriminate H'.
Qed.

End ExtendsFacts.

Section EngineFacts.

Variable fnmatch : string -> string -> bool.
Variable os_path_join : string -> string -> string.

Local Abbreviation for_matches := (for_matches fnmatch os_path_join).
Local Abbreviation for_attachments := (for_attachments fnmatch os_path_join).
Local Abbreviation try_message := (try_message fnmatch os_path_join).
Local Abbreviation process_message := (process_message fnmatch os_path_join).
Local Abbreviation for_messages := (for_messages fnmatch os_path_join).
Local Abbreviation match_and_save_attachments :=
  (match_and_save_attachments fnmatch os_path_join).
Local Abbreviation matching := (matching fnmatch).
Local Abbreviation save_path_of := (save_path_of os_path_join).
Local Abbreviation record_hit := (record_hit os_path_join).
Local Abbreviation record_hits := (record_hits os_path_join).
Local Abbreviation attachment_done := (attachment_done fnmatch os_path_join).
Local Abbreviation files_of := (files_of fnmatch os_path_join).
Local Abbreviation rows_of := (rows_of fnmatch).

Local Abbreviation hit := (hit fnmatch).

Lemma matching_cons_hit name m cands :
  hit name m = true -> matching name (m :: cands) = m :: matching name cands.
Proof. intros H. unfold Evaluator.matching. now rewrite filter_cons_True. Qed.

Lemma matching_cons_miss name m cands :
  hit name m = false -> matching name (m :: cands) = matching name cands.
Proof.
  intros H. unfold Evaluator.matching. rewrite filter_cons_False; [done|].
  congruence.
Qed.

(** *** One attachment against the candidates *)

(** A readable attachment is saved once for every candidate it satisfies,
    in the order of the candidates, and the loop does not raise. *)
Lemma for_matches_readable folder a bytes name :
  Payload a = Some bytes ->
  forall cands matched s,
    for_matches folder a name cands matched s
    = (record_hits folder bytes (matching name cands) s,
       Return (matched || existsb (hit name) cands)).
Proof.
  intros Hp. induction cands as [|m cands IH]; intros matched s; simpl.
  - now rewrite orb_false_r.
  - fold (hit name m). destruct (hit name m) eqn:E.
    + rewrite (matching_cons_hit _ _ _ E), orb_true_r.
      unfold bind, SaveAsFile. rewrite Hp. simpl.
      rewrite IH. reflexivity.
    + rewrite (matching_cons_miss _ _ _ E). simpl. apply IH.
Qed.

(** An unreadable attachment raises at the first candidate it satisfies,
    with nothing done; without such a candidate the loop ends normally. *)
Lemma for_matches_unreadable folder a name :
  Payload a = None ->
  forall cands matched s,
    for_matches folder a name cands matched s
    = (s, if existsb (hit name) cands then Raise com_error else Return matched).
Proof.
  intros Hp. induction cands as [|m cands IH]; intros matched s; simpl.
  - reflexivity.
  - fold (hit name m). destruct (hit name m) eqn:E; simpl.
    + unfold bind, SaveAsFile. rewrite Hp. reflexivity.
    + apply IH.
Qed.

Lemma existsb_hit_matching name cands :
  existsb (hit name) cands = false <-> matching name cands = [].
Proof.
  induction cands as [|m cands IH]; simpl; [done|].
  destruct (hit name m) eqn:E.
  - rewrite (matching_cons_hit _ _ _ E). simpl. split; discriminate.
  - rewrite (matching_cons_miss _ _ _ E). simpl. exact IH.
Qed.

Lemma elem_of_matching name cands m :
  m ∈ matching name cands <-> m ∈ cands /\ hit name m = true.
Proof. unfold Evaluator.matching. rewrite list_elem_of_filter. tauto. Qed.

(** *** What [record_hits] leaves *)

Lemma files_record_hits folder bytes hits : forall s,
  files (world (record_hits folder bytes hits s))
  = files (world s) ++ ((fun m => (save_path_of folder m, bytes)) <$> hits).
Proof.
  unfold Evaluator.record_hits.
  induction hits as [|m hits IH]; intros s; simpl.
  - now rewrite app_nil_r.
  - rewrite IH. simpl. now rewrite <- app_assoc.
Qed.

Lemma logged_record_hits folder bytes hits : forall s,
  logged (world (record_hits folder bytes hits s))
  = logged (world s) ++ ((fun m => InfoSaved (save_path_of folder m)) <$> hits).
Proof.
  unfold Evaluator.record_hits.
  induction hits as [|m hits IH]; intros s; simpl.
  - now rewrite app_nil_r.
  - rewrite IH. simpl. now rewrite <- app_assoc.
Qed.

Lemma updates_record_hits folder bytes hits : forall s idx,
  updates (record_hits folder bytes hits s) !! idx
  = if decide (idx ∈ RowIndex <$> hits) then Some Saved else updates s !! idx.
Proof.
  unfold Evaluator.record_hits.
  induction hits as [|m hits IH]; intros s idx; cbn [foldl].
  - rewrite decide_False; [done | rewrite fmap_nil; apply not_elem_of_nil].
  - rewrite IH, fmap_cons. cbn [updates Evaluator.record_hit].
    rewrite lookup_insert.
    destruct (decide (idx ∈ RowIndex <$> hits)) as [Hin|Hout].
    + rewrite decide_True; [done | now apply elem_of_cons; right].
    + destruct (decide (RowIndex m = idx)) as [<-|Hne].
      * rewrite decide_True; [done | now apply elem_of_cons; left].
      * rewrite decide_False; [done|].
        intros [?|?]%elem_of_cons; congruence.
Qed.

(** From no update at all, [n] hits with distinct row indexes leave [n]
    updates. *)
Lemma size_record_hits folder bytes hits s :
  updates s = ∅ -> NoDup (RowIndex <$> hits) ->
  size (updates (record_hits folder bytes hits s)) = length hits.
Proof.
  intros He Hnd.
  assert (E : updates (record_hits folder bytes hits s)
              = list_to_map ((fun m => (RowIndex m, Saved)) <$> hits)).
  { apply map_eq. intros idx. rewrite updates_record_hits, He, lookup_empty.
    destruct (decide (idx ∈ RowIndex <$> hits)) as [Hin|Hout].
    - symmetry. apply elem_of_list_to_map.
      + now rewrite <- list_fmap_compose.
      + apply list_elem_of_fmap in Hin as (m & -> & Hm).
        apply list_elem_of_fmap. eauto.
    - symmetry. apply not_elem_of_list_to_map.
      now rewrite <- list_fmap_compose. }
  rewrite E, map_size_list_to_map, length_fmap; [done|].
  now rewrite <- list_fmap_compose.
Qed.

Lemma record_hits_Extends folder bytes cands name s :
  Extends (fun f => exists m, m ∈ cands /\ f.1 = save_path_of folder m)
          s (record_hits folder bytes (matching name cands) s).
Proof.
  split.
  - intros idx u H. rewrite updates_record_hits. case_decide; auto.
  - intros idx u. rewrite updates_record_hits. case_decide; [|auto].
    intros [= <-]. auto.
  - eexists. split; [apply files_record_hits|].
    apply Forall_forall. intros f (m & -> & Hm)%list_elem_of_fmap.
    apply elem_of_matching in Hm as [Hm _]. exists m. auto.
  - eexists. apply logged_record_hits.
Qed.

(** *** All the attachments of one message *)

Lemma attachment_done_Extends folder sender subject cands s a :
  Extends (fun f => exists m, m ∈ cands /\ f.1 = save_path_of folder m)
          s (attachment_done folder sender subject cands s a).
Proof.
  unfold Evaluator.attachment_done.
  pose proof (record_hits_Extends folder (default [] (Payload a)) cands
                (strip (lower (FileName a))) s) as H.
  destruct (matching (strip (lower (FileName a))) cands); [|exact H].
  eapply Extends_trans; [exact H | apply Extends_info].
Qed.

(** When every attachment is readable the loop over the attachments does
    not raise, and it handles them one after the other. *)
Lemma for_attachments_readable folder sender subject cands atts :
  Forall (fun a => is_Some (Payload a)) atts ->
  forall s,
    for_attachments folder sender subject cands atts s
    = (foldl (attachment_done folder sender subject cands) s atts, Return tt).
Proof.
  induction 1 as [|a atts [bytes Hb] _ IH]; intros s; simpl; [reflexivity|].
  unfold bind at 1. rewrite (for_matches_readable _ _ _ _ Hb). simpl.
  unfold Evaluator.attachment_done at 2. rewrite Hb. simpl.
  destruct (existsb (hit (strip (lower (FileName a)))) cands) eqn:E.
  - destruct (matching (strip (lower (FileName a))) cands) eqn:Em.
    + apply existsb_hit_matching in Em. congruence.
    + unfold bind, ret. apply IH.
  - apply existsb_hit_matching in E. rewrite E. unfold bind, log. simpl.
    apply IH.
Qed.

(** However the loop over the attachments ends, what it leaves extends
    what it found, and every file it wrote was written for one of the
    candidates, under the folder, with the sanitized name. *)
Lemma for_attachments_Extends folder sender subject cands atts :
  forall s s' r,
    for_attachments folder sender subject cands atts s = (s', r) ->
    Extends (fun f => exists m, m ∈ cands /\ f.1 = save_path_of folder m) s s'.
Proof.
  induction atts as [|a atts IH]; intros s s' r; simpl.
  - intros [= <- _]. apply Extends_refl.
  - unfold bind at 1. destruct (Payload a) as [bytes|] eqn:Hp.
    + rewrite (for_matches_readable _ _ _ _ Hp). simpl.
      destruct (existsb _ cands); unfold bind, ret, log; simpl; intros H;
        apply IH in H; (eapply Extends_trans; [|exact H]).
      * apply record_hits_Extends.
      * eapply Extends_trans; [apply record_hits_Extends | apply Extends_info].
    + rewrite (for_matches_unreadable _ _ _ Hp).
      destruct (existsb _ cands).
      * intros [= <- _]. apply Extends_refl.
      * unfold bind, log; simpl. intros H. apply IH in H.
        eapply Extends_trans; [apply Extends_info | exact H].
Qed.

Lemma files_attachments_done folder sender subject cands atts : forall s,
  files (world (foldl (attachment_done folder sender subject cands) s atts))
  = files (world s) ++ (atts ≫= files_of folder cands).
Proof.
  induction atts as [|a atts IH]; intros s; cbn [foldl].
  - now rewrite app_nil_r.
  - rewrite IH, bind_cons, app_assoc. f_equal.
    unfold Evaluator.attachment_done, Evaluator.files_of.
    set (hits := matching (strip (lower (FileName a))) cands).
    rewrite <- (files_record_hits folder (default [] (Payload a)) hits s).
    destruct hits; reflexivity.
Qed.

Lemma updates_attachments_done folder sender subject cands atts :
  forall s idx,
    updates (foldl (attachment_done folder sender subject cands) s atts) !! idx
    = if decide (idx ∈ atts ≫= rows_of cands) then Some Saved
      else updates s !! idx.
Proof.
  induction atts as [|a atts IH]; intros s idx; cbn [foldl].
  - rewrite decide_False; [done | apply not_elem_of_nil].
  - rewrite IH, bind_cons.
    assert (E : updates (attachment_done folder sender subject cands s a) !! idx
                = if decide (idx ∈ rows_of cands a) then Some Saved
                  else updates s !! idx).
    { unfold Evaluator.attachment_done, Evaluator.rows_of.
      set (hits := matching (strip (lower (FileName a))) cands).
      rewrite <- (updates_record_hits folder (default [] (Payload a)) hits s).
      destruct hits; reflexivity. }
    rewrite E.
    destruct (decide (idx ∈ atts ≫= rows_of cands)) as [H1|H1].
    + rewrite decide_True; [done | apply elem_of_app; auto].
    + destruct (decide (idx ∈ rows_of cands a)) as [H2|H2].
      * rewrite decide_True; [done | apply elem_of_app; auto].
      * rewrite decide_False; [done | intros [?|?]%elem_of_app; done].
Qed.

(** *** One message, and all of them *)

Local Abbreviation from_index := (from_index os_path_join).

Lemma try_message_Extends p i message s s' r :
  try_message p i message s = (s', r) -> Extends (from_index p) s s'.
Proof.
  unfold Evaluator.try_message.
  destruct (_ && _); [|intros [= <- _]; apply Extends_refl].
  unfold bind at 1, dict_get.
  destruct (mapping_dict p) as [d|] eqn:Hd; [|intros [= <- _]; apply Extends_refl].
  unfold ret, bind at 1, log. intros H%for_attachments_Extends.
  eapply Extends_trans; [apply Extends_info|].
  eapply Extends_weaken; [|exact H].
  intros f (m & Hm & Hf). simpl in Hm.
  destruct (d !! _) as [rules|] eqn:Hk; simpl in Hm; [|inversion Hm].
  unfold Evaluator.from_index. eauto 10.
Qed.

Lemma process_message_Extends p i message s :
  Extends (from_index p) s (process_message p i message s).
Proof.
  unfold Evaluator.process_message.
  destruct (try_message p i message s) as [s' [[]|e]] eqn:E;
    apply try_message_Extends in E; [exact E|].
  eapply Extends_trans; [exact E | apply Extends_info].
Qed.

Lemma for_messages_Extends p ms : forall i s,
  Extends (from_index p) s (for_messages p i ms s).
Proof.
  induction ms as [|m ms IH]; intros i s; simpl; [apply Extends_refl|].
  eapply Extends_trans; [apply process_message_Extends | apply IH].
Qed.

Lemma for_messages_app p ms1 ms2 : forall i s,
  for_messages p i (ms1 ++ ms2) s
  = for_messages p (i + length ms1) ms2 (for_messages p i ms1 s).
Proof.
  induction ms1 as [|m ms1 IH]; intros i s; simpl.
  - now rewrite Nat.add_0_r.
  - rewrite IH. now rewrite Nat.add_succ_r.
Qed.

(** A mail whose attachments are all readable is handled without an
    exception when the index is there. *)
Lemma try_message_readable p d i message s :
  mapping_dict p = Some d -> Class message = MAIL ->
  Forall (fun a => is_Some (Payload a)) (Attachments message) ->
  Attachments message <> [] ->
  let sender := strip (lower (SenderEmailAddress message)) in
  let subject := strip (lower (Subject message)) in
  try_message p i message s
  = (foldl (attachment_done (archive_folder p) sender subject
              (default [] (d !! (sender, subject))))
           {| updates := updates s;
              world := info (InfoProcessingMessage i sender subject) (world s) |}
           (Attachments message),
     Return tt).
Proof.
  intros Hd Hc Hr Hne. unfold Evaluator.try_message.
  rewrite Hc, Nat.eqb_refl. simpl.
  destruct (Attachments message) as [|a atts] eqn:Ea; [congruence|].
  cbn [length Nat.ltb Nat.leb]. unfold bind at 1, dict_get. rewrite Hd.
  unfold ret, bind at 1, log. apply for_attachments_readable. exact Hr.
Qed.

End EngineFacts.

Section EvaluatorClaims.

Variable fnmatch : string -> string -> bool.
Variable os_path_join : string -> string -> string.

Local Abbreviation try_message := (try_message fnmatch os_path_join).
Local Abbreviation process_message := (process_message fnmatch os_path_join).
Local Abbreviation for_messages := (for_messages fnmatch os_path_join).
Local Abbreviation match_and_save_attachments :=
  (match_and_save_attachments fnmatch os_path_join).
Local Abbreviation matching := (matching fnmatch).
Local Abbreviation files_of := (files_of fnmatch os_path_join).
Local Abbreviation rows_of := (rows_of fnmatch).

(** C5: on a table that has each required column exactly once, in a mail
    whose attachments can all be saved, every attachment is tried against
    every rule the table holds for the mail's (sender, subject) key, in table order, and every rule it satisfies is recorded:
    the files written are, attachment after attachment, one per satisfied
    rule in table order, and the updates gain [Saved] at exactly the row
    indexes of the satisfied rules.  An attachment that satisfies N rules
    gives N files and N distinct row indexes, hence N updates when none
    was there before. *)
Theorem C5_every_match_is_recorded
    (t : RawTable) (p0 : Processor) (w0 : World)
    (i : nat) (message : Message) (s : Run) :
  missing_cols (normalize_columns t) = [] ->
  required_once (normalize_columns t) ->
  raw_rows t <> [] ->
  Class message = MAIL ->
  Forall (fun a => is_Some (Payload a)) (Attachments message) ->
  let p := (build_dictionary_from_excel (Some t) p0 w0).1.1 in
  let key := (strip (lower (SenderEmailAddress message)),
              strip (lower (Subject message))) in
  let cands := rules_for key 0 (raw_rows t) in
  let s' := process_message p i message s in
  try_message p i message s = (s', Return tt)
  /\ files (world s')
     = files (world s) ++ (Attachments message ≫= files_of (archive_folder p0) cands)
  /\ (forall idx,
        updates s' !! idx
        = if decide (idx ∈ Attachments message ≫= rows_of cands)
          then Some Saved else updates s !! idx)
  /\ (forall a, a ∈ Attachments message ->
        let hits := matching (strip (lower (FileName a))) cands in
        length (files_of (archive_folder p0) cands a) = length hits
        /\ length (rows_of cands a) = length hits
        /\ NoDup (rows_of cands a))
  /\ (forall a, Attachments message = [a] -> updates s = ∅ ->
        size (updates s')
        = length (matching (strip (lower (FileName a))) cands)).
Proof.
  intros Hm _ Hne Hc Hr p key cands s'.
  destruct (build_dictionary_ok t p0 w0 Hm Hne)
    as (p' & w' & Hb & Hd & _ & Hf & _).
  assert (Hp : p = p') by (unfold p; now rewrite Hb). clearbody p. subst p'.
  assert (Hcands : default [] (iterrows 0 (raw_rows t) ∅ !! key) = cands)
    by apply iterrows_empty_lookup.
  assert (Hnd : forall a, NoDup (rows_of cands a)).
  { intros a. apply NoDup_RowIndex_filter, rules_for_NoDup. }
  assert (Hlen : forall a, a ∈ Attachments message ->
            let hits := matching (strip (lower (FileName a))) cands in
            length (files_of (archive_folder p0) cands a) = length hits
            /\ length (rows_of cands a) = length hits
            /\ NoDup (rows_of cands a)).
  { intros a _. unfold Evaluator.files_of, Evaluator.rows_of.
    rewrite !length_fmap. repeat split. apply Hnd. }
  destruct (Attachments message) as [|a0 atts] eqn:Ea.
  - assert (Ht : try_message p i message s = (s, Return tt)).
    { unfold Evaluator.try_message. rewrite Ea, andb_false_r. reflexivity. }
    assert (Hs : s' = s).
    { unfold s', Evaluator.process_message. now rewrite Ht. }
    rewrite Hs. split; [exact Ht|]. split; [now rewrite app_nil_r|].
    split; [|split; [exact Hlen | discriminate]].
    intros idx. rewrite decide_False; [done | apply not_elem_of_nil].
  - assert (Ht := try_message_readable fnmatch os_path_join p _ i message s
                    Hd Hc).
    rewrite Ea in Ht. specialize (Ht Hr ltac:(discriminate)).
    cbv zeta in Ht. fold key in Ht. rewrite Hcands, Hf in Ht.
    assert (Hs : s' = (try_message p i message s).1).
    { unfold s', Evaluator.process_message. now rewrite Ht. }
    rewrite Ht in Hs. cbn [fst] in Hs. rewrite Hs.
    split; [exact Ht|].
    split; [now rewrite files_attachments_done|].
    split; [intros idx; now rewrite updates_attachments_done|].
    split; [exact Hlen|].
    intros a [= -> ->] He. cbn [foldl].
    unfold Evaluator.attachment_done.
    set (hits := matching (strip (lower (FileName a))) cands).
    set (s0 := {| updates := updates s; world := _ |}).
    transitivity (size (updates (record_hits os_path_join (archive_folder p0)
                                   (default [] (Payload a)) hits s0))).
    { destruct hits; reflexivity. }
    apply size_record_hits; [exact He | apply Hnd].
Qed.

End EvaluatorClaims.

Lemma C5_every_match_is_recorded_witness :
  let m := Scenario.msg "A@X.COM" "report" [Scenario.data_csv; Scenario.notes_txt] in
  let p := Scenario.loaded Scenario.table Scenario.archive in
  let s' := process_message Lib.fnmatch_glob Lib.ntpath_join p 0 m
              {| updates := ∅; world := Scenario.nowhere |} in
  files (world s')
  = [("C:\Statements\2024\May\COB 05.01.2024\daily.csv", Scenario.csv_bytes);
     ("C:\Statements\2024\May\COB 05.01.2024\Q1_Q2_Report_.csv", Scenario.csv_bytes)]
  /\ updates s' !! 0 = Some Saved /\ updates s' !! 1 = Some Saved
  /\ updates s' !! 2 = None.
Proof.
  intros m p s'.
  destruct (C5_every_match_is_recorded Lib.fnmatch_glob Lib.ntpath_join
              Scenario.table (init "rules.xlsx" Scenario.archive None)
              Scenario.nowhere 0 m {| updates := ∅; world := Scenario.nowhere |})
    as (_ & Hfiles & Hupd & _).
  - vm_compute. reflexivity.
  - vm_compute. repeat constructor.
  - discriminate.
  - reflexivity.
  - repeat constructor; eexists; reflexivity.
  - split; [|split; [|split]].
    + etransitivity; [exact Hfiles | vm_compute; reflexivity].
    + etransitivity; [exact (Hupd 0) | vm_compute; reflexivity].
    + etransitivity; [exact (Hupd 1) | vm_compute; reflexivity].
    + etransitivity; [exact (Hupd 2) | vm_compute; reflexivity].
Defined.

Lemma illegal_chars_spelled :
  illegal_chars
  = ["<"; ">"; ":"; ascii_of_nat 34; "/"; "\"; "|"; "?"; "*"]%char.
Proof. reflexivity. Qed.

Lemma is_illegal_illegal_chars c : c ∈ illegal_chars -> is_illegal c = true.
Proof.
  unfold illegal_chars. intros (n & -> & Hn)%list_elem_of_fmap.
  unfold illegal_codes in Hn.
  repeat (apply elem_of_cons in Hn as [->|Hn]; [reflexivity|]).
  inversion Hn.
Qed.

Section WriterClaims.

Variable fnmatch : string -> string -> bool.
Variable os_path_join : string -> string -> string.

Local Abbreviation match_and_save_attachments :=
  (match_and_save_attachments fnmatch os_path_join).
Local Abbreviation for_messages := (for_messages fnmatch os_path_join).

Local Abbreviation try_message := (try_message fnmatch os_path_join).
Local Abbreviation process_message := (process_message fnmatch os_path_join).

Lemma for_attachments_no_hit folder sender subject cands atts :
  (forall a m, a ∈ atts -> m ∈ cands ->
     fnmatch (strip (lower (FileName a))) (AttachmentPattern m) = false) ->
  forall s, exists s',
    for_attachments fnmatch os_path_join folder sender subject cands atts s
    = (s', Return tt)
    /\ updates s' = updates s /\ files (world s') = files (world s).
Proof.
  induction atts as [|a atts IH]; intros Hno s; simpl; [eauto|].
  assert (E : existsb (hit fnmatch (strip (lower (FileName a)))) cands = false).
  { apply not_true_is_false. intros (m & Hm & Hh)%existsb_exists.
    apply list_elem_of_In in Hm. unfold hit in Hh.
    rewrite (Hno a m) in Hh; [discriminate | apply elem_of_cons; auto | exact Hm]. }
  assert (Hno' : forall a' m, a' ∈ atts -> m ∈ cands ->
            fnmatch (strip (lower (FileName a'))) (AttachmentPattern m) = false).
  { intros a' m Ha. apply Hno. apply elem_of_cons; auto. }
  unfold bind at 1. destruct (Payload a) as [bytes|] eqn:Hp.
  - rewrite (for_matches_readable _ _ _ _ _ _ Hp), E.
    apply existsb_hit_matching in E. rewrite E. simpl.
    unfold bind, log. simpl.
    destruct (IH Hno' {| updates := updates s;
                         world := info (InfoNoMatch sender subject
                                          (strip (lower (FileName a)))) (world s) |})
      as (s' & -> & Hu & Hf). eauto.
  - rewrite (for_matches_unreadable _ _ _ _ _ Hp), E.
    unfold bind, log. simpl.
    destruct (IH Hno' {| updates := updates s;
                         world := info (InfoNoMatch sender subject
                                          (strip (lower (FileName a)))) (world s) |})
      as (s' & -> & Hu & Hf). eauto.
Qed.

(** Once there is an index: looking up a key it does not hold gives the
    empty list of candidates and no exception; and a message that has no
    attachment, or whose key is not in the index, or none of whose
    attachments satisfies a candidate, is handled without an exception,
    adds no update and writes no file. *)
Lemma absent_key_and_no_match_give_nothing :
  (forall (d : MappingDict) (key : string * string) (s : Run),
     d !! key = None -> dict_get (Some d) key s = (s, Return []))
  /\ (forall (p : Processor) (i : nat) (message : Message) (s : Run),
        let key := (strip (lower (SenderEmailAddress message)),
                    strip (lower (Subject message))) in
        Attachments message = []
        \/ (exists d, mapping_dict p = Some d
              /\ (d !! key = None
                  \/ forall a m, a ∈ Attachments message ->
                       m ∈ default [] (d !! key) ->
                       fnmatch (strip (lower (FileName a)))
                               (AttachmentPattern m) = false)) ->
        exists s',
          try_message p i message s = (s', Return tt)
          /\ process_message p i message s = s'
          /\ updates s' = updates s
          /\ files (world s') = files (world s)).
Proof.
  split.
  - intros d key s Hk. unfold dict_get, ret. now rewrite Hk.
  - intros p i message s key Hcase.
    assert (Hgoal : exists s',
              try_message p i message s = (s', Return tt)
              /\ updates s' = updates s /\ files (world s') = files (world s)).
    { unfold Evaluator.try_message. destruct Hcase as [Hz | (d & Hd & Hno)].
      - rewrite Hz, andb_false_r. eauto.
      - destruct (_ && _); [|eauto].
        unfold bind at 1, dict_get. rewrite Hd. unfold ret, bind at 1, log.
        assert (Hno' : forall a m, a ∈ Attachments message ->
                  m ∈ default [] (d !! key) ->
                  fnmatch (strip (lower (FileName a))) (AttachmentPattern m) = false).
        { destruct Hno as [Hk | Hno]; [|exact Hno].
          intros a m _. rewrite Hk. intros Hm. inversion Hm. }
        destruct (for_attachments_no_hit (archive_folder p) key.1 key.2 _ _ Hno'
                    {| updates := updates s;
                       world := info (InfoProcessingMessage i key.1 key.2) (world s) |})
          as (s' & Hs' & Hu & Hf).
        exists s'. split; [exact Hs' | auto]. }
    destruct Hgoal as (s' & Ht & Hu & Hf). exists s'.
    split; [exact Ht|]. split; [|auto].
    unfold Evaluator.process_message. now rewrite Ht.
Qed.

End WriterClaims.

Lemma absent_key_and_no_match_give_nothing_example :
  let p := Scenario.loaded Scenario.table Scenario.archive in
  let s := {| updates := ∅; world := Scenario.nowhere |} in
  dict_get (mapping_dict p) ("nobody@x.com", "report") s = (s, Return [])
  /\ updates (process_message Lib.fnmatch_glob Lib.ntpath_join p 0
                (Scenario.msg "Nobody@x.com" "Report" [Scenario.data_csv]) s) = ∅
  /\ updates (process_message Lib.fnmatch_glob Lib.ntpath_join p 1
                (Scenario.msg "a@x.com" "Report" []) s) = ∅
  /\ updates (process_message Lib.fnmatch_glob Lib.ntpath_join p 2
                (Scenario.msg "a@x.com" "Report" [Scenario.notes_txt]) s) = ∅.
Proof.
  intros p s.
  destruct (absent_key_and_no_match_give_nothing Lib.fnmatch_glob Lib.ntpath_join)
    as [Hget Hmsg].
  assert (Hd : mapping_dict p = Some (iterrows 0 (raw_rows Scenario.table) ∅))
    by reflexivity.
  split; [|split; [|split]].
  - rewrite Hd. apply Hget. vm_compute. reflexivity.
  - destruct (Hmsg p 0 (Scenario.msg "Nobody@x.com" "Report" [Scenario.data_csv]) s)
      as (s' & _ & -> & -> & _); [|reflexivity].
    right. eexists. split; [exact Hd|]. left. vm_compute. reflexivity.
  - destruct (Hmsg p 1 (Scenario.msg "a@x.com" "Report" []) s)
      as (s' & _ & -> & -> & _); [|reflexivity].
    left. reflexivity.
  - destruct (Hmsg p 2 (Scenario.msg "a@x.com" "Report" [Scenario.notes_txt]) s)
      as (s' & _ & -> & -> & _); [|reflexivity].
    right. eexists. split; [exact Hd|]. right.
    intros a m Ha Hm. apply list_elem_of_singleton in Ha as ->.
    assert (Hl : default [] (iterrows 0 (raw_rows Scenario.table) ∅
                             !! ("a@x.com", "report"))
                 = [mkRule "*.csv" "daily.csv" 0;
                    mkRule "data*" "Q1/Q2:Report?.csv" 1])
      by (vm_compute; reflexivity).
    change (m ∈ default [] (iterrows 0 (raw_rows Scenario.table) ∅
                            !! ("a@x.com", "report"))) in Hm.
    rewrite Hl in Hm.
    repeat (apply elem_of_cons in Hm as [->|Hm]; [vm_compute; reflexivity|]).
    inversion Hm.
Defined.

Section RunClaims.

Variable fnmatch : string -> string -> bool.
Variable os_path_join : string -> string -> string.

Local Abbreviation try_message := (try_message fnmatch os_path_join).
Local Abbreviation process_message := (process_message fnmatch os_path_join).
Local Abbreviation for_messages := (for_messages fnmatch os_path_join).
Local Abbreviation match_and_save_attachments :=
  (match_and_save_attachments fnmatch os_path_join).
Local Abbreviation from_index := (from_index os_path_join).

(** C9: when the body of the [try] raises for one message, the exception
    is caught and logged with the message's number, the loop goes on with
    the messages that follow, the method returns normally, and every
    update and every file that was there when the exception was raised,
    those of the failing message included, is in what the method returns
    and leaves. *)
Theorem C9_failing_message_does_not_abort_the_run
    (p : Processor) (w : World) (ms1 ms2 : list Message) (m : Message)
    (s2 : Run) (e : Exn) :
  items p = Some (ms1 ++ m :: ms2) ->
  try_message p (length ms1) m
    (for_messages p 0 ms1 {| updates := ∅; world := w |}) = (s2, Raise e) ->
  let caught :=
    {| updates := updates s2;
       world := info (ErrProcessingMessage (length ms1) e) (world s2) |} in
  let final := for_messages p (S (length ms1)) ms2 caught in
  match_and_save_attachments p w
  = (set_excel_doc_updates p (updates final),
     info (InfoEmailsProcessed (size (updates final))) (world final),
     Return (updates final))
  /\ (forall idx, is_Some (updates s2 !! idx) ->
        updates final !! idx = Some Saved)
  /\ (exists later, files (world final) = files (world s2) ++ later)
  /\ ErrProcessingMessage (length ms1) e ∈ logged (world final).
Proof.
  intros Hi Ht caught final.
  set (s0 := {| updates := ∅; world := w |}) in *.
  set (s1 := for_messages p 0 ms1 s0) in *.
  assert (Hrun : for_messages p 0 (ms1 ++ m :: ms2) s0 = final).
  { rewrite for_messages_app. fold s1. simpl.
    unfold Evaluator.process_message. rewrite Ht. reflexivity. }
  assert (H01 : Extends (from_index p) s0 s1) by apply for_messages_Extends.
  assert (H12 : Extends (from_index p) s1 s2)
    by (eapply try_message_Extends; exact Ht).
  assert (H2f : Extends (from_index p) s2 final).
  { eapply Extends_trans;
      [apply (Extends_info _ (ErrProcessingMessage (length ms1) e) s2)|].
    apply for_messages_Extends. }
  split; [|split; [|split]].
  - unfold Evaluator.match_and_save_attachments. rewrite Hi.
    fold s0. cbv zeta. rewrite Hrun. reflexivity.
  - intros idx [u Hu].
    assert (u = Saved) as ->.
    { eapply (Extends_from_empty _ s0 s2); [reflexivity | | exact Hu].
      eapply Extends_trans; eassumption. }
    destruct H2f as [K _ _ _]. destruct (K _ _ Hu); assumption.
  - destruct H2f as [_ _ (new & Hn & _) _]. eauto.
  - destruct (for_messages_Extends fnmatch os_path_join p ms2
                (S (length ms1)) caught) as [_ _ _ (lg & Hl)].
    fold final in Hl. rewrite Hl. simpl.
    apply elem_of_app. left. apply elem_of_app. right.
    apply list_elem_of_singleton. reflexivity.
Qed.

(** C10: [match_and_save_attachments] called while [items] is still
    [None] raises [ValueError], and [update_excel_status] called while
    [excel_doc_updates] is still [None] raises [ValueError]; either call
    leaves the processor (its worksheet included), the archive and the log
    as they were.  A processor that has only been constructed, had its
    template reset and its table loaded is in both situations. *)
Theorem C10_stage_order_is_enforced :
  (forall (p : Processor) (w : World),
     items p = None ->
     match_and_save_attachments p w = (p, w, Raise ValueError))
  /\ (forall (p : Processor) (w : World),
        excel_doc_updates p = None ->
        update_excel_status p w = (p, w, Raise ValueError))
  /\ (forall (p : Processor) (w : World) sheet read p1 w1,
        items p = None -> excel_doc_updates p = None ->
        reset_excel_template sheet p w = Some (p1, w1) ->
        let p2 := (build_dictionary_from_excel read p1 w1).1.1 in
        items p2 = None /\ excel_doc_updates p2 = None).
Proof.
  split; [|split].
  - intros p w H. unfold Evaluator.match_and_save_attachments. now rewrite H.
  - intros p w H. unfold update_excel_status. now rewrite H.
  - intros p w sheet read p1 w1 Hi Hu Hr p2.
    assert (H1 : items p1 = None /\ excel_doc_updates p1 = None).
    { unfold reset_excel_template in Hr. destruct sheet as [ws|].
      - destruct (reset_loop _ ws 2) as [[ws' row]|]; [|discriminate Hr].
        injection Hr as <- _. auto.
      - injection Hr as <- _. auto. }
    destruct H1 as [Hi1 Hu1]. unfold p2, build_dictionary_from_excel.
    destruct read as [t|]; [|auto].
    destruct (missing_cols (normalize_columns t)); simpl; [|auto].
    destruct (raw_rows t); simpl; auto.
Qed.

End RunClaims.

Lemma C9_failing_message_does_not_abort_the_run_witness :
  let p := set_items (Scenario.loaded Scenario.table Scenario.archive)
             [Scenario.msg "A@X.COM" "report" [Scenario.data_csv; Scenario.unreadable];
              Scenario.msg "b@x.com" "REPORT" [Scenario.data_csv]] in
  exists u w',
    (match_and_save_attachments Lib.fnmatch_glob Lib.ntpath_join p Scenario.nowhere).2
    = Return u
    /\ (match_and_save_attachments Lib.fnmatch_glob Lib.ntpath_join p Scenario.nowhere).1.2
       = w'
    /\ u !! 0 = Some Saved /\ u !! 1 = Some Saved /\ u !! 2 = Some Saved
    /\ ErrProcessingMessage 0 com_error ∈ logged w'.
Proof.
  intros p.
  set (s2 := (try_message Lib.fnmatch_glob Lib.ntpath_join p 0
                (Scenario.msg "A@X.COM" "report"
                   [Scenario.data_csv; Scenario.unreadable])
                {| updates := ∅; world := Scenario.nowhere |}).1).
  destruct (C9_failing_message_does_not_abort_the_run Lib.fnmatch_glob
              Lib.ntpath_join p Scenario.nowhere []
              [Scenario.msg "b@x.com" "REPORT" [Scenario.data_csv]]
              (Scenario.msg "A@X.COM" "report"
                 [Scenario.data_csv; Scenario.unreadable])
              s2 com_error) as (Hrun & Hkept & _ & Hlog).
  - reflexivity.
  - vm_compute. reflexivity.
  - rewrite Hrun. cbn [fst snd]. eexists _, _.
    split; [reflexivity|]. split; [reflexivity|].
    split; [|split; [|split]].
    + apply Hkept. vm_compute. eauto.
    + apply Hkept. vm_compute. eauto.
    + vm_compute. reflexivity.
    + unfold info at 1. cbn [logged]. apply elem_of_app. left. exact Hlog.
Defined.

Lemma C10_stage_order_is_enforced_witness :
  let p := init "rules.xlsx" Scenario.archive None in
  let w1 := info ErrWorkbookNotLoaded Scenario.nowhere in
  let p2 := (build_dictionary_from_excel (Some Scenario.table) p w1).1.1 in
  match_and_save_attachments Lib.fnmatch_glob Lib.ntpath_join p Scenario.nowhere
  = (p, Scenario.nowhere, Raise ValueError)
  /\ update_excel_status p Scenario.nowhere = (p, Scenario.nowhere, Raise ValueError)
  /\ items p2 = None /\ excel_doc_updates p2 = None.
Proof.
  intros p w1 p2.
  destruct (C10_stage_order_is_enforced Lib.fnmatch_glob Lib.ntpath_join)
    as (Hmatch & Hupdate & Hearly).
  split; [apply Hmatch; reflexivity|].
  split; [apply Hupdate; reflexivity|].
  apply (Hearly p Scenario.nowhere None (Some Scenario.table) p w1); reflexivity.
Defined.

(** ** Letter case *)

Section CaseClaims.

Variable fnmatch : string -> string -> bool.
Variable os_path_join : string -> string -> string.

Local Abbreviation for_matches := (for_matches fnmatch os_path_join).
Local Abbreviation for_attachments := (for_attachments fnmatch os_path_join).
Local Abbreviation try_message := (try_message fnmatch os_path_join).
Local Abbreviation process_message := (process_message fnmatch os_path_join).
Local Abbreviation for_messages := (for_messages fnmatch os_path_join).
Local Abbreviation match_and_save_attachments :=
  (match_and_save_attachments fnmatch os_path_join).

Lemma cell_variant_lower c c' :
  cell_variant c c' -> lower (py_str c) = lower (py_str c').
Proof. intros [|s s' H]; [reflexivity | apply lower_same_letters, H]. Qed.

Lemma row_variant_key r r' : row_variant r r' -> row_key r = row_key r'.
Proof.
  intros [Hs Hj _ _]. unfold row_key.
  now rewrite (cell_variant_lower _ _ Hs), (cell_variant_lower _ _ Hj).
Qed.

Lemma row_variant_value idx r r' :
  row_variant r r' -> row_value idx r = row_value idx r'.
Proof.
  intros [_ _ Ha Hn]. unfold row_value.
  now rewrite (cell_variant_lower _ _ Ha), Hn.
Qed.

Lemma iterrows_variant rs rs' :
  Forall2 row_variant rs rs' ->
  forall idx d, iterrows idx rs d = iterrows idx rs' d.
Proof.
  induction 1 as [|r r' rs rs' Hr _ IH]; intros idx d; simpl; [reflexivity|].
  now rewrite (row_variant_key _ _ Hr), (row_variant_value idx _ _ Hr), IH.
Qed.

(** The inner loop reads the attachment only through [SaveAsFile]. *)
Lemma for_matches_payload folder a a' name cands :
  Payload a = Payload a' ->
  forall matched s,
    for_matches folder a name cands matched s
    = for_matches folder a' name cands matched s.
Proof.
  intros Hp. induction cands as [|m cands IH]; intros matched s; simpl.
  - reflexivity.
  - destruct (fnmatch name (AttachmentPattern m)); [|apply IH].
    unfold bind, SaveAsFile. rewrite Hp.
    destruct (Payload a'); simpl; [apply IH | reflexivity].
Qed.

Lemma for_attachments_variant folder sender subject cands atts atts' :
  Forall2 attachment_variant atts atts' ->
  forall s,
    for_attachments folder sender subject cands atts s
    = for_attachments folder sender subject cands atts' s.
Proof.
  induction 1 as [|a a' atts atts' [Hn Hp] _ IH]; intros s; simpl; [reflexivity|].
  rewrite (lower_same_letters _ _ Hn). unfold bind at 1 3.
  rewrite (for_matches_payload _ a a' _ _ Hp).
  destruct (for_matches _ a' _ _ _ s) as [s1 [matched|e]]; [|reflexivity].
  unfold bind. destruct matched; simpl; apply IH.
Qed.

Lemma try_message_variant p p' i m m' s :
  mapping_dict p = mapping_dict p' -> archive_folder p = archive_folder p' ->
  message_variant m m' ->
  try_message p i m s = try_message p' i m' s.
Proof.
  intros Hd Hf [Hc Hs Hj Ha]. unfold Evaluator.try_message.
  rewrite Hc, (Forall2_length _ _ _ Ha), Hd, Hf,
    (lower_same_letters _ _ Hs), (lower_same_letters _ _ Hj).
  destruct (_ && _); [|reflexivity].
  unfold bind at 1 3. destruct (dict_get _ _ s) as [s1 [cands|e]]; [|reflexivity].
  unfold bind. destruct (log _ s1) as [s2 [[]|e]]; [|reflexivity].
  apply for_attachments_variant, Ha.
Qed.

Lemma for_messages_variant p p' ms ms' :
  mapping_dict p = mapping_dict p' -> archive_folder p = archive_folder p' ->
  Forall2 message_variant ms ms' ->
  forall i s, for_messages p i ms s = for_messages p' i ms' s.
Proof.
  intros Hd Hf. induction 1 as [|m m' ms ms' Hm _ IH]; intros i s; simpl.
  - reflexivity.
  - unfold Evaluator.process_message.
    rewrite (try_message_variant p p' i m m' s Hd Hf Hm). apply IH.
Qed.

(** C6: on tables that have each required column exactly once, the letter
    case of the table's sender, subject and attachment cells and of the
    messages' sender, subject and attachment file names has no bearing on
    the outcome.  Two tables that differ in that case
    only give the same index; two runs over such tables and over messages
    that differ in that case only return the same updates and leave the
    same archive and log; and a row whose sender and subject cells spell
    a message's sender and subject in whatever case is among the
    candidates the evaluator finds for that message. *)
Theorem C6_letter_case_does_not_matter
    (t t' : RawTable) (p0 : Processor) (w0 w : World) (ms ms' : list Message) :
  missing_cols (normalize_columns t) = [] ->
  required_once (normalize_columns t) ->
  raw_columns t = raw_columns t' ->
  Forall2 row_variant (raw_rows t) (raw_rows t') ->
  Forall2 message_variant ms ms' ->
  let p := (build_dictionary_from_excel (Some t) p0 w0).1.1 in
  let p' := (build_dictionary_from_excel (Some t') p0 w0).1.1 in
  mapping_dict p = mapping_dict p'
  /\ (match_and_save_attachments (set_items p ms) w).2
     = (match_and_save_attachments (set_items p' ms') w).2
  /\ (match_and_save_attachments (set_items p ms) w).1.2
     = (match_and_save_attachments (set_items p' ms') w).1.2
  /\ (forall idx row m d,
        raw_rows t !! idx = Some row ->
        cell_variant (sender row) (Text (SenderEmailAddress m)) ->
        cell_variant (subject row) (Text (Subject m)) ->
        mapping_dict p = Some d ->
        row_value idx row
        ∈ default [] (d !! (strip (lower (SenderEmailAddress m)),
                            strip (lower (Subject m))))).
Proof.
  intros Hm _ Hc Hr Hms p p'.
  assert (Hm' : missing_cols (normalize_columns t') = []).
  { unfold missing_cols, normalize_columns in *. simpl in *. now rewrite <- Hc. }
  assert (Hit : iterrows 0 (raw_rows t) ∅ = iterrows 0 (raw_rows t') ∅)
    by (apply iterrows_variant, Hr).
  assert (Hd : mapping_dict p = mapping_dict p'
               /\ archive_folder p = archive_folder p').
  { unfold p, p', build_dictionary_from_excel. rewrite Hm, Hm'. simpl.
    rewrite Hit. destruct Hr; simpl; auto. }
  destruct Hd as [Hd Hf].
  assert (Hrun : forall s,
            for_messages (set_items p ms) 0 ms s
            = for_messages (set_items p' ms') 0 ms' s).
  { intros s. apply for_messages_variant; auto. }
  split; [exact Hd|].
  unfold Evaluator.match_and_save_attachments. simpl. rewrite Hrun.
  split; [reflexivity|]. split; [reflexivity|].
  intros idx row m d Hi Hs Hj Hpd.
  assert (Hne : raw_rows t <> []) by (intros E; rewrite E in Hi; discriminate Hi).
  destruct (build_dictionary_ok t p0 w0 Hm Hne) as (p1 & w1 & Hb & Hd1 & _).
  assert (p = p1) as -> by (unfold p; now rewrite Hb).
  rewrite Hd1 in Hpd. injection Hpd as <-.
  rewrite iterrows_empty_lookup. apply elem_of_rules_for.
  exists idx, row. split; [exact Hi|]. split; [|reflexivity].
  unfold row_key.
  now rewrite (cell_variant_lower _ _ Hs), (cell_variant_lower _ _ Hj).
Qed.

End CaseClaims.

(** The spec's example: the file name Report.PDF satisfies report*.pdf. *)
Example fnmatch_glob_Report_PDF :
  Lib.fnmatch_glob (strip (lower "Report.PDF")) (strip (lower "report*.pdf")) = true
  /\ Lib.fnmatch_glob "Report.PDF" "report*.pdf" = true.
Proof. split; reflexivity. Qed.

Lemma C6_letter_case_does_not_matter_witness :
  let row s j a := mkRow (Text s) (Text j) (Text a) (Text "report.pdf") NaN in
  let t := {| raw_columns := Scenario.header;
              raw_rows := [row "a@x.com" "Report" "report*.pdf"] |} in
  let t' := {| raw_columns := Scenario.header;
               raw_rows := [row "A@X.com" "REPORT" "Report*.PDF"] |} in
  let pdf name := {| FileName := name; Payload := Some Scenario.csv_bytes |} in
  let run t ms :=
    match_and_save_attachments Lib.fnmatch_glob Lib.ntpath_join
      (set_items (Scenario.loaded t Scenario.archive) ms) Scenario.nowhere in
  (run t [Scenario.msg "A@X.COM" "report" [pdf "Report.PDF"]]).2
  = (run t' [Scenario.msg "a@x.com" "RePort" [pdf "REPORT.pdf"]]).2
  /\ (run t [Scenario.msg "A@X.COM" "report" [pdf "Report.PDF"]]).2
     = Return {[ 0 := Saved ]}.
Proof.
  intros row t t' pdf run.
  destruct (C6_letter_case_does_not_matter Lib.fnmatch_glob Lib.ntpath_join
              t t' (init "rules.xlsx" Scenario.archive None)
              Scenario.nowhere Scenario.nowhere
              [Scenario.msg "A@X.COM" "report" [pdf "Report.PDF"]]
              [Scenario.msg "a@x.com" "RePort" [pdf "REPORT.pdf"]])
    as (_ & Hsame & _).
  - vm_compute. reflexivity.
  - vm_compute. repeat constructor.
  - reflexivity.
  - repeat constructor.
  - repeat constructor.
  - split; [exact Hsame | vm_compute; reflexivity].
Defined.

(** ** The worksheet *)

Section Worksheet.

Implicit Types (ws : Worksheet) (row : nat).

Lemma size_clear_row ws row :
  is_Some (ws !! (row, col_E)) ->
  size (clear_cell row col_F (clear_cell row col_E ws)) < size ws.
Proof.
  intros H. unfold clear_cell.
  pose proof (map_size_delete_Some (row, col_E) ws H) as H1.
  pose proof (map_size_delete (row, col_F) (delete (row, col_E) ws)) as H2.
  assert (size ws <> 0).
  { apply map_size_ne_0_lookup. exists (row, col_E). exact H. }
  destruct (delete (row, col_E) ws !! (row, col_F)); simpl in H2; lia.
Qed.

(** The loop stops: more fuel than the sheet has cells is enough. *)
Lemma reset_loop_total fuel : forall ws row,
  size ws < fuel -> is_Some (reset_loop fuel ws row).
Proof.
  induction fuel as [|fuel IH]; intros ws row Hf; [lia|]. simpl.
  destruct (ws !! (row, col_E)) eqn:E; [|eauto].
  apply IH. pose proof (size_clear_row ws row ltac:(eauto)). lia.
Qed.

Lemma reset_excel_template_total (sheet : option Worksheet)
    (p : Processor) (w : World) :
  is_Some (reset_excel_template sheet p w).
Proof.
  unfold reset_excel_template. destruct sheet as [ws|]; [|eauto].
  destruct (reset_loop_total (S (size ws)) ws 2 ltac:(lia)) as [[ws' row] ->].
  eauto.
Qed.

Lemma lookup_clear_row ws row r c :
  clear_cell row col_F (clear_cell row col_E ws) !! (r, c)
  = if decide (r = row /\ (c = col_E \/ c = col_F)) then None else ws !! (r, c).
Proof.
  unfold clear_cell.
  destruct (decide (r = row /\ (c = col_E \/ c = col_F))) as [[-> [->| ->]]|Hn].
  - rewrite lookup_delete_ne by discriminate. apply lookup_delete_eq.
  - apply lookup_delete_eq.
  - rewrite !lookup_delete_ne; [done | |]; intros [= <- <-]; apply Hn; auto.
Qed.

(** What the loop does: it clears columns E and F of the rows from [row]
    up to, and without, the first row whose E cell is empty, and touches
    nothing else; rows below that first empty E cell keep what they had. *)
Lemma reset_loop_spec fuel : forall ws row ws' stop,
  reset_loop fuel ws row = Some (ws', stop) ->
  row <= stop
  /\ ws !! (stop, col_E) = None
  /\ (forall r, row <= r < stop -> is_Some (ws !! (r, col_E)))
  /\ (forall r c,
        ws' !! (r, c)
        = if decide (row <= r < stop /\ (c = col_E \/ c = col_F)) then None
          else ws !! (r, c)).
Proof.
  induction fuel as [|fuel IH]; intros ws row ws' stop; simpl; [discriminate|].
  destruct (ws !! (row, col_E)) as [v|] eqn:E.
  - intros (Hle & Hstop & Hrun & Hcells)%IH.
    rewrite lookup_clear_row in Hstop.
    rewrite decide_False in Hstop by lia.
    split; [lia|]. split; [exact Hstop|]. split.
    + intros r Hr. destruct (decide (r = row)) as [->|]; [eauto|].
      specialize (Hrun r ltac:(lia)). rewrite lookup_clear_row in Hrun.
      rewrite decide_False in Hrun by lia. exact Hrun.
    + intros r c. rewrite Hcells, lookup_clear_row.
      repeat case_decide; try done; exfalso; lia.
  - intros [= <- <-]. split; [lia|]. split; [exact E|].
    split; [intros r; lia|].
    intros r c. rewrite decide_False; [done | lia].
Qed.

(** No column label of the loaded table is spelled [Status]: the labels
    were lower-cased. *)
Lemma get_loc_Status_KeyError (t : RawTable) :
  get_loc (columns (normalize_columns t)) "Status" = Raise KeyError.
Proof.
  unfold get_loc, normalize_columns. cbn [columns].
  destruct (list_find _ _) as [[i c]|] eqn:E; [|reflexivity].
  apply list_find_Some in E as (Hi & Hc & _).
  rewrite list_lookup_fmap in Hi.
  destruct (raw_columns t !! i) as [x|]; [|discriminate Hi].
  injection Hi as <-. exfalso. exact (lower_not_Status _ Hc).
Qed.

Lemma write_statuses_KeyError (df : DataFrame) (us : list (nat * Update))
    (ws : option Worksheet) :
  get_loc (columns df) "Status" = Raise KeyError ->
  Exists (fun iu => Status iu.2 <> None) us ->
  write_statuses (Some df) us ws = (ws, Raise KeyError).
Proof.
  intros Hg. induction 1 as [[idx u] us Hu | [idx u] us _ IH]; simpl in *.
  - destruct (Status u); [now rewrite Hg | congruence].
  - destruct (Status u); [now rewrite Hg | exact IH].
Qed.

Lemma with_auto_ws_id (p : Processor) : with_auto_ws p (auto_ws p) = p.
Proof. destruct p; reflexivity. Qed.

(** With the table loaded by [build_dictionary_from_excel] and at least
    one update to write, [update_excel_status] raises [KeyError] at its
    first update and writes no cell. *)
Lemma update_excel_status_KeyError (p : Processor) (w : World)
    (t : RawTable) (u : Updates) (idx : nat) (st : Update) :
  mapping_df p = Some (normalize_columns t) ->
  excel_doc_updates p = Some u ->
  (forall i x, u !! i = Some x -> Status x <> None) ->
  u !! idx = Some st ->
  update_excel_status p w = (p, w, Raise KeyError).
Proof.
  intros Hdf Hu Hall Hidx. unfold update_excel_status. rewrite Hu, Hdf.
  rewrite write_statuses_KeyError, ?with_auto_ws_id; [reflexivity | |].
  - apply get_loc_Status_KeyError.
  - apply Exists_exists. exists (idx, st). split.
    + apply elem_of_map_to_list. exact Hidx.
    + simpl. eapply Hall, Hidx.
Qed.

End Worksheet.

(** ** The stages together *)

Section Stages.

Variable fnmatch : string -> string -> bool.
Variable os_path_join : string -> string -> string.

Local Abbreviation match_and_save_attachments :=
  (match_and_save_attachments fnmatch os_path_join).
Local Abbreviation process_message := (process_message fnmatch os_path_join).

(** While the index is still [None] (the table had no row), a mail with an
    attachment raises [AttributeError] in the [try]; the exception is
    caught, and the message adds no update and no file. *)
Lemma process_message_without_index (p : Processor) (i : nat)
    (message : Message) (s : Run) :
  mapping_dict p = None ->
  updates (process_message p i message s) = updates s
  /\ files (world (process_message p i message s)) = files (world s).
Proof.
  intros Hd. unfold Evaluator.process_message, Evaluator.try_message.
  destruct (_ && _); [|auto].
  unfold bind, dict_get. rewrite Hd. auto.
Qed.

(** After a run that recorded at least one update on a table loaded by
    [build_dictionary_from_excel], [update_excel_status] raises [KeyError]
    and leaves the processor, its worksheet included, as it was. *)
Lemma update_excel_status_after_run (t : RawTable) (p : Processor) (w : World)
    (u : Updates) :
  mapping_df p = Some (normalize_columns t) ->
  (match_and_save_attachments p w).2 = Return u ->
  u <> ∅ ->
  update_excel_status (match_and_save_attachments p w).1.1
    (match_and_save_attachments p w).1.2
  = ((match_and_save_attachments p w).1.1,
     (match_and_save_attachments p w).1.2, Raise KeyError).
Proof.
  intros Hdf. unfold Evaluator.match_and_save_attachments.
  destruct (items p) as [ms|]; simpl; [|discriminate].
  intros [= <-] Hne. apply map_choose in Hne as (idx & st & Hidx).
  eapply update_excel_status_KeyError; [exact Hdf | reflexivity | | exact Hidx].
  intros j x Hx.
  assert (x = Saved) as ->; [|discriminate].
  eapply (Extends_from_empty _ {| updates := ∅; world := w |});
    [reflexivity | apply (for_messages_Extends fnmatch os_path_join p ms 0)
    | exact Hx].
Qed.

(** On the processor [main] constructs, and on any processor with its
    archive folder, every file is written under the mailbox name. *)
Lemma main_processor_writes_under_mailbox
    (EXCEL_FILE SHARED_MAILBOX save_dir : string) (p : Processor) (w : World) :
  archive_folder p
  = archive_folder (main_processor EXCEL_FILE SHARED_MAILBOX save_dir) ->
  exists new,
    files (match_and_save_attachments p w).1.2 = files w ++ new
    /\ Forall (fun f => exists m,
                 f.1 = os_path_join SHARED_MAILBOX (re_sub_illegal (SaveName m)))
              new.
Proof.
  intros Hf. unfold Evaluator.match_and_save_attachments.
  destruct (items p) as [ms|]; simpl.
  - destruct (for_messages_Extends fnmatch os_path_join p ms 0
                {| updates := ∅; world := w |}) as [_ _ (new & Hn & Hall) _].
    exists new. split; [exact Hn|].
    eapply Forall_impl; [exact Hall|].
    intros f (d & key & rules & m & _ & _ & _ & Hp). simpl.
    exists m. rewrite Hp, Hf. reflexivity.
  - exists []. rewrite app_nil_r. auto.
Qed.

End Stages.

(** ** Where the code departs from the spec *)

(** C1 at a failing input.  The sheet is reset, the table is loaded, one
    mail arrives whose attachment satisfies the rules of rows 0 and 1, and
    [match_and_save_attachments] records [Saved] for both.  Then
    [update_excel_status] raises [KeyError]: it asks the table for the
    column [Status], and the loader has lower-cased the labels.  No cell is
    written: the status cells of sheet rows 2 and 3 stay empty. *)
Theorem C1_update_excel_status_raises_KeyError :
  match Scenario.stages (init "rules.xlsx" Scenario.archive None)
          [Scenario.msg "A@X.COM" "report" [Scenario.data_csv]] with
  | Some (p, w) =>
      excel_doc_updates p = Some {[ 0 := Saved; 1 := Saved ]}
      /\ (columns <$> mapping_df p)
         = Some ["sender"; "subject"; "attachment"; "savename"; "status"]
      /\ update_excel_status p w = (p, w, Raise KeyError)
      /\ (auto_ws p ≫= fun ws => ws !! (0 + 2, 5)) = None
      /\ (auto_ws p ≫= fun ws => ws !! (1 + 2, 5)) = None
  | None => False
  end.
Proof. vm_compute. repeat split. Qed.

Lemma main_processor_fields (EXCEL_FILE SHARED_MAILBOX save_dir : string) :
  archive_folder (main_processor EXCEL_FILE SHARED_MAILBOX save_dir) = SHARED_MAILBOX
  /\ mailbox_name (main_processor EXCEL_FILE SHARED_MAILBOX save_dir) = Some save_dir.
Proof. split; reflexivity. Qed.

(** C2 at a failing input: [main] on a machine where every call of the
    outside succeeds, the table holds the three rules and the folder holds a
    mail whose attachment satisfies two of them.  [main] passes the mailbox
    name where the constructor expects the archive folder, and the dated
    directory where it expects the mailbox name: the processor's archive
    folder is the mailbox name, and Outlook is asked for a mailbox named as
    the dated directory.  Then [get_items] is handed a [datetime] and raises
    [TypeError]; [main] logs it, cleans up and exits.  No attachment is
    written, under the dated directory or anywhere. *)
Theorem C2_main_archives_nothing :
  exists s t',
    Session.main (Office.outside Office.book) Office.constants Office.clock
      Office.nothing
    = Some (Some s, t', Session.SystemExit 1)
    /\ Session.archive t' = []
    /\ archive_folder (Session.core s) = "restatements@corp.com"
    /\ mailbox_name (Session.core s)
       = Some "C:\Statements\2024\May\COB 05.01.2024"
    /\ Session.journal t'
       = [Session.InfoScriptStarted; Session.Inner InfoWorkbookLoaded;
          Session.InfoBusinessDates 739012 739009 739008;
          Session.Inner (InfoStatusReset 1);
          Session.Inner (InfoMappingCreated 2);
          Session.InfoConnecting
            (Some "C:\Statements\2024\May\COB 05.01.2024");
          Session.InfoConnected "Statements" Session.CUSTOM;
          Session.ErrUnhandled TypeError; Session.ExcUnexpected;
          Session.InfoStartingCleanup; Session.InfoCleanupCompleted].
Proof.
  eexists _, _. split; [vm_compute; reflexivity|].
  split; [reflexivity|]. split; [reflexivity|]. split; [reflexivity|].
  vm_compute. reflexivity.
Qed.

(** C8 at a failing input: a table that has the five columns and no row.
    The loader returns normally with an empty dict, but [self.mapping_dict]
    is assigned inside the loop over the rows and stays [None].  The lookup
    for a mail with an attachment then raises [AttributeError] instead of
    giving no candidate; the exception is caught by the [try] of the
    message and logged as an error of that message. *)
Theorem C8_table_without_rows_leaves_no_index :
  let t := {| raw_columns := Scenario.header; raw_rows := [] |} in
  let r := build_dictionary_from_excel (Some t)
             (init "rules.xlsx" Scenario.archive None) Scenario.nowhere in
  let p := r.1.1 in
  let m := Scenario.msg "Nobody@x.com" "Report" [Scenario.data_csv] in
  let s := {| updates := ∅; world := Scenario.nowhere |} in
  r.2 = Return (Some (normalize_columns t, ∅))
  /\ logged r.1.2 = [InfoMappingCreated 0]
  /\ mapping_dict p = None
  /\ dict_get (mapping_dict p) ("nobody@x.com", "report") s
     = (s, Raise AttributeError)
  /\ try_message Lib.fnmatch_glob Lib.ntpath_join p 0 m s
     = (s, Raise AttributeError)
  /\ match_and_save_attachments Lib.fnmatch_glob Lib.ntpath_join
       (set_items p [m]) Scenario.nowhere
     = (set_excel_doc_updates (set_items p [m]) ∅,
        {| files := [];
           logged := [ErrProcessingMessage 0 AttributeError;
                      InfoEmailsProcessed 0] |},
        Return ∅).
Proof. vm_compute. repeat split. Qed.

(** C3 at a failing input.  The sheet carries [Saved] in rows 2 and 4 and an
    empty status in row 3.  The reset loop clears row 2, stops at row 3, and
    row 4 goes into the evaluation with its status and comment of the
    previous run. *)
Theorem C3_reset_stops_at_the_first_empty_status :
  Scenario.sheet !! (2, 5) = Some "Saved"
  /\ Scenario.sheet !! (3, 5) = None
  /\ Scenario.sheet !! (4, 5) = Some "Saved"
  /\ match reset_excel_template (Some Scenario.sheet)
             (init "rules.xlsx" Scenario.archive None) Scenario.nowhere with
     | Some (p, w) =>
         (auto_ws p ≫= fun ws => ws !! (2, 5)) = None
         /\ (auto_ws p ≫= fun ws => ws !! (4, 5)) = Some "Saved"
         /\ (auto_ws p ≫= fun ws => ws !! (4, 6)) = Some "late"
         /\ logged w = [InfoWorkbookLoaded; InfoStatusReset 1]
     | None => False
     end.
Proof. vm_compute. repeat split. Qed.

(** * Further properties *)

Module BusinessDaysFacts.
Import BusinessDays.
Local Open Scope Z_scope.

Ltac week := intros; unfold previous_business_day, weekday in *;
  repeat match goal with
  | |- context [?a =? ?b] => destruct (Z.eqb_spec a b) as [?|?]
  | |- context [?a <? ?b] => destruct (Z.ltb_spec a b) as [?|?]
  | |- context [?a <=? ?b] => destruct (Z.leb_spec a b) as [?|?]
  | H : context [?a =? ?b] |- _ => destruct (Z.eqb_spec a b) as [?|?]
  | H : context [?a <? ?b] |- _ => destruct (Z.ltb_spec a b) as [?|?]
  | H : context [?a <=? ?b] |- _ => destruct (Z.leb_spec a b) as [?|?]
  end; try (Z.div_mod_to_equations; lia).

Lemma weekday_range d : 0 <= weekday d < 7.
Proof. week. Qed.

Lemma previous_business_day_weekday d : weekday (previous_business_day d) < 5.
Proof. week. Qed.

Lemma previous_business_day_lt d : d - 3 <= previous_business_day d < d.
Proof. week. Qed.

Lemma previous_business_day_gap d x :
  previous_business_day d < x < d -> 5 <= weekday x.
Proof. week. Qed.

Lemma previous_business_day_pos d : 2 <= d -> 1 <= previous_business_day d.
Proof. week. Qed.

Lemma iter_previous_le k d : Nat.iter k previous_business_day d <= d.
Proof.
  induction k as [|k IH]; simpl; [lia|].
  pose proof (previous_business_day_lt (Nat.iter k previous_business_day d)). lia.
Qed.

Lemma iter_previous_ge k d :
  d - 3 * Z.of_nat k <= Nat.iter k previous_business_day d.
Proof.
  induction k as [|k IH]; simpl; [lia|].
  pose proof (previous_business_day_lt (Nat.iter k previous_business_day d)). lia.
Qed.

Lemma count_back_S fuel N c t :
  count_back (S fuel) N c t
  = if c <? N then
      match minus_one_day t with
      | Failed f => Some (Failed f)
      | Done d => count_back fuel N (if weekday d <? 5 then c + 1 else c) d
      end
    else Some (Done t).
Proof. reflexivity. Qed.

(** The loop is the iteration of [previous_business_day], as long as the
    calendar has room. *)
Lemma count_back_iter k : forall fuel N c t,
  (3 * k < fuel)%nat -> N - c = Z.of_nat k -> 1 <= t ->
  count_back fuel N c t
  = Some (if 1 <=? Nat.iter k previous_business_day t
          then Done (Nat.iter k previous_business_day t)
          else Failed OverflowError).
Proof.
  induction k as [|k IH]; intros fuel N c t Hf Hk Ht.
  - destruct fuel as [|fuel]; [lia|]. rewrite count_back_S. simpl.
    destruct (Z.ltb_spec c N) as [Hc|Hc]; [lia|].
    destruct (Z.leb_spec 1 t) as [Hl|Hl]; [done | lia].
  - rewrite Nat.iter_succ_r.
    destruct fuel as [|[|[|[|fuel]]]]; try lia.
    rewrite count_back_S. destruct (Z.ltb_spec c N) as [Hc|Hc]; [|lia].
    unfold minus_one_day at 1. destruct (Z.ltb_spec (t - 1) 1) as [H1|H1].
    { assert (t = 1) as -> by lia.
      pose proof (iter_previous_le k (previous_business_day 1)) as Hle.
      destruct (Z.leb_spec 1 (Nat.iter k previous_business_day (previous_business_day 1)))
        as [Hr|Hr]; [exfalso; revert Hle Hr; week | done]. }
    destruct (Z.ltb_spec (weekday (t - 1)) 5) as [Hw|Hw].
    { replace (t - 1) with (previous_business_day t) by (revert Hw; week).
      apply IH; [lia | lia |]. apply previous_business_day_pos. lia. }
    rewrite count_back_S. destruct (Z.ltb_spec c N) as [Hc2|Hc2]; [|lia].
    unfold minus_one_day at 1. destruct (Z.ltb_spec (t - 1 - 1) 1) as [H2|H2].
    { exfalso. revert Hw H1 H2. week. }
    destruct (Z.ltb_spec (weekday (t - 1 - 1)) 5) as [Hw2|Hw2].
    { replace (t - 1 - 1) with (previous_business_day t) by (revert Hw Hw2; week).
      apply IH; [lia | lia |]. apply previous_business_day_pos. lia. }
    rewrite count_back_S. destruct (Z.ltb_spec c N) as [Hc3|Hc3]; [|lia].
    unfold minus_one_day at 1. destruct (Z.ltb_spec (t - 1 - 1 - 1) 1) as [H3|H3].
    { exfalso. revert Hw Hw2 H1 H2 H3. week. }
    destruct (Z.ltb_spec (weekday (t - 1 - 1 - 1)) 5) as [Hw3|Hw3].
    { replace (t - 1 - 1 - 1) with (previous_business_day t)
        by (revert Hw Hw2 Hw3; week).
      apply IH; [lia | lia |]. apply previous_business_day_pos. lia. }
    exfalso. revert Hw Hw2 Hw3. week.
Qed.

Lemma get_prior_business_days_nonzero today n :
  1 <= today -> n <> 0 ->
  get_prior_business_days today n
  = Some (if 1 <=? Nat.iter (Z.to_nat (Z.abs n)) previous_business_day today
          then Done (Nat.iter (Z.to_nat (Z.abs n)) previous_business_day today)
          else Failed OverflowError).
Proof.
  intros Ht Hn. unfold get_prior_business_days.
  destruct (Z.eqb_spec n 0) as [?|_]; [done|].
  apply count_back_iter; lia.
Qed.

Lemma get_prior_business_days_zero today :
  1 <= today ->
  get_prior_business_days today 0
  = Some (Done (if 5 <=? weekday today then today - (weekday today - 4)
                else today)).
Proof.
  intros Ht. unfold get_prior_business_days. simpl.
  destruct (Z.leb_spec 5 (weekday today)) as [Hw|Hw]; [|done].
  unfold minus_one_day. destruct (Z.ltb_spec (today - 1) 1) as [H1|H1].
  { exfalso. revert Hw H1. week. }
  destruct (Z.leb_spec 5 (weekday (today - 1))) as [Hw1|Hw1].
  - destruct (Z.ltb_spec (today - 1 - 1) 1) as [H2|H2].
    { exfalso. revert Hw Hw1 H1 H2. week. }
    destruct (Z.leb_spec 5 (weekday (today - 1 - 1))) as [Hw2|Hw2].
    { exfalso. revert Hw Hw1 Hw2. week. }
    do 2 f_equal. revert Hw Hw1 Hw2. week.
  - do 2 f_equal. revert Hw Hw1. week.
Qed.

Lemma business_days_between_split lo mid hi :
  lo <= mid <= hi ->
  business_days_between lo hi
  = (business_days_between lo mid + business_days_between mid hi)%nat.
Proof.
  intros H. unfold business_days_between.
  replace (hi - lo) with ((mid - lo) + (hi - mid)) by lia.
  rewrite seqZ_app by lia. rewrite filter_app, length_app.
  now replace (lo + (mid - lo)) with mid by lia.
Qed.

Lemma filter_weekday_none (l : list Z) :
  Forall (fun x => 5 <= weekday x) l -> filter (fun x => weekday x < 5) l = [].
Proof.
  induction 1 as [|x l Hx _ IH]; [done|].
  rewrite filter_cons_False by lia. exact IH.
Qed.

Lemma business_days_between_previous d :
  business_days_between (previous_business_day d) d = 1%nat.
Proof.
  unfold business_days_between.
  pose proof (previous_business_day_lt d) as Hlt.
  rewrite seqZ_cons by lia.
  rewrite filter_cons_True by apply previous_business_day_weekday.
  simpl. f_equal. rewrite filter_weekday_none; [done|].
  apply Forall_seqZ. intros x Hx.
  pose proof (previous_business_day_gap d x). lia.
Qed.

Lemma business_days_between_iter k d :
  business_days_between (Nat.iter k previous_business_day d) d = k.
Proof.
  induction k as [|k IH]; simpl.
  - unfold business_days_between. now rewrite seqZ_nil by lia.
  - pose proof (iter_previous_le k d).
    pose proof (previous_business_day_lt (Nat.iter k previous_business_day d)).
    rewrite (business_days_between_split _ (Nat.iter k previous_business_day d))
      by lia.
    now rewrite business_days_between_previous, IH.
Qed.

Lemma business_days_between_first lo hi :
  lo < hi -> weekday lo < 5 -> (1 <= business_days_between lo hi)%nat.
Proof.
  intros Hl Hw. unfold business_days_between.
  rewrite seqZ_cons by lia. rewrite filter_cons_True by done. simpl. lia.
Qed.

(** A business day below [hi] is fixed by the number of business days from
    it up to [hi]. *)
Lemma business_days_between_inj d d' hi :
  d < hi -> d' < hi -> weekday d < 5 -> weekday d' < 5 ->
  business_days_between d hi = business_days_between d' hi -> d = d'.
Proof.
  intros Hd Hd' Hw Hw' E.
  destruct (Z.lt_trichotomy d d') as [Hlt|[->|Hlt]]; [|done|].
  - rewrite (business_days_between_split d d' hi) in E by lia.
    pose proof (business_days_between_first d d' Hlt Hw). lia.
  - rewrite (business_days_between_split d' d hi) in E by lia.
    pose proof (business_days_between_first d' d Hlt Hw'). lia.
Qed.

(** X1.  For any [n] and any day the calendar has, the loops of
    [get_prior_business_days] stop.  What is returned is a business day
    (Monday to Friday) not after today; the only exception is the
    [OverflowError] of the date subtraction, and it needs [n <> 0] and
    [today <= 3 * |n|]. *)
Theorem get_prior_business_days_returns (today n : Z) :
  1 <= today ->
  exists o,
    get_prior_business_days today n = Some o
    /\ match o with
       | Done d => 1 <= d <= today /\ weekday d < 5
       | Failed f => f = OverflowError /\ n <> 0 /\ today <= 3 * Z.abs n
       end.
Proof.
  intros Ht. destruct (Z.eq_dec n 0) as [->|Hn].
  - rewrite get_prior_business_days_zero by done. eexists. split; [done|].
    simpl. revert Ht. week.
  - rewrite get_prior_business_days_nonzero by done. eexists. split; [done|].
    set (r := Nat.iter _ previous_business_day today).
    pose proof (iter_previous_le (Z.to_nat (Z.abs n)) today) as Hle.
    pose proof (iter_previous_ge (Z.to_nat (Z.abs n)) today) as Hge.
    fold r in Hle, Hge.
    destruct (Z.leb_spec 1 r) as [Hr|Hr]; [|split; [done | lia]].
    split; [lia|]. unfold r.
    destruct (Z.to_nat (Z.abs n)) as [|k] eqn:E; [lia|]. simpl.
    apply previous_business_day_weekday.
Qed.

Lemma get_prior_business_days_returns_witness :
  exists d, get_prior_business_days 739010 (-2) = Some (Done d)
            /\ 1 <= d <= 739010 /\ weekday d < 5.
Proof.
  destruct (get_prior_business_days_returns 739010 (-2)) as (o & Ho & Hs); [lia|].
  destruct o as [d|f]; [eauto | lia].
Defined.

(** X2.  With [n = 0] the function never raises: it returns today when
    today is a business day, and otherwise the Friday before, the latest
    business day not after today. *)
Theorem get_prior_business_days_zero_latest (today : Z) :
  1 <= today ->
  exists d,
    get_prior_business_days today 0 = Some (Done d)
    /\ today - 2 <= d <= today
    /\ weekday d < 5
    /\ (forall x, d < x <= today -> 5 <= weekday x)
    /\ (weekday today < 5 -> d = today)
    /\ (5 <= weekday today -> weekday d = 4).
Proof.
  intros Ht. rewrite get_prior_business_days_zero by done.
  eexists. split; [done|].
  repeat split; try (revert Ht; week).
Qed.

Lemma get_prior_business_days_zero_latest_witness :
  exists d, get_prior_business_days 739011 0 = Some (Done d) /\ weekday d = 4.
Proof.
  destruct (get_prior_business_days_zero_latest 739011) as (d & Hd & _ & _ & _ & _ & Hf);
    [lia|].
  exists d. split; [exact Hd | apply Hf; vm_compute; discriminate].
Defined.

(** X3.  With [n <> 0] the function returns [d] exactly when [d] is a
    business day before today, within the calendar, such that [|n|]
    business days lie from [d] up to, and without, today: today itself is
    never counted, and the sign of [n] plays no part. *)
Theorem get_prior_business_days_counts (today n d : Z) :
  1 <= today -> n <> 0 ->
  get_prior_business_days today n = Some (Done d)
  <-> 1 <= d < today /\ weekday d < 5
      /\ business_days_between d today = Z.to_nat (Z.abs n).
Proof.
  intros Ht Hn. rewrite get_prior_business_days_nonzero by done.
  set (k := Z.to_nat (Z.abs n)).
  set (r := Nat.iter k previous_business_day today).
  assert (Hk : k <> 0%nat) by (unfold k; lia).
  assert (Hr : r < today /\ weekday r < 5).
  { unfold r. destruct k as [|k']; [done|]. simpl.
    pose proof (iter_previous_le k' today).
    pose proof (previous_business_day_lt (Nat.iter k' previous_business_day today)).
    split; [lia | apply previous_business_day_weekday]. }
  assert (Hc : business_days_between r today = k)
    by apply business_days_between_iter.
  split.
  - destruct (Z.leb_spec 1 r) as [H1|H1]; [|discriminate].
    intros [= <-]. split; [lia|]. split; [apply Hr | exact Hc].
  - intros (Hd & Hw & Hb).
    assert (d = r) as ->.
    { apply (business_days_between_inj d r today); lia. }
    destruct (Z.leb_spec 1 r); [done | lia].
Qed.

Lemma get_prior_business_days_counts_witness :
  get_prior_business_days 739012 1 = Some (Done 739009)
  /\ get_prior_business_days 739012 (-1) = Some (Done 739009).
Proof.
  split.
  - apply (get_prior_business_days_counts 739012 1 739009); [lia | lia|].
    vm_compute. repeat split; discriminate.
  - apply (get_prior_business_days_counts 739012 (-1) 739009); [lia | lia|].
    vm_compute. repeat split; discriminate.
Defined.

(** X4.  The three dates of [main]: [cbd], [pbd] and [p2bd] (the function on
    0, 1 and 2) are [p2bd < pbd <= cbd <= today]; [p2bd] is the business day
    before [pbd]; and [pbd] is [cbd] itself, not the business day before
    it, exactly when today is a Saturday or a Sunday. *)
Theorem main_business_dates (today : Z) :
  6 < today ->
  exists cbd pbd p2bd,
    get_prior_business_days today 0 = Some (Done cbd)
    /\ get_prior_business_days today 1 = Some (Done pbd)
    /\ get_prior_business_days today 2 = Some (Done p2bd)
    /\ p2bd < pbd /\ pbd <= cbd <= today
    /\ p2bd = previous_business_day pbd
    /\ (pbd = cbd <-> 5 <= weekday today).
Proof.
  intros Ht.
  rewrite get_prior_business_days_zero by lia.
  rewrite !get_prior_business_days_nonzero by lia.
  change (Z.to_nat (Z.abs 1)) with 1%nat. change (Z.to_nat (Z.abs 2)) with 2%nat.
  simpl Nat.iter.
  pose proof (previous_business_day_lt today) as H1.
  pose proof (previous_business_day_lt (previous_business_day today)) as H2.
  destruct (Z.leb_spec 1 (previous_business_day today)) as [Hp|Hp]; [|lia].
  destruct (Z.leb_spec 1 (previous_business_day (previous_business_day today)))
    as [Hq|Hq]; [|lia].
  eexists _, _, _. split; [done|]. split; [done|]. split; [done|].
  split; [lia|]. split; [|split; [done|]]; clear H2 Hq; revert H1 Hp; week.
Qed.

Lemma main_business_dates_witness :
  exists cbd pbd p2bd,
    get_prior_business_days 739010 0 = Some (Done cbd)
    /\ get_prior_business_days 739010 1 = Some (Done pbd)
    /\ get_prior_business_days 739010 2 = Some (Done p2bd)
    /\ pbd = cbd /\ p2bd < pbd.
Proof.
  destruct (main_business_dates 739010)
    as (cbd & pbd & p2bd & H0 & H1 & H2 & Hlt & _ & _ & Hw); [lia|].
  exists cbd, pbd, p2bd.
  split; [exact H0|]. split; [exact H1|]. split; [exact H2|].
  split; [|exact Hlt]. apply Hw. vm_compute. discriminate.
Defined.

(** X5.  Stepping back composes: when [a] business days back from today is
    [d], then [|a| + |b|] business days back from today is [b] business days
    back from [d], the [OverflowError] included. *)
Theorem get_prior_business_days_compose (today a b n d : Z) :
  1 <= today -> a <> 0 -> b <> 0 -> Z.abs n = Z.abs a + Z.abs b ->
  get_prior_business_days today a = Some (Done d) ->
  get_prior_business_days today n = get_prior_business_days d b.
Proof.
  intros Ht Ha Hb Hn.
  rewrite !get_prior_business_days_nonzero by lia.
  destruct (Z.leb_spec 1 (Nat.iter (Z.to_nat (Z.abs a)) previous_business_day today))
    as [Hd|Hd]; [|discriminate].
  intros [= <-].
  rewrite get_prior_business_days_nonzero by lia.
  replace (Z.to_nat (Z.abs n)) with (Z.to_nat (Z.abs b) + Z.to_nat (Z.abs a))%nat
    by lia.
  now rewrite Nat.iter_add.
Qed.

Lemma get_prior_business_days_compose_witness :
  get_prior_business_days 739012 3 = get_prior_business_days 739009 (-2).
Proof.
  apply (get_prior_business_days_compose 739012 1 (-2) 3 739009); try lia.
  vm_compute. reflexivity.
Defined.

End BusinessDaysFacts.

Section TraceFacts.

Variable fnmatch : string -> string -> bool.
Variable os_path_join : string -> string -> string.

Local Abbreviation for_attachments := (for_attachments fnmatch os_path_join).
Local Abbreviation try_message := (try_message fnmatch os_path_join).
Local Abbreviation process_message := (process_message fnmatch os_path_join).
Local Abbreviation for_messages := (for_messages fnmatch os_path_join).
Local Abbreviation match_and_save_attachments :=
  (match_and_save_attachments fnmatch os_path_join).
Local Abbreviation marked_rows := (Trace.marked_rows fnmatch).
Local Abbreviation written := (Trace.written fnmatch os_path_join).
Local Abbreviation message_rows := (Trace.message_rows fnmatch).
Local Abbreviation message_files := (Trace.message_files fnmatch os_path_join).
Local Abbreviation rows_of := (rows_of fnmatch).
Local Abbreviation files_of := (files_of fnmatch os_path_join).
Local Abbreviation leaves := Trace.leaves.

Lemma leaves_nil s : leaves s s [] [].
Proof.
  split; [|now rewrite app_nil_r].
  intros idx. rewrite decide_False; [done | apply not_elem_of_nil].
Qed.

Lemma leaves_app s1 s2 s3 r1 r2 n1 n2 :
  leaves s1 s2 r1 n1 -> leaves s2 s3 r2 n2 -> leaves s1 s3 (r1 ++ r2) (n1 ++ n2).
Proof.
  intros [U1 F1] [U2 F2]. split.
  - intros idx. rewrite U2, U1.
    destruct (decide (idx ∈ r2)) as [H2|H2].
    + rewrite decide_True; [done | apply elem_of_app; auto].
    + destruct (decide (idx ∈ r1)) as [H1|H1].
      * rewrite decide_True; [done | apply elem_of_app; auto].
      * rewrite decide_False; [done | intros [?|?]%elem_of_app; done].
  - now rewrite F2, F1, app_assoc.
Qed.

Lemma leaves_info s r :
  leaves s {| updates := updates s; world := info r (world s) |} [] [].
Proof.
  split; [|simpl; now rewrite app_nil_r].
  intros idx. rewrite decide_False; [done | apply not_elem_of_nil].
Qed.

Lemma record_hits_leaves folder cands a s :
  leaves s
    (record_hits os_path_join folder (default [] (Payload a))
       (matching fnmatch (strip (lower (FileName a))) cands) s)
    (rows_of cands a) (files_of folder cands a).
Proof.
  split.
  - intros idx. apply updates_record_hits.
  - apply files_record_hits.
Qed.

Lemma for_attachments_leaves folder sender subject cands atts :
  forall s s' r,
    for_attachments folder sender subject cands atts s = (s', r) ->
    leaves s s' (marked_rows cands atts) (written folder cands atts).
Proof.
  induction atts as [|a atts IH]; intros s s' r; simpl.
  - intros [= <- _]. apply leaves_nil.
  - unfold bind at 1. destruct (Payload a) as [bytes|] eqn:Hp.
    + rewrite (for_matches_readable _ _ _ _ _ _ Hp). simpl.
      pose proof (record_hits_leaves folder cands a s) as Hl.
      rewrite Hp in Hl. simpl in Hl.
      destruct (existsb _ cands); unfold bind, ret, log; simpl; intros H;
        apply IH in H.
      * eapply leaves_app; [exact Hl | exact H].
      * eapply leaves_app; [exact Hl|].
        change (marked_rows cands atts) with ([] ++ marked_rows cands atts).
        change (written folder cands atts) with ([] ++ written folder cands atts).
        eapply leaves_app; [apply leaves_info | exact H].
    + rewrite (for_matches_unreadable _ _ _ _ _ Hp).
      destruct (existsb _ cands).
      * intros [= <- _]. apply leaves_nil.
      * unfold bind, log; simpl. intros H. apply IH in H.
        change (marked_rows cands atts) with ([] ++ marked_rows cands atts).
        change (written folder cands atts) with ([] ++ written folder cands atts).
        eapply leaves_app; [apply leaves_info | exact H].
Qed.

Lemma marked_rows_nil atts : marked_rows [] atts = [].
Proof. induction atts as [|a atts IH]; simpl; [done|]. now destruct (Payload a). Qed.

Lemma written_nil folder atts : written folder [] atts = [].
Proof. induction atts as [|a atts IH]; simpl; [done|]. now destruct (Payload a). Qed.

Lemma process_message_leaves p i message s :
  leaves s (process_message p i message s)
    (message_rows p message) (message_files p message).
Proof.
  unfold Evaluator.process_message, Evaluator.try_message,
    Trace.message_rows, Trace.message_files, Trace.candidates.
  destruct (_ && _).
  - unfold bind at 1, dict_get.
    destruct (mapping_dict p) as [d|].
    + unfold ret, bind at 1, log.
      destruct (for_attachments _ _ _ _ _ _) as [s' r] eqn:E.
      apply for_attachments_leaves in E.
      assert (H : leaves s s'
                (marked_rows (default [] (d !! (strip (lower (SenderEmailAddress message)),
                                                strip (lower (Subject message)))))
                   (Attachments message))
                (written (archive_folder p)
                   (default [] (d !! (strip (lower (SenderEmailAddress message)),
                                      strip (lower (Subject message)))))
                   (Attachments message))).
      { eapply (leaves_app _ _ _ [] _ [] _); [apply leaves_info | exact E]. }
      destruct r as [[]|e]; [exact H|].
      rewrite <- (app_nil_r (marked_rows _ _)), <- (app_nil_r (written _ _ _)).
      eapply leaves_app; [exact H | apply leaves_info].
    + unfold raise. rewrite marked_rows_nil, written_nil. apply leaves_info.
  - rewrite marked_rows_nil, written_nil. apply leaves_nil.
Qed.

Lemma for_messages_leaves p ms : forall i s,
  leaves s (for_messages p i ms s)
    (ms ≫= message_rows p) (ms ≫= message_files p).
Proof.
  induction ms as [|m ms IH]; intros i s; simpl; [apply leaves_nil|].
  eapply leaves_app; [apply process_message_leaves | apply IH].
Qed.

Lemma length_marked_rows folder cands atts :
  length (marked_rows cands atts) = length (written folder cands atts).
Proof.
  induction atts as [|a atts IH]; simpl; [done|].
  destruct (Payload a); [|destruct (existsb _ cands); done].
  rewrite !length_app, IH. unfold Evaluator.rows_of, Evaluator.files_of.
  now rewrite !length_fmap.
Qed.

(** A marked row has a readable attachment that satisfies a candidate with
    that row index, and the file written for the two. *)
Lemma marked_rows_backed folder cands atts idx :
  idx ∈ marked_rows cands atts ->
  exists a bytes m,
    a ∈ atts /\ Payload a = Some bytes /\ m ∈ cands /\ RowIndex m = idx
    /\ fnmatch (strip (lower (FileName a))) (AttachmentPattern m) = true
    /\ (os_path_join folder (re_sub_illegal (SaveName m)), bytes)
       ∈ written folder cands atts.
Proof.
  induction atts as [|a atts IH]; simpl; [intros H; inversion H|].
  assert (Hrest : idx ∈ marked_rows cands atts ->
            exists a' bytes m,
              a' ∈ a :: atts /\ Payload a' = Some bytes /\ m ∈ cands
              /\ RowIndex m = idx
              /\ fnmatch (strip (lower (FileName a'))) (AttachmentPattern m) = true
              /\ (os_path_join folder (re_sub_illegal (SaveName m)), bytes)
                 ∈ written folder cands atts).
  { intros (a' & bytes & m & Ha & Hp & Hm & Hi & Hh & Hf)%IH.
    exists a', bytes, m. repeat split; auto. now apply elem_of_cons; right. }
  destruct (Payload a) as [bytes|] eqn:Hp.
  - intros [Hin|Hin]%elem_of_app.
    + unfold Evaluator.rows_of in Hin.
      apply list_elem_of_fmap in Hin as (m & -> & Hm).
      pose proof Hm as Hm'.
      apply (elem_of_matching fnmatch os_path_join) in Hm' as [Hc Hh].
      exists a, bytes, m.
      split; [now apply elem_of_cons; left|]. split; [exact Hp|].
      split; [exact Hc|]. split; [reflexivity|]. split; [exact Hh|].
      apply elem_of_app. left. unfold Evaluator.files_of. rewrite Hp. simpl.
      apply list_elem_of_fmap. exists m. split; [reflexivity | exact Hm].
    + destruct (Hrest Hin) as (a' & b & m & Ha & Hp' & Hm & Hi & Hh & Hf).
      exists a', b, m. repeat split; auto. apply elem_of_app. now right.
  - destruct (existsb _ cands); [intros H; inversion H | exact Hrest].
Qed.

Lemma candidates_from_index p message m :
  m ∈ Trace.candidates p message ->
  Class message = MAIL
  /\ exists d rules,
       mapping_dict p = Some d
       /\ d !! (strip (lower (SenderEmailAddress message)),
                strip (lower (Subject message))) = Some rules
       /\ m ∈ rules.
Proof.
  unfold Trace.candidates.
  destruct (Nat.eqb_spec (Class message) MAIL) as [Hc|Hc]; simpl;
    [|intros H; inversion H].
  destruct (_ <? _)%nat; [|intros H; inversion H].
  destruct (mapping_dict p) as [d|]; [|intros H; inversion H].
  destruct (d !! _) as [rules|] eqn:E; simpl; [|intros H; inversion H].
  intros Hm. split; [exact Hc|]. eauto.
Qed.

(** What stands behind a row index the loop over [ms] has marked. *)
Lemma marked_by_messages (p : Processor) (ms : list Message) (idx : nat) :
  idx ∈ ms ≫= message_rows p ->
  exists message a bytes d rules m,
    message ∈ ms /\ Class message = MAIL
    /\ a ∈ Attachments message /\ Payload a = Some bytes
    /\ mapping_dict p = Some d
    /\ d !! (strip (lower (SenderEmailAddress message)),
             strip (lower (Subject message))) = Some rules
    /\ m ∈ rules /\ RowIndex m = idx
    /\ fnmatch (strip (lower (FileName a))) (AttachmentPattern m) = true
    /\ (os_path_join (archive_folder p) (re_sub_illegal (SaveName m)), bytes)
       ∈ ms ≫= message_files p.
Proof.
  intros (message & Hrow & Hmsg)%list_elem_of_bind.
  unfold Trace.message_rows in Hrow.
  apply (marked_rows_backed (archive_folder p)) in Hrow
    as (a & bytes & m & Ha & Hp & Hm & Hidx & Hh & Hfile).
  apply candidates_from_index in Hm as (Hc & d & rules & Hd & Hk & Hm).
  exists message, a, bytes, d, rules, m. repeat split; auto.
  apply list_elem_of_bind. exists message. split; [exact Hfile | exact Hmsg].
Qed.

(** X6.  No row is marked without a file: every row index the method
    returns is [Saved], and for it the run has a mail item in [items], a
    readable attachment of that item, and a rule filed under the item's
    normalized (sender, subject) with that row index whose pattern the
    attachment's normalized name satisfies; the attachment's bytes were
    written, in this call, to the archive folder joined with the rule's
    sanitized save name. *)
Theorem every_update_has_its_file (p : Processor) (w : World)
    (ms : list Message) (u : Updates) (idx : nat) :
  items p = Some ms ->
  (match_and_save_attachments p w).2 = Return u ->
  is_Some (u !! idx) ->
  u !! idx = Some Saved
  /\ exists new message a bytes d rules m,
       files (match_and_save_attachments p w).1.2 = files w ++ new
       /\ message ∈ ms /\ Class message = MAIL
       /\ a ∈ Attachments message /\ Payload a = Some bytes
       /\ mapping_dict p = Some d
       /\ d !! (strip (lower (SenderEmailAddress message)),
                strip (lower (Subject message))) = Some rules
       /\ m ∈ rules /\ RowIndex m = idx
       /\ fnmatch (strip (lower (FileName a))) (AttachmentPattern m) = true
       /\ (os_path_join (archive_folder p) (re_sub_illegal (SaveName m)), bytes)
          ∈ new.
Proof.
  intros Hi. unfold Evaluator.match_and_save_attachments. rewrite Hi. simpl.
  intros [= <-].
  destruct (for_messages_leaves p ms 0 {| updates := ∅; world := w |})
    as [Hu Hf]. simpl in Hu, Hf.
  rewrite Hu. destruct (decide (idx ∈ ms ≫= message_rows p)) as [Hin|Hout];
    [|rewrite lookup_empty; intros [? [=]]].
  intros _. split; [done|].
  destruct (marked_by_messages p ms idx Hin)
    as (message & a & bytes & d & rules & m & H).
  exists (ms ≫= message_files p), message, a, bytes, d, rules, m.
  split; [exact Hf | exact H].
Qed.

(** X9.  Calling the method again on the processor it left repeats the
    first call: the updates are built anew, not added to, so the same
    updates are returned and stored, and the same files are written once
    more after the first ones. *)
Theorem second_call_repeats_the_first (p : Processor) (w : World) :
  let r1 := match_and_save_attachments p w in
  let r2 := match_and_save_attachments r1.1.1 r1.1.2 in
  r2.2 = r1.2 /\ r2.1.1 = r1.1.1
  /\ exists new, files r1.1.2 = files w ++ new
                 /\ files r2.1.2 = files r1.1.2 ++ new.
Proof.
  unfold Evaluator.match_and_save_attachments.
  destruct (items p) as [ms|] eqn:Hi; simpl.
  - rewrite Hi. simpl.
    set (s1 := for_messages p 0 ms {| updates := ∅; world := w |}).
    set (p1 := set_excel_doc_updates p (updates s1)).
    set (w1 := info (InfoEmailsProcessed (size (updates s1))) (world s1)).
    destruct (for_messages_leaves p ms 0 {| updates := ∅; world := w |})
      as [Hu Hf].
    destruct (for_messages_leaves p1 ms 0 {| updates := ∅; world := w1 |})
      as [Hu' Hf'].
    fold s1 in Hu, Hf. simpl in Hu, Hf, Hu', Hf'.
    assert (E : updates (for_messages p1 0 ms {| updates := ∅; world := w1 |})
                = updates s1).
    { apply map_eq. intros idx. now rewrite Hu, Hu'. }
    rewrite E. split; [done|]. split; [done|].
    exists (ms ≫= message_files p). split; [exact Hf | exact Hf'].
  - rewrite Hi. simpl. split; [done|]. split; [done|].
    exists []. now rewrite !app_nil_r.
Qed.

(** X7.  The number the method logs and returns the size of, which [main]
    prints as the number of attachments saved, is the number of rows
    marked; it never exceeds the number of files written by the call. *)
Theorem rows_marked_at_most_files_written (p : Processor) (w : World) :
  exists new,
    files (match_and_save_attachments p w).1.2 = files w ++ new
    /\ match (match_and_save_attachments p w).2 with
       | Return u =>
           excel_doc_updates (match_and_save_attachments p w).1.1 = Some u
           /\ InfoEmailsProcessed (size u)
              ∈ logged (match_and_save_attachments p w).1.2
           /\ size u <= length new
       | Raise e => e = ValueError /\ new = []
       end.
Proof.
  unfold Evaluator.match_and_save_attachments.
  destruct (items p) as [ms|]; simpl;
    [|exists []; rewrite app_nil_r; done].
  destruct (for_messages_leaves p ms 0 {| updates := ∅; world := w |})
    as [Hu Hf]. simpl in Hu, Hf.
  exists (ms ≫= message_files p). split; [exact Hf|].
  split; [done|]. split.
  { apply elem_of_app. right. apply list_elem_of_singleton. reflexivity. }
  set (u := updates (for_messages p 0 ms {| updates := ∅; world := w |})) in *.
  assert (Hlen : length (ms ≫= message_rows p) = length (ms ≫= message_files p)).
  { clear. induction ms as [|m ms IH]; [done|].
    rewrite !bind_cons, !length_app, IH.
    unfold Trace.message_rows, Trace.message_files.
    now rewrite (length_marked_rows (archive_folder p)). }
  rewrite <- Hlen.
  rewrite <- length_map_to_list, <- (length_fmap fst).
  apply submseteq_length, NoDup_submseteq; [apply NoDup_fst_map_to_list|].
  intros i ([i' x] & -> & Hx%elem_of_map_to_list)%list_elem_of_fmap.
  simpl. rewrite Hu in Hx. now destruct (decide (i' ∈ ms ≫= message_rows p)).
Qed.

Lemma candidates_set_items p ms message :
  Trace.candidates (set_items p ms) message = Trace.candidates p message.
Proof. reflexivity. Qed.

(** X8.  The rows a run marks do not depend on the order in which the
    folder hands over the messages, nor on what was in the archive or the
    log before: two runs of one loaded processor over the same messages in
    different orders return the same updates, and write the same files up
    to their order. *)
Theorem updates_independent_of_message_order
    (p : Processor) (w w' : World) (ms ms' : list Message) :
  ms ≡ₚ ms' ->
  (match_and_save_attachments (set_items p ms) w).2
  = (match_and_save_attachments (set_items p ms') w').2
  /\ exists new new',
       files (match_and_save_attachments (set_items p ms) w).1.2 = files w ++ new
       /\ files (match_and_save_attachments (set_items p ms') w').1.2
          = files w' ++ new'
       /\ new ≡ₚ new'.
Proof.
  intros Hperm. unfold Evaluator.match_and_save_attachments. simpl.
  destruct (for_messages_leaves (set_items p ms) ms 0 {| updates := ∅; world := w |})
    as [Hu Hf].
  destruct (for_messages_leaves (set_items p ms') ms' 0 {| updates := ∅; world := w' |})
    as [Hu' Hf'].
  simpl in Hu, Hf, Hu', Hf'. split.
  - f_equal. apply map_eq. intros idx. rewrite Hu, Hu'.
    assert (E : idx ∈ ms ≫= message_rows (set_items p ms)
                <-> idx ∈ ms' ≫= message_rows (set_items p ms')).
    { rewrite !list_elem_of_bind. split; intros (m & Hr & Hm); exists m;
        (split; [exact Hr|]); [now rewrite <- Hperm | now rewrite Hperm]. }
    repeat case_decide; tauto.
  - eexists _, _. split; [exact Hf|]. split; [exact Hf'|].
    change (message_files (set_items p ms)) with (message_files p).
    change (message_files (set_items p ms')) with (message_files p).
    now rewrite Hperm.
Qed.

Lemma for_attachments_cut folder sender subject cands a after :
  Payload a = None ->
  existsb (hit fnmatch (strip (lower (FileName a)))) cands = true ->
  forall before s,
    for_attachments folder sender subject cands (before ++ a :: after) s
    = for_attachments folder sender subject cands (before ++ [a]) s
    /\ (for_attachments folder sender subject cands (before ++ [a]) s).2
       = Raise com_error.
Proof.
  intros Hp Hh before. induction before as [|a0 before IH]; intros s.
  - simpl. unfold bind.
    rewrite !(for_matches_unreadable fnmatch os_path_join _ _ _ Hp), Hh.
    done.
  - simpl. unfold bind.
    destruct (Payload a0) as [bytes|] eqn:Hp0.
    + rewrite !(for_matches_readable fnmatch os_path_join _ _ _ _ Hp0).
      destruct (false || _); simpl; apply IH.
    + rewrite !(for_matches_unreadable fnmatch os_path_join _ _ _ Hp0).
      destruct (existsb (hit fnmatch (strip (lower (FileName a0)))) cands);
        [done|]. simpl. apply IH.
Qed.

(** X22.  An attachment that cannot be saved ends its message.  When an
    attachment satisfies a rule and [SaveAsFile] raises for it, the
    exception leaves the loop over the attachments: the message is logged
    as failed, and the attachments that follow in the same message are not
    looked at, whatever they are: the message leaves exactly what it would
    leave if it ended with the failing attachment. *)
Theorem failing_attachment_ends_its_message (p : Processor) (i : nat)
    (message : Message) (before after : list Attachment) (a : Attachment)
    (d : MappingDict) (s : Run) :
  mapping_dict p = Some d -> Class message = MAIL ->
  Attachments message = before ++ a :: after ->
  Payload a = None ->
  existsb (hit fnmatch (strip (lower (FileName a))))
    (default [] (d !! (strip (lower (SenderEmailAddress message)),
                       strip (lower (Subject message))))) = true ->
  process_message p i message s
  = process_message p i (Trace.with_attachments message (before ++ [a])) s
  /\ last (logged (world (process_message p i message s)))
     = Some (ErrProcessingMessage i com_error).
Proof.
  intros Hd Hc Ha Hp Hh.
  unfold Evaluator.process_message, Evaluator.try_message.
  cbn [Class SenderEmailAddress Subject Attachments Trace.with_attachments].
  rewrite Hc, Ha, Hd. rewrite !length_app. cbn [length].
  replace (0 <? length before + S (length after))%nat with true
    by (symmetry; apply Nat.ltb_lt; lia).
  replace (0 <? length before + 1)%nat with true
    by (symmetry; apply Nat.ltb_lt; lia).
  rewrite Nat.eqb_refl. cbn [andb]. unfold bind, dict_get, ret, log.
  match goal with
  | |- context [Evaluator.for_attachments _ _ ?f ?se ?su ?c (before ++ a :: after) ?s0] =>
      destruct (for_attachments_cut f se su c a after Hp Hh before s0)
        as [-> Hr]
  end.
  destruct (Evaluator.for_attachments _ _ _ _ _ _ (before ++ [a]) _)
    as [s1 r]. simpl in Hr. subst r.
  split; [reflexivity|]. simpl. by rewrite last_snoc.
Qed.

(** What stands behind a file the loop over the attachments has written. *)
Lemma written_backed folder cands atts f :
  f ∈ written folder cands atts ->
  exists a bytes m,
    a ∈ atts /\ Payload a = Some bytes /\ m ∈ cands
    /\ fnmatch (strip (lower (FileName a))) (AttachmentPattern m) = true
    /\ f = (os_path_join folder (re_sub_illegal (SaveName m)), bytes).
Proof.
  induction atts as [|a atts IH]; simpl; [intros H; inversion H|].
  assert (Hrest : f ∈ written folder cands atts ->
            exists a' bytes m,
              a' ∈ a :: atts /\ Payload a' = Some bytes /\ m ∈ cands
              /\ fnmatch (strip (lower (FileName a'))) (AttachmentPattern m) = true
              /\ f = (os_path_join folder (re_sub_illegal (SaveName m)), bytes)).
  { intros (a' & bytes & m & Ha & Hp & Hm & Hh & Hf)%IH.
    exists a', bytes, m. repeat split; auto. now apply elem_of_cons; right. }
  destruct (Payload a) as [bytes|] eqn:Hp.
  - intros [Hin|Hin]%elem_of_app; [|exact (Hrest Hin)].
    unfold Evaluator.files_of in Hin. rewrite Hp in Hin. simpl in Hin.
    apply list_elem_of_fmap in Hin as (m & -> & Hm).
    apply (elem_of_matching fnmatch os_path_join) in Hm as [Hc Hh].
    exists a, bytes, m.
    split; [now apply elem_of_cons; left|]. split; [exact Hp|].
    split; [exact Hc|]. split; [exact Hh | reflexivity].
  - destruct (existsb _ cands); [intros H; inversion H | exact Hrest].
Qed.

(** C7: the archival writes of a run, and the name each is written under.
    The files the method writes are exactly, message after message and
    attachment after attachment, one file per rule the attachment
    satisfies (up to the attachment at which a message fails).  Each file
    is written for a rule of the index, filed under the message's key,
    whose pattern the attachment's name satisfies, and its path is the
    archive folder joined with what the substitution makes of that rule's
    save name.  The substitution is computed at the write from the save
    name as the index stores it, which the run leaves as it was; what it
    gives has the length of the save name, an underscore wherever the save
    name has one of the nine characters, the save name's own character
    elsewhere, and none of the nine characters. *)
Theorem C7_every_write_uses_the_sanitized_name
    (p : Processor) (w : World) (ms : list Message) :
  items p = Some ms ->
  files (match_and_save_attachments p w).1.2
  = files w ++ (ms ≫= message_files p)
  /\ mapping_dict (match_and_save_attachments p w).1.1 = mapping_dict p
  /\ (forall f, f ∈ ms ≫= message_files p ->
        exists message a bytes d rules m,
          message ∈ ms /\ Class message = MAIL
          /\ a ∈ Attachments message /\ Payload a = Some bytes
          /\ mapping_dict p = Some d
          /\ d !! (strip (lower (SenderEmailAddress message)),
                   strip (lower (Subject message))) = Some rules
          /\ m ∈ rules
          /\ fnmatch (strip (lower (FileName a))) (AttachmentPattern m) = true
          /\ f = (os_path_join (archive_folder p)
                    (re_sub_illegal (SaveName m)), bytes))
  /\ (forall save_name,
        String.length (re_sub_illegal save_name) = String.length save_name
        /\ (forall n,
              String.get n (re_sub_illegal save_name)
              = (fun c => if is_illegal c then underscore else c)
                <$> String.get n save_name)
        /\ (forall c, c ∈ illegal_chars ->
              occurs c (re_sub_illegal save_name) = false)).
Proof.
  intros Hi. unfold Evaluator.match_and_save_attachments. rewrite Hi. simpl.
  destruct (for_messages_leaves p ms 0 {| updates := ∅; world := w |})
    as [_ Hf].
  split; [exact Hf|]. split; [reflexivity|]. split.
  - intros f (message & Hin & Hm)%list_elem_of_bind.
    unfold Trace.message_files in Hin.
    apply written_backed in Hin as (a & bytes & m & Ha & Hp & Hc & Hh & ->).
    apply candidates_from_index in Hc as (Hcl & d & rules & Hd & Hk & Hr).
    exists message, a, bytes, d, rules, m. repeat split; auto.
  - intros save_name. split; [apply length_re_sub_illegal|].
    split; [apply get_re_sub_illegal|].
    intros c Hc. apply re_sub_illegal_occurs, is_illegal_illegal_chars, Hc.
Qed.

End TraceFacts.

Lemma C7_every_write_uses_the_sanitized_name_witness :
  let p := set_items (Scenario.loaded Scenario.table Scenario.archive)
             [Scenario.msg "A@X.COM" "report" [Scenario.data_csv]] in
  let r := Evaluator.match_and_save_attachments Lib.fnmatch_glob Lib.ntpath_join
             p Scenario.nowhere in
  files r.1.2
  = [("C:\Statements\2024\May\COB 05.01.2024\daily.csv", Scenario.csv_bytes);
     ("C:\Statements\2024\May\COB 05.01.2024\Q1_Q2_Report_.csv",
      Scenario.csv_bytes)]
  /\ (mapping_dict r.1.1 ≫= fun d => d !! ("a@x.com", "report"))
     = Some [mkRule "*.csv" "daily.csv" 0;
             mkRule "data*" "Q1/Q2:Report?.csv" 1].
Proof.
  intros p r.
  destruct (C7_every_write_uses_the_sanitized_name Lib.fnmatch_glob
              Lib.ntpath_join p Scenario.nowhere
              [Scenario.msg "A@X.COM" "report" [Scenario.data_csv]])
    as (Hf & Hd & _).
  - reflexivity.
  - split.
    + etransitivity; [exact Hf | vm_compute; reflexivity].
    + unfold r. rewrite Hd. vm_compute. reflexivity.
Defined.

Lemma failing_attachment_ends_its_message_witness :
  let p := Scenario.loaded Scenario.table Scenario.archive in
  let s := {| updates := ∅; world := Scenario.nowhere |} in
  Evaluator.process_message Lib.fnmatch_glob Lib.ntpath_join p 0
    (Scenario.msg "A@X.COM" "report" [Scenario.unreadable; Scenario.data_csv]) s
  = Evaluator.process_message Lib.fnmatch_glob Lib.ntpath_join p 0
      (Scenario.msg "A@X.COM" "report" [Scenario.unreadable]) s.
Proof.
  intros p s.
  destruct (failing_attachment_ends_its_message Lib.fnmatch_glob Lib.ntpath_join
              p 0
              (Scenario.msg "A@X.COM" "report"
                 [Scenario.unreadable; Scenario.data_csv])
              [] [Scenario.data_csv] Scenario.unreadable
              (iterrows 0 (raw_rows Scenario.table) ∅) s) as [E _].
  - reflexivity.
  - reflexivity.
  - reflexivity.
  - reflexivity.
  - vm_compute. reflexivity.
  - exact E.
Defined.

Lemma updates_independent_of_message_order_witness :
  let p := Scenario.loaded Scenario.table Scenario.archive in
  let m1 := Scenario.msg "A@X.COM" "report" [Scenario.data_csv; Scenario.unreadable] in
  let m2 := Scenario.msg "b@x.com" "REPORT" [Scenario.data_csv] in
  (Evaluator.match_and_save_attachments Lib.fnmatch_glob Lib.ntpath_join
     (set_items p [m1; m2]) Scenario.nowhere).2
  = (Evaluator.match_and_save_attachments Lib.fnmatch_glob Lib.ntpath_join
       (set_items p [m2; m1]) Scenario.nowhere).2.
Proof.
  intros p m1 m2.
  apply (updates_independent_of_message_order Lib.fnmatch_glob Lib.ntpath_join
           p Scenario.nowhere Scenario.nowhere [m1; m2] [m2; m1]).
  apply perm_swap.
Defined.

Lemma every_update_has_its_file_witness :
  let p := set_items (Scenario.loaded Scenario.table Scenario.archive)
             [Scenario.msg "A@X.COM" "report" [Scenario.data_csv]] in
  exists u, (Evaluator.match_and_save_attachments Lib.fnmatch_glob Lib.ntpath_join
               p Scenario.nowhere).2 = Return u
            /\ u !! 1 = Some Saved.
Proof.
  intros p. eexists. split; [reflexivity|].
  eapply (every_update_has_its_file Lib.fnmatch_glob Lib.ntpath_join p
            Scenario.nowhere _ _ 1); [reflexivity | reflexivity |].
  vm_compute. eauto.
Defined.

Section LoaderExtras.

Lemma missing_cols_nil (t : RawTable) :
  missing_cols (normalize_columns t) = []
  <-> Forall (fun c => exists h, h ∈ raw_columns t /\ lower (strip h) = c)
             required_cols.
Proof.
  unfold missing_cols. split.
  - intros H. apply Forall_forall. intros c Hc.
    destruct (decide (c ∈ columns (normalize_columns t))) as [Hin|Hout].
    + unfold normalize_columns in Hin. simpl in Hin.
      apply list_elem_of_fmap in Hin as (h & -> & Hh). eauto.
    + assert (Hf : c ∈ filter (fun col => col ∉ columns (normalize_columns t))
                          required_cols)
        by (apply list_elem_of_filter; auto).
      rewrite H in Hf. inversion Hf.
  - intros H. destruct (filter _ required_cols) as [|c l] eqn:E; [done|].
    assert (Hc : c ∈ filter (fun col => col ∉ columns (normalize_columns t))
                        required_cols) by (rewrite E; left).
    apply list_elem_of_filter in Hc as [Hout Hc].
    rewrite Forall_forall in H. destruct (H c Hc) as (h & Hh & <-).
    exfalso. apply Hout. unfold normalize_columns. simpl.
    apply list_elem_of_fmap. eauto.
Qed.

(** X10.  The schema check of the loader.  A header label counts for a
    required column when it spells the column's name in whatever letter
    case and with whatever white space around it; other columns and the
    order of the columns play no part.  When every required column is met
    the method returns, with the table under its normalized labels; when
    one is missing it raises [KeyError] before any row is read: the index
    the processor had is kept, while [mapping_df] already holds the new
    table. *)
Theorem loader_schema_check (t : RawTable) (p : Processor) (w : World) :
  match (build_dictionary_from_excel (Some t) p w).2 with
  | Return (Some (df, d)) =>
      Forall (fun c => exists h, h ∈ raw_columns t /\ lower (strip h) = c)
             ["sender"; "subject"; "attachment"; "savename"; "status"]
      /\ df = normalize_columns t
  | Return None => False
  | Raise e =>
      e = KeyError
      /\ (exists c, c ∈ ["sender"; "subject"; "attachment"; "savename"; "status"]
                    /\ forall h, h ∈ raw_columns t -> lower (strip h) <> c)
      /\ mapping_dict (build_dictionary_from_excel (Some t) p w).1.1
         = mapping_dict p
      /\ mapping_df (build_dictionary_from_excel (Some t) p w).1.1
         = Some (normalize_columns t)
      /\ (build_dictionary_from_excel (Some t) p w).1.2 = w
  end.
Proof.
  unfold build_dictionary_from_excel.
  destruct (missing_cols (normalize_columns t)) as [|c l] eqn:E; simpl.
  - apply missing_cols_nil in E. auto.
  - split; [done|]. split; [|done].
    assert (Hc : c ∈ missing_cols (normalize_columns t)) by (rewrite E; left).
    apply list_elem_of_filter in Hc as [Hout Hc].
    exists c. split; [exact Hc|]. intros h Hh <-. apply Hout.
    unfold normalize_columns. simpl. apply list_elem_of_fmap. eauto.
Qed.

Lemma rules_for_sorted (key : string * string) (rs : list Row) :
  forall idx : nat, StronglySorted lt (RowIndex <$> rules_for key idx rs).
Proof.
  induction rs as [|row rs IH]; intros idx; simpl; [constructor|].
  destruct (decide (row_key row = key)); simpl; [|apply IH].
  constructor; [apply IH|].
  apply Forall_forall. intros n (m & -> & Hm)%list_elem_of_fmap.
  apply rules_for_RowIndex_ge in Hm. lia.
Qed.

Lemma iterrows_empty_Some (rs : list Row) (key : string * string)
    (rules : list Rule) :
  iterrows 0 rs ∅ !! key = Some rules ->
  rules = rules_for key 0 rs /\ rules <> [].
Proof.
  rewrite iterrows_lookup, lookup_empty.
  destruct (rules_for key 0 rs); [discriminate|].
  intros [= <-]. split; [reflexivity | discriminate].
Qed.

(** X11.  On a table that has each required column exactly once, the index
    holds every row of the table exactly once.  Each list
    of the index is non-empty and in table order (row indexes strictly
    increasing); each of its rules was made from the row at its row index,
    and that row has the list's key; and the row at position [idx] is
    found under its own key and nowhere else. *)
Theorem index_holds_every_row_once (t : RawTable) (p : Processor) (w : World) :
  missing_cols (normalize_columns t) = [] ->
  required_once (normalize_columns t) ->
  raw_rows t <> [] ->
  exists d,
    mapping_dict (build_dictionary_from_excel (Some t) p w).1.1 = Some d
    /\ (forall key rules, d !! key = Some rules ->
          rules <> []
          /\ StronglySorted lt (RowIndex <$> rules)
          /\ forall m, m ∈ rules ->
               exists row, raw_rows t !! RowIndex m = Some row
                           /\ row_key row = key
                           /\ m = row_value (RowIndex m) row)
    /\ (forall idx row, raw_rows t !! idx = Some row ->
          exists rules,
            d !! row_key row = Some rules /\ row_value idx row ∈ rules
            /\ forall key' rules' m',
                 d !! key' = Some rules' -> m' ∈ rules' -> RowIndex m' = idx ->
                 key' = row_key row /\ m' = row_value idx row).
Proof.
  intros Hm _ Hne.
  destruct (build_dictionary_ok t p w Hm Hne) as (p' & w' & Hb & Hd & _).
  rewrite Hb. simpl. exists (iterrows 0 (raw_rows t) ∅). split; [exact Hd|].
  assert (Hmem : forall key rules m,
            iterrows 0 (raw_rows t) ∅ !! key = Some rules -> m ∈ rules ->
            exists row, raw_rows t !! RowIndex m = Some row
                        /\ row_key row = key /\ m = row_value (RowIndex m) row).
  { intros key rules m [-> _]%iterrows_empty_Some
      (i & row & Hi & Hk & ->)%elem_of_rules_for.
    exists row. simpl. auto. }
  split.
  - intros key rules Hk. pose proof Hk as [-> Hnn]%iterrows_empty_Some.
    split; [exact Hnn|]. split; [apply rules_for_sorted|].
    intros m Hin. eapply Hmem; [exact Hk | exact Hin].
  - intros idx row Hi.
    assert (Hin : row_value idx row ∈ rules_for (row_key row) 0 (raw_rows t)).
    { apply elem_of_rules_for. exists idx, row. auto. }
    exists (rules_for (row_key row) 0 (raw_rows t)). split; [|split; [exact Hin|]].
    + rewrite iterrows_lookup, lookup_empty.
      destruct (rules_for (row_key row) 0 (raw_rows t)); [inversion Hin | done].
    + intros key' rules' m' Hk' Hm' Hidx.
      destruct (Hmem key' rules' m' Hk' Hm') as (row' & Hr' & Hkey & ->).
      simpl in Hidx, Hr'. subst idx. rewrite Hi in Hr'. injection Hr' as <-.
      auto.
Qed.

End LoaderExtras.

Lemma index_holds_every_row_once_witness :
  missing_cols (normalize_columns Scenario.table) = []
  /\ required_once (normalize_columns Scenario.table)
  /\ raw_rows Scenario.table <> []
  /\ exists d,
       mapping_dict
         (build_dictionary_from_excel (Some Scenario.table)
            (init "rules.xlsx" Scenario.archive None) Scenario.nowhere).1.1
       = Some d
       /\ forall row, raw_rows Scenario.table !! 0 = Some row ->
            exists rules,
              d !! row_key row = Some rules /\ row_value 0 row ∈ rules.
Proof.
  assert (Hm : missing_cols (normalize_columns Scenario.table) = [])
    by (vm_compute; reflexivity).
  assert (Hu : required_once (normalize_columns Scenario.table))
    by (vm_compute; repeat constructor).
  assert (Hne : raw_rows Scenario.table <> []) by discriminate.
  split; [exact Hm|]. split; [exact Hu|]. split; [exact Hne|].
  destruct (index_holds_every_row_once Scenario.table
              (init "rules.xlsx" Scenario.archive None) Scenario.nowhere
              Hm Hu Hne)
    as (d & Hd & _ & Hrows).
  exists d. split; [exact Hd|]. intros row Hr.
  destruct (Hrows 0 row Hr) as (rules & Hk & Hin & _).
  exists rules. split; [exact Hk | exact Hin].
Defined.

Section WorksheetExtras.

(** X12.  What the status reset does to a sheet.  It always terminates.  It
    empties columns E and F of the rows from row 2 down to, and without,
    the first row whose E cell is empty, reports the number of those rows,
    and changes no other cell: the header row, the columns A to D and every
    row from that first empty E cell on stay as they were. *)
Theorem reset_clears_the_leading_run (ws : Worksheet) (p : Processor) (w : World) :
  exists ws' stop,
    reset_excel_template (Some ws) p w
    = Some (set_auto_ws p ws',
            info (InfoStatusReset (stop - 2)) (info InfoWorkbookLoaded w))
    /\ 2 <= stop
    /\ ws !! (stop, 5) = None
    /\ (forall r, 2 <= r < stop -> is_Some (ws !! (r, 5)))
    /\ (forall r c,
          ws' !! (r, c)
          = if decide (2 <= r < stop /\ (c = 5 \/ c = 6)) then None
            else ws !! (r, c)).
Proof.
  unfold reset_excel_template.
  destruct (reset_loop_total (S (size ws)) ws 2 ltac:(lia)) as [[ws' stop] E].
  rewrite E. exists ws', stop. split; [reflexivity|].
  apply (reset_loop_spec _ _ _ _ _ E).
Qed.

(** X13.  Resetting twice is resetting once: on the sheet a reset has left,
    a second reset clears no row and changes no cell. *)
Theorem reset_twice_is_reset_once (ws : Worksheet) (p : Processor) (w : World) :
  exists ws1 p1 w1,
    reset_excel_template (Some ws) p w = Some (p1, w1)
    /\ auto_ws p1 = Some ws1
    /\ reset_excel_template (Some ws1) p1 w1
       = Some (p1, info (InfoStatusReset 0) (info InfoWorkbookLoaded w1)).
Proof.
  unfold reset_excel_template.
  destruct (reset_loop_total (S (size ws)) ws 2 ltac:(lia)) as [[ws1 stop] E].
  rewrite E. eexists ws1, _, _. split; [reflexivity|]. split; [reflexivity|].
  destruct (reset_loop_spec _ _ _ _ _ E) as (Hle & Hstop & _ & Hcells).
  assert (H2 : ws1 !! (2, col_E) = None).
  { rewrite Hcells. case_decide as Hd; [done|].
    assert (stop = 2) as -> by (unfold col_E in *; lia). exact Hstop. }
  simpl. rewrite H2. reflexivity.
Qed.

End WorksheetExtras.

Section SessionSteps.

Lemma quiet_refl (t : Session.Site) : Session.quiet t t.
Proof. by repeat split. Qed.

Lemma quiet_trans (t1 t2 t3 : Session.Site) :
  Session.quiet t1 t2 -> Session.quiet t2 t3 -> Session.quiet t1 t3.
Proof. intros (?&?&?) (?&?&?). repeat split; congruence. Qed.

Lemma steady_refl (s : Session.Session) : Session.steady s s.
Proof. by repeat split. Qed.

Lemma steady_trans (s1 s2 s3 : Session.Session) :
  Session.steady s1 s2 -> Session.steady s2 s3 -> Session.steady s1 s3.
Proof. intros (?&?&?&?) (?&?&?&?). repeat split; congruence. Qed.

Lemma quiet_note (e : Session.Entry) (t : Session.Site) :
  Session.quiet t (Session.note e t).
Proof. by repeat split. Qed.

Lemma quiet_set_books (t : Session.Site) (bs : list Session.Workbook) :
  Session.quiet t (Session.set_books t bs).
Proof. by repeat split. Qed.

Lemma calm_unit {A} (a : A) : Session.calm (Session.unit_ a).
Proof.
  intros s t. exists s, t, (Done a).
  split; [reflexivity|]. split; [apply steady_refl | apply quiet_refl].
Qed.

Lemma refuses_fail {A} (f : Failure) : Session.refuses (@Session.fail A f).
Proof.
  intros s t. exists s, t, f.
  split; [reflexivity|]. split; [apply steady_refl | apply quiet_refl].
Qed.

Lemma refuses_calm {A} (m : Session.Step A) :
  Session.refuses m -> Session.calm m.
Proof. intros H s t. destruct (H s t) as (s' & t' & f & E & Hs). eauto. Qed.

Lemma calm_say (e : Session.Entry) : Session.calm (Session.say e).
Proof.
  intros s t. exists s, (Session.note e t), (Done tt).
  split; [reflexivity|]. split; [apply steady_refl | apply quiet_note].
Qed.

Lemma calm_outside {A} (r : Outcome A) : Session.calm (Session.outside r).
Proof.
  intros s t. exists s, t, r.
  split; [reflexivity|]. split; [apply steady_refl | apply quiet_refl].
Qed.

Lemma calm_then {A B} (m : Session.Step A) (k : A -> Session.Step B) :
  Session.calm m -> (forall a, Session.calm (k a)) ->
  Session.calm (Session.then_ m k).
Proof.
  intros Hm Hk s t. unfold Session.then_.
  destruct (Hm s t) as (s1 & t1 & r & -> & Hs1 & Ht1).
  destruct r as [a|f].
  - destruct (Hk a s1 t1) as (s2 & t2 & r2 & -> & Hs2 & Ht2).
    exists s2, t2, r2. split; [reflexivity|].
    split; [eapply steady_trans | eapply quiet_trans]; eauto.
  - exists s1, t1, (Failed f). auto.
Qed.

Lemma refuses_then {A B} (m : Session.Step A) (k : A -> Session.Step B) :
  Session.calm m -> (forall a, Session.refuses (k a)) ->
  Session.refuses (Session.then_ m k).
Proof.
  intros Hm Hk s t. unfold Session.then_.
  destruct (Hm s t) as (s1 & t1 & r & -> & Hs1 & Ht1).
  destruct r as [a|f].
  - destruct (Hk a s1 t1) as (s2 & t2 & f2 & -> & Hs2 & Ht2).
    exists s2, t2, f2. split; [reflexivity|].
    split; [eapply steady_trans | eapply quiet_trans]; eauto.
  - exists s1, t1, f. auto.
Qed.

Lemma notes_nil (t : Session.Site) : Session.notes [] t = t.
Proof. destruct t. unfold Session.notes. simpl. by rewrite app_nil_r. Qed.

Lemma notes_note (e : Session.Entry) (es : list Session.Entry)
    (t : Session.Site) :
  Session.notes es (Session.note e t) = Session.notes (e :: es) t.
Proof. unfold Session.notes, Session.note. simpl. by rewrite <- app_assoc. Qed.

Lemma notes_notes (es es' : list Session.Entry) (t : Session.Site) :
  Session.notes es' (Session.notes es t) = Session.notes (es ++ es') t.
Proof. unfold Session.notes. simpl. by rewrite <- app_assoc. Qed.

Lemma note_notes (e : Session.Entry) (t : Session.Site) :
  Session.note e t = Session.notes [e] t.
Proof. reflexivity. Qed.

Lemma warnings_cons (book : Session.Workbook) (name : string)
    (names : list string) :
  Session.warnings book (name :: names)
  = match Session.defined_names book !! name with
    | None => Session.WarnNamedRangeNotFound name :: Session.warnings book names
    | Some _ => Session.warnings book names
    end.
Proof.
  unfold Session.warnings.
  destruct (Session.defined_names book !! name) eqn:E.
  - by rewrite filter_cons_False by congruence.
  - by rewrite filter_cons_True by done.
Qed.

(** The loop over the names: it goes through the names in order, stores for
    each what [found] gives and logs a warning for each name the workbook
    does not define; it raises at the first name whose lookup raises. *)
Lemma for_names_spec (book : Session.Workbook) (names : list string) :
  forall (named_cells : gmap string Session.Named)
         (s : Session.Session) (t : Session.Site),
  exists es r,
    Session.for_names book names named_cells s t
    = Some (s, Session.notes es t, r)
    /\ match r with
       | Done named_cells' =>
           es = Session.warnings book names
           /\ Forall (fun name => is_Some (Session.found book name)) names
           /\ forall name,
                named_cells' !! name
                = if decide (name ∈ names) then Session.found book name
                  else named_cells !! name
       | Failed f =>
           exists before name after,
             names = before ++ name :: after
             /\ Forall (fun name => is_Some (Session.found book name)) before
             /\ es = Session.warnings book before
             /\ (Session.defined_names book !! name = Some []
                   /\ f = IndexError
                 \/ (exists title address rest,
                       Session.defined_names book !! name
                       = Some ((title, address) :: rest)
                       /\ Session.sheets book !! title = None)
                    /\ f = Engine KeyError)
       end.
Proof.
  induction names as [|name rest IH]; intros named_cells s t.
  - exists [], (Done named_cells). rewrite notes_nil. split; [reflexivity|].
    split; [reflexivity|]. split; [constructor|].
    intros name. by rewrite decide_False by apply not_elem_of_nil.
  - cbn [Session.for_names]. rewrite warnings_cons.
    assert (Hcons : forall (x : Session.Named) (nc' : gmap string Session.Named),
              Session.found book name = Some x ->
              (forall n, nc' !! n
                         = if decide (n ∈ rest) then Session.found book n
                           else <[name := x]> named_cells !! n) ->
              forall n, nc' !! n
                        = if decide (n ∈ name :: rest) then Session.found book n
                          else named_cells !! n).
    { intros x nc' Hx Hnc n. rewrite Hnc.
      destruct (decide (n ∈ rest)) as [Hin|Hout].
      - by rewrite decide_True by (right; exact Hin).
      - destruct (decide (n = name)) as [->|Hne].
        + rewrite lookup_insert_eq, decide_True by left. by rewrite Hx.
        + rewrite lookup_insert_ne by congruence.
          rewrite decide_False; [done|].
          intros [?|?]%elem_of_cons; contradiction. }
    destruct (Session.defined_names book !! name) as [[|[title address] ds]|] eqn:E.
    + exists [], (Failed IndexError). rewrite notes_nil.
      split; [reflexivity|]. exists [], name, rest.
      split; [reflexivity|]. split; [constructor|]. split; [reflexivity|].
      left. auto.
    + destruct (Session.sheets book !! title) as [ws|] eqn:Es.
      * assert (Hx : Session.found book name
                     = Some match address with
                            | Session.OneCell row col => Session.CellOf title row col
                            | Session.ManyCells => Session.Tuple
                            end)
          by (unfold Session.found; by rewrite E, Es).
        destruct (IH (<[name := match address with
                                | Session.OneCell row col =>
                                    Session.CellOf title row col
                                | Session.ManyCells => Session.Tuple
                                end]> named_cells) s t)
          as (es & r & -> & Hr).
        exists es, r. split; [reflexivity|].
        destruct r as [nc'|f].
        -- destruct Hr as (-> & Hall & Hnc). split; [reflexivity|].
           split; [constructor; [by rewrite Hx | exact Hall]|].
           eapply Hcons; eauto.
        -- destruct Hr as (before & bad & after & -> & Hall & -> & Hbad).
           exists (name :: before), bad, after. split; [reflexivity|].
           split; [constructor; [by rewrite Hx | exact Hall]|].
           split; [by rewrite warnings_cons, E | exact Hbad].
      * exists [], (Failed (Engine KeyError)). rewrite notes_nil.
        split; [reflexivity|]. exists [], name, rest.
        split; [reflexivity|]. split; [constructor|]. split; [reflexivity|].
        right. split; [|reflexivity]. eauto.
    + assert (Hx : Session.found book name = Some Session.NoCell)
        by (unfold Session.found; by rewrite E).
      unfold Session.then_, Session.say.
      destruct (IH (<[name := Session.NoCell]> named_cells) s
                  (Session.note (Session.WarnNamedRangeNotFound name) t))
        as (es & r & -> & Hr).
      rewrite notes_note.
      exists (Session.WarnNamedRangeNotFound name :: es), r.
      split; [reflexivity|].
      destruct r as [nc'|f].
      -- destruct Hr as (-> & Hall & Hnc). split; [reflexivity|].
         split; [constructor; [by rewrite Hx | exact Hall]|].
         eapply Hcons; eauto.
      -- destruct Hr as (before & bad & after & -> & Hall & -> & Hbad).
         exists (name :: before), bad, after. split; [reflexivity|].
         split; [constructor; [by rewrite Hx | exact Hall]|].
         split; [by rewrite warnings_cons, E | exact Hbad].
Qed.

Lemma calm_for_names (book : Session.Workbook) (names : list string) :
  forall named_cells, Session.calm (Session.for_names book names named_cells).
Proof.
  induction names as [|name rest IH]; intros named_cells; simpl.
  - apply calm_unit.
  - destruct (Session.defined_names book !! name) as [[|[sheet_name addr] ds]|].
    + apply refuses_calm, refuses_fail.
    + destruct (Session.sheets book !! sheet_name).
      * apply IH.
      * apply refuses_calm, refuses_fail.
    + apply calm_then; [apply calm_say | intros _; apply IH].
Qed.

Lemma calm_get_named_cell_value (b : option nat) (names : option (list string)) :
  Session.calm (Session._get_named_cell_value b names).
Proof.
  intros s t. unfold Session._get_named_cell_value.
  destruct (default Session.default_names names) as [|name rest] eqn:E.
  { eexists _, _, _. split; [reflexivity|].
    split; [apply steady_refl | apply quiet_refl]. }
  destruct b as [b|].
  2:{ eexists _, _, _. split; [reflexivity|].
      split; [apply steady_refl | apply quiet_refl]. }
  destruct (Session.books t !! b) as [book|].
  2:{ eexists _, _, _. split; [reflexivity|].
      split; [apply steady_refl | apply quiet_refl]. }
  apply calm_for_names.
Qed.

Lemma calm_assign (b : option nat) (named_cells : gmap string Session.Named)
    (name v : string) :
  Session.calm (Session.assign b named_cells name v).
Proof.
  intros s t. unfold Session.assign.
  destruct (named_cells !! name) as [[|title row col|]|];
    try (eexists _, _, _; split; [reflexivity|];
         split; [apply steady_refl | apply quiet_refl]).
  destruct b as [b|]; eexists _, _, _; (split; [reflexivity|]);
    (split; [apply steady_refl|]); [apply quiet_set_books | apply quiet_refl].
Qed.

Lemma calm_clear_statuses : Session.calm Session.clear_statuses.
Proof.
  intros s t. unfold Session.clear_statuses.
  destruct (Session.sheet s) as [[b title]|].
  2:{ eexists _, _, _. split; [reflexivity|].
      split; [apply steady_refl | apply quiet_refl]. }
  destruct (Session.content s t) as [ws|].
  2:{ eexists _, _, _. split; [reflexivity|].
      split; [apply steady_refl | apply quiet_refl]. }
  destruct (reset_loop_total (S (size ws)) ws 2 ltac:(lia)) as [[ws' row] ->].
  eexists _, _, _. split; [reflexivity|]. split; [apply steady_refl|].
  by repeat split.
Qed.

Lemma calm_reset_excel_template (o : Session.Outside) (automated_sheet : string)
    (cbd pbd p2bd : Z) (script_start : string) :
  Session.calm
    (Session.reset_excel_template o automated_sheet cbd pbd p2bd script_start).
Proof.
  intros s t. unfold Session.reset_excel_template.
  destruct (Session.load_workbook o (excel_file (Session.core s)))
    as [book|f].
  - destruct (Session.sheets book !! automated_sheet) as [ws|].
    + match goal with
      | |- context [Session.then_ ?m ?k ?s1 ?t1] =>
          destruct (calm_then m k) with (s := s1) (t := t1)
            as (s' & t' & r & E & Hs & Ht)
      end.
      { apply calm_get_named_cell_value. }
      { intros named_cells.
        repeat (apply calm_then; [try apply calm_assign; try apply calm_say
                                 | intros _]).
        apply calm_clear_statuses. }
      exists s', t', r. split; [exact E|]. split.
      * destruct Hs as (?&?&?&?). by repeat split.
      * destruct Ht as (?&?&?). by repeat split.
    + eexists _, _, _. split; [reflexivity|]. by repeat split.
  - destruct f as [[| | |]| | | | |];
      eexists _, _, _; (split; [reflexivity|]); by repeat split.
Qed.

(** A method of the engine that writes no file and keeps the arguments of
    the constructor and [excel_doc_updates]. *)
Lemma calm_engine {A}
    (method : Processor -> World -> Processor * World * Result A) :
  (forall p w,
     files (method p w).1.2 = files w
     /\ excel_file (method p w).1.1 = excel_file p
     /\ archive_folder (method p w).1.1 = archive_folder p
     /\ mailbox_name (method p w).1.1 = mailbox_name p
     /\ excel_doc_updates (method p w).1.1 = excel_doc_updates p) ->
  Session.calm (Session.engine method).
Proof.
  intros H s t. unfold Session.engine.
  specialize (H (with_auto_ws (Session.core s) (Session.content s t))
                {| files := Session.archive t; logged := [] |}).
  destruct (method _ _) as [[p' w'] r]. simpl in H.
  destruct H as (Hf & H1 & H2 & H3 & H4).
  eexists _, _, _. split; [reflexivity|]. split.
  - repeat split; simpl; assumption.
  - repeat split; simpl. exact Hf.
Qed.

Lemma calm_build_dictionary_from_excel (o : Session.Outside) :
  Session.calm (Session.build_dictionary_from_excel o).
Proof.
  intros s t. unfold Session.build_dictionary_from_excel.
  apply calm_engine. intros p w. unfold build_dictionary_from_excel.
  destruct (match Session.sheet s with
            | Some (_, title) => _
            | None => None
            end) as [table|]; [|by repeat split].
  destruct (missing_cols (normalize_columns table)); [|by repeat split].
  simpl. destruct (raw_rows table); by repeat split.
Qed.

Lemma calm_connect_outlook (o : Session.Outside) (folder_name : option string)
    (folder_type : option Session.OutlookFolderName) :
  Session.calm (Session.connect_outlook o folder_name folder_type).
Proof.
  intros s t. unfold Session.connect_outlook.
  match goal with
  | |- context [?m s t] =>
      match m with
      | Session.then_ _ _ => cut (Session.calm m); [intros H; apply H|]
      end
  end.
  apply calm_then; [apply calm_outside | intros _].
  apply calm_then; [apply calm_say | intros _].
  apply calm_then; [apply calm_outside | intros resolved].
  destruct (negb resolved); [apply refuses_calm, refuses_fail|].
  destruct (_ && _); [apply refuses_calm, refuses_fail|].
  apply calm_then; [apply calm_outside | intros shared_inbox].
  apply calm_then; [apply calm_outside | intros folder].
  apply calm_then; [apply calm_say | intros _].
  intros s' t'. eexists _, _, _. split; [reflexivity|].
  split; [by repeat split | apply quiet_refl].
Qed.

Lemma refuses_get_items_Datetime :
  Session.refuses (Session.get_items Session.Datetime).
Proof.
  intros s t. unfold Session.get_items.
  destruct (Session.folder s); eexists _, _, _;
    (split; [reflexivity|]); (split; [apply steady_refl | apply quiet_refl]).
Qed.

Lemma refuses_first {A B} (m : Session.Step A) (k : A -> Session.Step B) :
  Session.refuses m -> Session.refuses (Session.then_ m k).
Proof.
  intros Hm s t. unfold Session.then_.
  destruct (Hm s t) as (s1 & t1 & f & -> & Hs1 & Ht1).
  exists s1, t1, f. auto.
Qed.

(** The statements of [main] on the processor never get past [get_items]. *)
Lemma refuses_stages (o : Session.Outside) (c : Session.Constants)
    (k : Session.Clock) (cbd pbd p2bd : Z) :
  Session.refuses (Session.stages o c k cbd pbd p2bd).
Proof.
  unfold Session.stages.
  apply refuses_then; [apply calm_reset_excel_template | intros _].
  apply refuses_then; [apply calm_build_dictionary_from_excel | intros _].
  apply refuses_then; [apply calm_connect_outlook | intros _].
  apply refuses_then; [apply calm_outside | intros _].
  apply refuses_first, refuses_get_items_Datetime.
Qed.

Lemma prelude_total (o : Session.Outside) (c : Session.Constants)
    (t : Session.Site) :
  (forall i, (1 <= Session.today o i)%Z) ->
  exists t' r, Session.prelude o c t = Some (t', r)
               /\ Session.quiet t t'.
Proof.
  intros Hd. unfold Session.prelude.
  rewrite BusinessDaysFacts.get_prior_business_days_zero by apply Hd.
  rewrite !BusinessDaysFacts.get_prior_business_days_nonzero
    by (try apply Hd; lia).
  repeat match goal with
         | |- context [if ?b then _ else _] => destruct b
         | |- context [match ?x with Done _ => _ | Failed _ => _ end] =>
             destruct x
         end;
    eexists _, _; (split; [reflexivity|]); by repeat split.
Qed.

Lemma assign_then {B} (b : nat) (named_cells : gmap string Session.Named)
    (name v : string) (k : unit -> Session.Step B)
    (s : Session.Session) (t : Session.Site) :
  Session.then_ (Session.assign (Some b) named_cells name v) k s t
  = match named_cells !! name with
    | None => Some (s, t, Failed (Engine KeyError))
    | Some (Session.CellOf title row col) =>
        k tt s (Session.set_books t
                  (Session.set_cell b title row col v (Session.books t)))
    | Some _ => Some (s, t, Failed (Engine AttributeError))
    end.
Proof.
  unfold Session.then_, Session.assign.
  by destruct (named_cells !! name) as [[| |]|].
Qed.

Lemma get_named_cell_value_default (b : nat) (book : Session.Workbook)
    (s : Session.Session) (t : Session.Site) :
  Session.books t !! b = Some book ->
  Forall (fun name => is_Some (Session.found book name)) Session.default_names ->
  exists named_cells,
    Session._get_named_cell_value (Some b) None s t
    = Some (s, Session.notes (Session.warnings book Session.default_names) t,
            Done named_cells)
    /\ forall name,
         named_cells !! name
         = if decide (name ∈ Session.default_names) then Session.found book name
           else None.
Proof.
  intros Hb Hall. unfold Session._get_named_cell_value.
  cbn [default Session.default_names]. rewrite Hb.
  destruct (for_names_spec book Session.default_names ∅ s t)
    as (es & r & E & Hr).
  rewrite E.
  destruct r as [nc|f].
  - destruct Hr as (-> & _ & Hnc). exists nc. split; [reflexivity|].
    intros name. rewrite Hnc. by rewrite lookup_empty.
  - exfalso. destruct Hr as (before & bad & after & Hn & _ & _ & Hbad).
    assert (Hin : bad ∈ Session.default_names)
      by (rewrite Hn, elem_of_app, elem_of_cons; auto).
    rewrite Forall_forall in Hall. destruct (Hall bad Hin) as [x Hx].
    unfold Session.found in Hx.
    destruct Hbad as [[Hd _]|[(title & address & ds & Hd & Hs) _]];
      rewrite Hd in Hx; [done|]. by rewrite Hs in Hx.
Qed.

Lemma keeps_cells_refl (book : Session.Workbook) : Session.keeps_cells book book.
Proof. split; [done|]. eauto. Qed.

Lemma keeps_cells_trans (b1 b2 b3 : Session.Workbook) :
  Session.keeps_cells b1 b2 -> Session.keeps_cells b2 b3 ->
  Session.keeps_cells b1 b3.
Proof.
  intros [Hd1 H1] [Hd2 H2]. split; [congruence|].
  intros title ws rc Hws Hrc.
  destruct (H1 title ws rc Hws Hrc) as (ws2 & Hws2 & Hrc2). eauto.
Qed.

Lemma keeps_cells_write (title : string) (row col : nat) (v : string)
    (book : Session.Workbook) :
  Session.keeps_cells book (Session.write title row col v book).
Proof.
  split; [done|]. intros title' ws rc Hws Hrc. simpl.
  destruct (decide (title = title')) as [->|Hne].
  - rewrite lookup_alter_eq, Hws. simpl. eexists. split; [reflexivity|].
    destruct (decide ((row, col) = rc)) as [->|Hrc'].
    + rewrite lookup_insert_eq. eauto.
    + by rewrite lookup_insert_ne.
  - rewrite lookup_alter_ne by done. eauto.
Qed.

Lemma set_cell_last (title : string) (row col : nat) (v : string)
    (bs : list Session.Workbook) (book : Session.Workbook) :
  Session.set_cell (length bs) title row col v (bs ++ [book])
  = bs ++ [Session.write title row col v book].
Proof.
  unfold Session.set_cell.
  replace (length bs) with (length bs + 0) by lia.
  by rewrite alter_app_r.
Qed.

End SessionSteps.

(** X14.  [main] never returns.  On any machine, with any workbook and any
    mailbox, it ends in one of two ways.  When a statement before the
    construction of the processor raises, the clean-up of the [finally] is
    called on [None] and [AttributeError] leaves [main].  Otherwise the
    statements on the processor stop at [get_items] at the latest, which is
    handed a [datetime] where it calls a function: the handler logs the
    exception, [cleanup] runs, and [SystemExit(1)] leaves [main].  Either
    way no attachment is written, the workbook is not saved and nothing is
    printed. *)
Theorem main_never_returns (o : Session.Outside) (c : Session.Constants)
    (k : Session.Clock) (t : Session.Site) :
  (forall i, (1 <= Session.today o i)%Z) ->
  exists processor t' exit,
    Session.main o c k t = Some (processor, t', exit)
    /\ Session.archive t' = Session.archive t
    /\ Session.saved t' = Session.saved t
    /\ Session.printed t' = Session.printed t
    /\ match processor with
       | None =>
           exit = Session.Uncaught (Engine AttributeError)
           /\ exists t1 f, Session.prelude o c t = Some (t1, Failed f)
       | Some s =>
           exit = Session.SystemExit 1
           /\ (exists f, Session.ErrUnhandled f ∈ Session.journal t')
           /\ Session.InfoCleanupCompleted ∈ Session.journal t'
           /\ Session.folder s = None /\ items (Session.core s) = None
           /\ excel_doc_updates (Session.core s) = None
           /\ archive_folder (Session.core s) = Session.SHARED_MAILBOX c
       end.
Proof.
  intros Hd. unfold Session.main.
  destruct (prelude_total o c t Hd) as (t1 & r & -> & Hq1).
  destruct r as [[[[cbd pbd] p2bd] save_dir]|f].
  - destruct (refuses_stages o c k cbd pbd p2bd
                (Session.new (main_processor (Session.EXCEL_FILE c)
                                (Session.SHARED_MAILBOX c) save_dir)) t1)
      as (s & t2 & f & -> & (_ & Hs2 & _ & Hs4) & Hq2).
    unfold Session.finally, Session.cleanup.
    eexists _, _, _. split; [reflexivity|].
    destruct Hq1 as (?&?&?), Hq2 as (?&?&?).
    assert (Hh : Session.quiet t2
                   match Session.CoUninitialize o with
                   | Done _ => Session.note Session.InfoStartingCleanup
                                 (Session.handler f t2)
                   | Failed _ =>
                       Session.note Session.ErrCOMUninitialization
                         (Session.note Session.InfoStartingCleanup
                            (Session.handler f t2))
                   end)
      by (destruct (Session.CoUninitialize o); by repeat split).
    destruct Hh as (?&?&?).
    split; [simpl; congruence|]. split; [simpl; congruence|].
    split; [simpl; congruence|].
    split; [reflexivity|]. split.
    { exists f. simpl. destruct (Session.CoUninitialize o); simpl;
        rewrite !elem_of_app, !list_elem_of_singleton; naive_solver. }
    split.
    { simpl. rewrite elem_of_app, list_elem_of_singleton. auto. }
    split; [reflexivity|]. split; [reflexivity|].
    split; [simpl; rewrite Hs4; reflexivity|].
    simpl. rewrite Hs2. reflexivity.
  - unfold Session.finally. eexists _, _, _. split; [reflexivity|].
    destruct Hq1 as (?&?&?). simpl.
    split; [assumption|]. split; [assumption|]. split; [assumption|].
    split; [reflexivity|]. eauto.
Qed.

Lemma main_never_returns_witness :
  exists processor t' exit,
    Session.main (Office.outside Office.book) Office.constants Office.clock
      Office.nothing
    = Some (processor, t', exit)
    /\ exit <> Session.Returned /\ Session.archive t' = [].
Proof.
  destruct (main_never_returns (Office.outside Office.book) Office.constants
              Office.clock Office.nothing)
    as (processor & t' & exit & E & Ha & _ & _ & Hexit).
  - intros i. simpl. lia.
  - exists processor, t', exit. split; [exact E|]. split; [|exact Ha].
    destruct processor as [s|]; destruct Hexit as [-> _]; discriminate.
Defined.

Section ResetFacts.

Lemma default_names_elem (name : string) :
  name ∈ Session.reset_names -> name ∈ Session.default_names.
Proof.
  unfold Session.reset_names, Session.default_names.
  rewrite !elem_of_cons, elem_of_nil. intros [->|[->|[->|[->|[]]]]]; auto 10.
Qed.

(** X15.  [reset_excel_template] needs the four names it assigns to.
    [_get_named_cell_value] only warns about a name the workbook does not
    define and stores [None] for it; the assignment to [.value] that follows
    then raises.  So when the workbook loads, has the automated sheet and
    one of [CBD], [PBD], [P2BD], [Start_Time] is missing or names more than
    one cell, the method raises [AttributeError]: [self.wb] and
    [self.auto_ws] are set already, the warnings are the last records
    logged, the status loop is not reached, and no cell of the workbook has
    lost its value. *)
Theorem reset_needs_its_named_cells (o : Session.Outside)
    (automated_sheet : string) (cbd pbd p2bd : Z) (script_start : string)
    (s : Session.Session) (t : Session.Site) (book : Session.Workbook)
    (name : string) (x : Session.Named) :
  Session.load_workbook o (excel_file (Session.core s)) = Done book ->
  is_Some (Session.sheets book !! automated_sheet) ->
  Forall (fun n => is_Some (Session.found book n)) Session.default_names ->
  name ∈ Session.reset_names ->
  Session.found book name = Some x ->
  (forall title row col, x <> Session.CellOf title row col) ->
  exists t' book',
    Session.reset_excel_template o automated_sheet cbd pbd p2bd script_start s t
    = Some (Session.set_sheet
              (Session.set_wb s (Some (length (Session.books t))))
              (Some (length (Session.books t), automated_sheet)),
            t', Failed (Engine AttributeError))
    /\ Session.books t' = Session.books t ++ [book']
    /\ Session.keeps_cells book book'
    /\ Session.journal t'
       = Session.journal t
         ++ Session.Inner InfoWorkbookLoaded
            :: Session.warnings book Session.default_names
    /\ Session.quiet t t'.
Proof.
  intros Hload [ws Hws] Hall Hin Hx Hnot.
  unfold Session.reset_excel_template. rewrite Hload, Hws.
  set (b := length (Session.books t)).
  set (s2 := Session.set_sheet _ _).
  set (t1 := Session.note _ _).
  assert (Hb : Session.books t1 !! b = Some book)
    by (simpl; by apply list_lookup_middle).
  destruct (get_named_cell_value_default b book s2 t1 Hb Hall)
    as (nc & E & Hnc).
  unfold Session.then_ at 1. rewrite E.
  assert (Hcell : forall n, n ∈ Session.reset_names ->
            nc !! n = Session.found book n).
  { intros n Hn. rewrite Hnc.
    rewrite decide_True; [done | by apply default_names_elem]. }
  assert (Hnon : forall n, n ∈ Session.reset_names ->
            exists y, Session.found book n = Some y).
  { intros n Hn. rewrite Forall_forall in Hall.
    apply Hall, default_names_elem, Hn. }
  assert (Hfour : forall n, n ∈ Session.reset_names ->
            exists y, nc !! n = Some y
                      /\ (n = name -> forall title row col,
                            y <> Session.CellOf title row col)).
  { intros n Hn. destruct (Hnon n Hn) as [y Hy]. exists y.
    rewrite Hcell by done. split; [done|]. intros ->. congruence. }
  clear Hcell Hnon Hnc E Hx Hb.
  subst t1 s2 b. unfold Session.notes, Session.note, Session.set_books. simpl.
  unfold Session.reset_names in *.
  assert (H1 : "CBD" ∈ ["CBD"; "PBD"; "P2BD"; "Start_Time"])
    by (rewrite !elem_of_cons; auto).
  assert (H2 : "PBD" ∈ ["CBD"; "PBD"; "P2BD"; "Start_Time"])
    by (rewrite !elem_of_cons; auto).
  assert (H3 : "P2BD" ∈ ["CBD"; "PBD"; "P2BD"; "Start_Time"])
    by (rewrite !elem_of_cons; auto).
  assert (H4 : "Start_Time" ∈ ["CBD"; "PBD"; "P2BD"; "Start_Time"])
    by (rewrite !elem_of_cons; auto 6).
  destruct (Hfour _ H1) as (y1 & E1 & Hy1).
  destruct (Hfour _ H2) as (y2 & E2 & Hy2).
  destruct (Hfour _ H3) as (y3 & E3 & Hy3).
  destruct (Hfour _ H4) as (y4 & E4 & Hy4).
  clear Hfour H1 H2 H3 H4.
  assert (Hend : forall (T : Session.Site) (book' : Session.Workbook),
            Session.books T = Session.books t ++ [book'] ->
            Session.keeps_cells book book' ->
            Session.journal T
            = (Session.journal t ++ [Session.Inner InfoWorkbookLoaded])
              ++ Session.warnings book Session.default_names ->
            Session.quiet t T ->
            exists t' book'',
              Some (Session.set_sheet
                      (Session.set_wb s (Some (length (Session.books t))))
                      (Some (length (Session.books t), automated_sheet)),
                    T, @Failed unit (Engine AttributeError))
              = Some (Session.set_sheet
                        (Session.set_wb s (Some (length (Session.books t))))
                        (Some (length (Session.books t), automated_sheet)),
                      t', Failed (Engine AttributeError))
              /\ Session.books t' = Session.books t ++ [book'']
              /\ Session.keeps_cells book book''
              /\ Session.journal t'
                 = Session.journal t
                   ++ Session.Inner InfoWorkbookLoaded
                      :: Session.warnings book Session.default_names
              /\ Session.quiet t t').
  { intros T book' HT Hk HJ Hq. exists T, book'. split; [reflexivity|].
    split; [exact HT|]. split; [exact Hk|]. split; [|exact Hq].
    rewrite HJ, <- app_assoc. reflexivity. }
  rewrite assign_then, E1.
  destruct y1 as [|title1 row1 col1|];
    [apply (Hend _ book); [done | apply keeps_cells_refl | done | done]
    | | apply (Hend _ book); [done | apply keeps_cells_refl | done | done]].
  cbn [Session.books Session.set_books Session.archive Session.journal
       Session.saved Session.printed].
  rewrite set_cell_last, assign_then, E2.
  set (book1 := Session.write title1 row1 col1 _ book).
  assert (K1 : Session.keeps_cells book book1) by apply keeps_cells_write.
  destruct y2 as [|title2 row2 col2|];
    [apply (Hend _ book1); [done | done | done | done]
    | | apply (Hend _ book1); [done | done | done | done]].
  cbn [Session.books Session.set_books Session.archive Session.journal
       Session.saved Session.printed].
  rewrite set_cell_last, assign_then, E3.
  set (book2 := Session.write title2 row2 col2 _ book1).
  assert (K2 : Session.keeps_cells book book2)
    by (eapply keeps_cells_trans; [exact K1 | apply keeps_cells_write]).
  destruct y3 as [|title3 row3 col3|];
    [apply (Hend _ book2); [done | done | done | done]
    | | apply (Hend _ book2); [done | done | done | done]].
  cbn [Session.books Session.set_books Session.archive Session.journal
       Session.saved Session.printed].
  rewrite set_cell_last, assign_then, E4.
  set (book3 := Session.write title3 row3 col3 _ book2).
  assert (K3 : Session.keeps_cells book book3)
    by (eapply keeps_cells_trans; [exact K2 | apply keeps_cells_write]).
  destruct y4 as [|title4 row4 col4|];
    [apply (Hend _ book3); [done | done | done | done]
    | | apply (Hend _ book3); [done | done | done | done]].
  exfalso. rewrite !elem_of_cons, elem_of_nil in Hin.
  destruct Hin as [->|[->|[->|[->|[]]]]].
  - exact (Hy1 eq_refl _ _ _ eq_refl).
  - exact (Hy2 eq_refl _ _ _ eq_refl).
  - exact (Hy3 eq_refl _ _ _ eq_refl).
  - exact (Hy4 eq_refl _ _ _ eq_refl).
Qed.

Lemma write_keeps_sheet (title title' : string) (row col : nat) (v : string)
    (book : Session.Workbook) :
  is_Some (Session.sheets book !! title') ->
  is_Some (Session.sheets (Session.write title row col v book) !! title').
Proof.
  intros [ws Hws]. simpl. destruct (decide (title = title')) as [->|Hne].
  - rewrite lookup_alter_eq, Hws. simpl. eauto.
  - rewrite lookup_alter_ne by done. eauto.
Qed.

Lemma put_sheet_last (title : string) (ws : Worksheet)
    (bs : list Session.Workbook) (book : Session.Workbook) :
  Session.put_sheet (length bs) title ws (bs ++ [book])
  = bs ++ [{| Session.sheets := <[title := ws]> (Session.sheets book);
              Session.defined_names := Session.defined_names book |}].
Proof.
  unfold Session.put_sheet.
  replace (length bs) with (length bs + 0) by lia.
  by rewrite alter_app_r.
Qed.

(** X16.  What [reset_excel_template] does to a workbook that has the four
    names.  The three dates and the start time are written to the named
    cells first, in memory only; the status loop then runs on the automated
    sheet as the stamps have left it, and clears columns E and F of the
    leading run of rows with a status.  [End_Time] and [Execution_Time] may
    be missing: that costs a warning each.  Nothing is saved. *)
Theorem reset_stamps_then_clears (o : Session.Outside)
    (automated_sheet : string) (cbd pbd p2bd : Z) (script_start : string)
    (s : Session.Session) (t : Session.Site) (book : Session.Workbook)
    (title1 title2 title3 title4 : string)
    (row1 col1 row2 col2 row3 col3 row4 col4 : nat) :
  Session.load_workbook o (excel_file (Session.core s)) = Done book ->
  is_Some (Session.sheets book !! automated_sheet) ->
  Forall (fun n => is_Some (Session.found book n)) Session.default_names ->
  Session.found book "CBD" = Some (Session.CellOf title1 row1 col1) ->
  Session.found book "PBD" = Some (Session.CellOf title2 row2 col2) ->
  Session.found book "P2BD" = Some (Session.CellOf title3 row3 col3) ->
  Session.found book "Start_Time" = Some (Session.CellOf title4 row4 col4) ->
  let stamped :=
    Session.write title4 row4 col4 script_start
      (Session.write title3 row3 col3 (Session.strftime o p2bd)
         (Session.write title2 row2 col2 (Session.strftime o pbd)
            (Session.write title1 row1 col1 (Session.strftime o cbd) book))) in
  exists ws ws' stop,
    Session.sheets stamped !! automated_sheet = Some ws
    /\ Session.reset_excel_template o automated_sheet cbd pbd p2bd
         script_start s t
       = Some (Session.set_sheet
                 (Session.set_wb s (Some (length (Session.books t))))
                 (Some (length (Session.books t), automated_sheet)),
               {| Session.books :=
                    Session.books t
                    ++ [{| Session.sheets :=
                             <[automated_sheet := ws']> (Session.sheets stamped);
                           Session.defined_names := Session.defined_names book |}];
                  Session.archive := Session.archive t;
                  Session.journal :=
                    Session.journal t
                    ++ Session.Inner InfoWorkbookLoaded
                       :: Session.warnings book Session.default_names
                    ++ [Session.InfoBusinessDates cbd pbd p2bd;
                        Session.Inner (InfoStatusReset (stop - 2))];
                  Session.saved := Session.saved t;
                  Session.printed := Session.printed t |},
               Done tt)
    /\ 2 <= stop
    /\ ws !! (stop, 5) = None
    /\ (forall r, 2 <= r < stop -> is_Some (ws !! (r, 5)))
    /\ (forall r c,
          ws' !! (r, c)
          = if decide (2 <= r < stop /\ (c = 5 \/ c = 6)) then None
            else ws !! (r, c)).
Proof.
  intros Hload Hsheet Hall F1 F2 F3 F4 stamped.
  assert (Hws : is_Some (Session.sheets stamped !! automated_sheet))
    by (unfold stamped; by repeat apply write_keeps_sheet).
  destruct Hws as [ws Hws].
  destruct (reset_loop_total (S (size ws)) ws 2 ltac:(lia)) as [[ws' stop] Eloop].
  exists ws, ws', stop. split; [exact Hws|].
  split; [|exact (reset_loop_spec _ _ _ _ _ Eloop)].
  destruct Hsheet as [ws0 Hws0].
  unfold Session.reset_excel_template. rewrite Hload, Hws0.
  set (b := length (Session.books t)).
  set (s2 := Session.set_sheet _ _).
  set (t1 := Session.note _ _).
  assert (Hb : Session.books t1 !! b = Some book)
    by (simpl; by apply list_lookup_middle).
  destruct (get_named_cell_value_default b book s2 t1 Hb Hall)
    as (nc & E & Hnc).
  unfold Session.then_ at 1. rewrite E.
  assert (E1 : nc !! "CBD" = Some (Session.CellOf title1 row1 col1))
    by (rewrite Hnc, <- F1; reflexivity).
  assert (E2 : nc !! "PBD" = Some (Session.CellOf title2 row2 col2))
    by (rewrite Hnc, <- F2; reflexivity).
  assert (E3 : nc !! "P2BD" = Some (Session.CellOf title3 row3 col3))
    by (rewrite Hnc, <- F3; reflexivity).
  assert (E4 : nc !! "Start_Time" = Some (Session.CellOf title4 row4 col4))
    by (rewrite Hnc, <- F4; reflexivity).
  clear Hnc E Hb.
  subst t1 b. unfold Session.notes, Session.note, Session.set_books. simpl.
  rewrite assign_then, E1.
  cbn [Session.books Session.set_books Session.archive Session.journal
       Session.saved Session.printed].
  rewrite set_cell_last, assign_then, E2.
  cbn [Session.books Session.set_books Session.archive Session.journal
       Session.saved Session.printed].
  rewrite set_cell_last, assign_then, E3.
  cbn [Session.books Session.set_books Session.archive Session.journal
       Session.saved Session.printed].
  rewrite set_cell_last, assign_then, E4.
  cbn [Session.books Session.set_books Session.archive Session.journal
       Session.saved Session.printed].
  rewrite set_cell_last. fold stamped.
  unfold Session.then_, Session.say, Session.clear_statuses, Session.content.
  subst s2.
  cbn [Session.sheet Session.set_sheet Session.note Session.books
       Session.set_books Session.archive Session.journal
       Session.saved Session.printed].
  rewrite list_lookup_middle by done. rewrite Hws, Eloop.
  rewrite put_sheet_last.
  do 3 f_equal. unfold Session.note, Session.set_books. simpl.
  f_equal. rewrite <- !app_assoc. reflexivity.
Qed.

End ResetFacts.

Lemma reset_needs_its_named_cells_witness :
  exists s' t',
    Session.reset_excel_template (Office.outside Office.book_without_PBD)
      "Automated" 739012 739009 739008 "2024-05-06 08:00:00"
      Office.processor Office.nothing
    = Some (s', t', Failed (Engine AttributeError))
    /\ Session.wb s' = Some 0.
Proof.
  destruct (reset_needs_its_named_cells
              (Office.outside Office.book_without_PBD)
              "Automated" 739012 739009 739008 "2024-05-06 08:00:00"
              Office.processor Office.nothing Office.book_without_PBD
              "PBD" Session.NoCell)
    as (t' & book' & E & _).
  - reflexivity.
  - exists Scenario.sheet. vm_compute. reflexivity.
  - repeat constructor; vm_compute; eauto.
  - unfold Session.reset_names. rewrite !elem_of_cons. auto.
  - vm_compute. reflexivity.
  - discriminate.
  - eexists _, t'. split; [exact E|]. reflexivity.
Defined.

Lemma reset_stamps_then_clears_witness :
  exists s' t',
    Session.reset_excel_template (Office.outside Office.book)
      "Automated" 739012 739009 739008 "2024-05-06 08:00:00"
      Office.processor Office.nothing
    = Some (s', t', Done tt)
    /\ Session.saved t' = [].
Proof.
  destruct (reset_stamps_then_clears (Office.outside Office.book)
              "Automated" 739012 739009 739008 "2024-05-06 08:00:00"
              Office.processor Office.nothing Office.book
              "Settings" "Settings" "Settings" "Settings" 1 2 2 2 3 2 4 2)
    as (ws & ws' & stop & _ & E & _).
  - reflexivity.
  - exists Scenario.sheet. vm_compute. reflexivity.
  - repeat constructor; vm_compute; eauto.
  - vm_compute. reflexivity.
  - vm_compute. reflexivity.
  - vm_compute. reflexivity.
  - vm_compute. reflexivity.
  - eexists _, _. split; [exact E|]. reflexivity.
Defined.

Section UpdateFacts.

Lemma update_excel_status_keeps (p : Processor) (w : World) :
  files (update_excel_status p w).1.2 = files w
  /\ excel_file (update_excel_status p w).1.1 = excel_file p
  /\ match (update_excel_status p w).2 with
     | Return _ => logged (update_excel_status p w).1.2
                   = logged w ++ [InfoExcelUpdated]
     | Raise _ => logged (update_excel_status p w).1.2 = logged w
     end.
Proof.
  unfold update_excel_status. destruct (excel_doc_updates p) as [u|]; [|done].
  by destruct (write_statuses _ _ _) as [ws [[]|e]].
Qed.

(** The statements of [update_excel_status] after its log record. *)
Lemma update_tail (o : Session.Outside) (script_end duration : string)
    (s : Session.Session) (t : Session.Site) :
  exists t' r,
    Session.then_ (Session._get_named_cell_value (Session.wb s) None)
      (fun named_cells =>
         Session.then_
           (Session.assign (Session.wb s) named_cells "End_Time" script_end)
           (fun _ =>
              Session.then_
                (Session.assign (Session.wb s) named_cells "Execution_Time"
                   duration)
                (fun _ => Session.save_workbook o))) s t
    = Some (s, t', r)
    /\ Session.archive t' = Session.archive t
    /\ Session.printed t' = Session.printed t
    /\ (exists es, Session.journal t' = Session.journal t ++ es)
    /\ match r with
       | Failed _ => Session.saved t' = Session.saved t
       | Done _ =>
           Session.saved t' = Session.saved t
           /\ last (Session.journal t') = Some Session.ErrFailedToSaveWorkbook
           \/ exists b book',
                Session.wb s = Some b
                /\ Session.books t' !! b = Some book'
                /\ Session.save o (excel_file (Session.core s)) book' = Done tt
                /\ Session.saved t'
                   = Session.saved t ++ [(excel_file (Session.core s), book')]
                /\ last (Session.journal t')
                   = Some (Session.InfoWorkbookSaved
                             (excel_file (Session.core s)))
       end.
Proof.
  unfold Session.then_ at 1. unfold Session._get_named_cell_value.
  cbn [default Session.default_names].
  destruct (Session.wb s) as [b|] eqn:Hwb.
  2:{ eexists _, _. split; [reflexivity|]. split; [done|]. split; [done|].
      split; [by exists []; rewrite app_nil_r | done]. }
  destruct (Session.books t !! b) as [book|] eqn:Hb.
  2:{ eexists _, _. split; [reflexivity|]. split; [done|]. split; [done|].
      split; [by exists []; rewrite app_nil_r | done]. }
  destruct (for_names_spec book Session.default_names ∅ s t)
    as (es & r & E & _).
  rewrite E. clear E.
  destruct r as [nc|f].
  2:{ eexists _, _. split; [reflexivity|]. split; [done|]. split; [done|].
      split; [by exists es | done]. }
  rewrite assign_then.
  destruct (nc !! "End_Time") as [[|title1 row1 col1|]|];
    try (eexists _, _; split; [reflexivity|]; split; [done|]; split; [done|];
         split; [by exists es | done]).
  rewrite assign_then.
  destruct (nc !! "Execution_Time") as [[|title2 row2 col2|]|];
    try (eexists _, _; split; [reflexivity|]; split; [done|]; split; [done|];
         split; [by exists es | done]).
  match goal with
  | |- context [Session.save_workbook o s ?T] => set (T0 := T)
  end.
  assert (HT : Session.archive T0 = Session.archive t
               /\ Session.printed T0 = Session.printed t
               /\ Session.saved T0 = Session.saved t
               /\ Session.journal T0 = Session.journal t ++ es)
    by done.
  destruct HT as (HTa & HTp & HTs & HTj). clearbody T0.
  unfold Session.save_workbook. rewrite Hwb.
  destruct (Session.books T0 !! b) as [book'|] eqn:Hb'.
  2:{ eexists _, _. split; [reflexivity|]. split; [done|]. split; [done|].
      split; [exists (es ++ [Session.ErrFailedToSaveWorkbook]);
                 simpl; by rewrite HTj, app_assoc|].
      left. split; [done|]. simpl. by rewrite last_snoc. }
  destruct (Session.save o (excel_file (Session.core s)) book') as [[]|f] eqn:Hs.
  - eexists _, _. split; [reflexivity|]. split; [done|]. split; [done|].
    split; [exists (es ++ [Session.InfoWorkbookSaved
                             (excel_file (Session.core s))]);
               simpl; by rewrite HTj, app_assoc|].
    right. exists b, book'. split; [done|]. split; [exact Hb'|].
    split; [exact Hs|]. split; [simpl; by rewrite HTs|].
    simpl. by rewrite last_snoc.
  - eexists _, _. split; [reflexivity|]. split; [done|]. split; [done|].
    split; [exists (es ++ [Session.ErrFailedToSaveWorkbook]);
               simpl; by rewrite HTj, app_assoc|].
    left. split; [done|]. simpl. by rewrite last_snoc.
Qed.

(** X17.  [update_excel_status] saves the workbook as its last act, or not
    at all.  Whenever the method raises (the guard, the status loop, a
    missing [End_Time] or [Execution_Time] cell) nothing has been saved.
    When it returns, the record that the statuses were updated is in the
    log, and either the workbook object as it is then was written to
    [excel_file], or the saving failed, which is logged and not raised.  No
    attachment is written and nothing is printed. *)
Theorem update_excel_status_saves_last (o : Session.Outside)
    (script_end duration : string) (s : Session.Session) (t : Session.Site) :
  exists s' t' r,
    Session.update_excel_status o script_end duration s t = Some (s', t', r)
    /\ Session.archive t' = Session.archive t
    /\ Session.printed t' = Session.printed t
    /\ match r with
       | Failed _ => Session.saved t' = Session.saved t
       | Done _ =>
           Session.Inner InfoExcelUpdated ∈ Session.journal t'
           /\ (Session.saved t' = Session.saved t
                /\ last (Session.journal t') = Some Session.ErrFailedToSaveWorkbook
               \/ exists b book',
                    Session.wb s = Some b
                    /\ Session.books t' !! b = Some book'
                    /\ Session.save o (excel_file (Session.core s)) book' = Done tt
                    /\ Session.saved t'
                       = Session.saved t ++ [(excel_file (Session.core s), book')]
                    /\ last (Session.journal t')
                       = Some (Session.InfoWorkbookSaved
                                 (excel_file (Session.core s))))
       end.
Proof.
  unfold Session.update_excel_status.
  unfold Session.then_ at 1. unfold Session.engine.
  pose proof (update_excel_status_keeps
                (with_auto_ws (Session.core s) (Session.content s t))
                {| files := Session.archive t; logged := [] |}) as (Hf & He & Hl).
  destruct (update_excel_status _ _) as [[p' w'] r] eqn:E.
  simpl in Hf, He, Hl.
  destruct r as [[]|e].
  2:{ eexists _, _, _. split; [reflexivity|]. by repeat split. }
  match goal with
  | |- context [Session.then_ _ _ ?s1 ?t1] =>
      destruct (update_tail o script_end duration s1 t1)
        as (t' & r & Et & Ha & Hp & (es & Hj) & Hr)
  end.
  simpl in Et. rewrite Et. simpl in Ha, Hp, Hj, Hr.
  exists (Session.set_core s p'), t', r. split; [reflexivity|].
  split; [congruence|]. split; [exact Hp|].
  destruct r as [[]|f]; [|exact Hr].
  split.
  { rewrite Hj, Hl. simpl. rewrite !elem_of_app, list_elem_of_singleton. auto. }
  rewrite He in Hr. exact Hr.
Qed.

Lemma put_sheet_same (b : nat) (title : string) (ws : Worksheet)
    (bs : list Session.Workbook) (book : Session.Workbook) :
  bs !! b = Some book -> Session.sheets book !! title = Some ws ->
  Session.put_sheet b title ws bs = bs.
Proof.
  intros Hb Hws. unfold Session.put_sheet. apply list_eq. intros j.
  destruct (decide (j = b)) as [->|Hne].
  - rewrite list_lookup_alter_eq, Hb. simpl. f_equal.
    rewrite insert_id by done. by destruct book.
  - by rewrite list_lookup_alter_ne.
Qed.

Lemma update_excel_status_stops (o : Session.Outside)
    (script_end duration : string) (s : Session.Session) (t : Session.Site)
    (table : RawTable) (u : Updates) (idx : nat) (st : Update) :
  mapping_df (Session.core s) = Some (normalize_columns table) ->
  excel_doc_updates (Session.core s) = Some u ->
  (forall i x, u !! i = Some x -> Status x <> None) ->
  u !! idx = Some st ->
  auto_ws (Session.core s) = None ->
  Session.update_excel_status o script_end duration s t
  = Some (s, t, Failed (Engine KeyError)).
Proof.
  intros Hdf Hu Hall Hidx Hws.
  unfold Session.update_excel_status, Session.then_ at 1, Session.engine.
  rewrite (update_excel_status_KeyError _ _ table u idx st);
    [| by destruct (Session.core s) | by destruct (Session.core s)
     | exact Hall | exact Hidx].
  cbn [auto_ws with_auto_ws logged files fmap list_fmap].
  f_equal. f_equal. f_equal.
  - destruct s as [[] ? ? ?]. simpl in *. subst. reflexivity.
  - rewrite app_nil_r.
    assert (Hbooks : match Session.sheet s with
                     | Some (b, title) =>
                         match Session.content s t with
                         | Some ws => Session.put_sheet b title ws (Session.books t)
                         | None => Session.books t
                         end
                     | None => Session.books t
                     end = Session.books t).
    { unfold Session.content. destruct (Session.sheet s) as [[b title]|]; [|done].
      destruct (Session.books t !! b) as [book|] eqn:Hb; [|done].
      destruct (Session.sheets book !! title) as [ws|] eqn:Hs; [|done].
      by apply (put_sheet_same b title ws _ book). }
    rewrite Hbooks. by destruct t.
Qed.

(** X23.  A run that has marked a row is never recorded.  On a processor
    whose table was loaded by [build_dictionary_from_excel], when
    [match_and_save_attachments] has returned updates that are not empty,
    [update_excel_status] raises [KeyError] at the first of them and leaves
    everything as it was: no status is written, [End_Time] and
    [Execution_Time] are not stamped, and the workbook is not saved, so the
    stamps and the cleared statuses of [reset_excel_template] never reach
    the file either. *)
Theorem a_hit_is_never_recorded (o : Session.Outside) (table : RawTable)
    (script_end duration : string) (s s1 : Session.Session)
    (t t1 : Session.Site) (u : Updates) :
  mapping_df (Session.core s) = Some (normalize_columns table) ->
  Session.match_and_save_attachments o s t = Some (s1, t1, Done u) ->
  u <> ∅ ->
  Session.update_excel_status o script_end duration s1 t1
  = Some (s1, t1, Failed (Engine KeyError)).
Proof.
  intros Hdf Hrun Hne.
  apply map_choose in Hne as (idx & st & Hidx).
  unfold Session.match_and_save_attachments, Session.engine in Hrun.
  unfold Evaluator.match_and_save_attachments in Hrun.
  cbn [items with_auto_ws] in Hrun.
  destruct (items (Session.core s)) as [ms|] eqn:Hitems; [|discriminate].
  injection Hrun as <- <- <-.
  eapply update_excel_status_stops; [| reflexivity | | exact Hidx | reflexivity].
  - simpl. exact Hdf.
  - intros j x Hx. assert (x = Saved) as ->; [|discriminate].
    eapply (Extends_from_empty _ {| updates := ∅; world := _ |});
      [reflexivity | apply for_messages_Extends | exact Hx].
Qed.

Lemma a_hit_is_never_recorded_witness :
  let s := Session.set_core Office.processor
             (set_items (Scenario.loaded Scenario.table Scenario.archive)
                [Scenario.msg "A@X.COM" "report" [Scenario.data_csv]]) in
  exists s1 t1 u,
    Session.match_and_save_attachments (Office.outside Office.book) s
      Office.nothing = Some (s1, t1, Done u)
    /\ Session.update_excel_status (Office.outside Office.book)
         "2024-05-06 08:00:07" "0:00:07" s1 t1
       = Some (s1, t1, Failed (Engine KeyError)).
Proof.
  intros s.
  destruct (Session.match_and_save_attachments (Office.outside Office.book) s
              Office.nothing) as [[[s1 t1] [u|f]]|] eqn:E;
    [| vm_compute in E; discriminate | vm_compute in E; discriminate].
  exists s1, t1, u. split; [reflexivity|].
  apply (a_hit_is_never_recorded (Office.outside Office.book) Scenario.table
           "2024-05-06 08:00:07" "0:00:07" s s1 Office.nothing t1 u).
  - reflexivity.
  - exact E.
  - intros ->. vm_compute in E. discriminate.
Defined.

End UpdateFacts.

Section CleanupFacts.

Lemma write_statuses_unloaded (us : list (nat * Update)) :
  write_statuses None us None = (None, Return tt)
  \/ write_statuses None us None = (None, Raise AttributeError).
Proof.
  induction us as [|[idx u] us IH]; simpl; [by left|].
  destruct (Status u); [by right | exact IH].
Qed.

(** X18.  [cleanup] never raises, also when [CoUninitialize] does, and
    leaves a processor that cannot be used again: [get_items] and
    [match_and_save_attachments] raise [ValueError], and
    [build_dictionary_from_excel] logs that it failed to read the workbook
    and returns [None].  [excel_doc_updates] is the one result that outlives
    the clean-up: with it [update_excel_status] gets past its guard and
    raises [AttributeError] instead of the [ValueError] of the guard, and
    saves nothing. *)
Theorem cleanup_leaves_a_spent_processor (o : Session.Outside)
    (s : Session.Session) (t : Session.Site) :
  exists s' t',
    Session.cleanup o s t = Some (s', t', Done tt)
    /\ Session.books t' = Session.books t /\ Session.quiet t t'
    /\ last (Session.journal t') = Some Session.InfoCleanupCompleted
    /\ excel_doc_updates (Session.core s') = excel_doc_updates (Session.core s)
    /\ (forall t2 arg,
          Session.get_items arg s' t2 = Some (s', t2, Failed (Engine ValueError)))
    /\ (forall t2, exists t3,
          Session.match_and_save_attachments o s' t2
          = Some (s', t3, Failed (Engine ValueError))
          /\ Session.archive t3 = Session.archive t2
          /\ Session.journal t3 = Session.journal t2)
    /\ (forall t2, exists t3,
          Session.build_dictionary_from_excel o s' t2
          = Some (s', t3, Done None)
          /\ Session.journal t3
             = Session.journal t2 ++ [Session.Inner ErrFailedToReadWorkbook])
    /\ (forall t2 script_end duration, exists t3,
          Session.update_excel_status o script_end duration s' t2
          = Some (s', t3,
                  Failed (Engine match excel_doc_updates (Session.core s) with
                                 | None => ValueError
                                 | Some _ => AttributeError
                                 end))
          /\ Session.saved t3 = Session.saved t2
          /\ Session.books t3 = Session.books t2).
Proof.
  unfold Session.cleanup. eexists _, _. split; [reflexivity|].
  split; [by destruct (Session.CoUninitialize o)|].
  split; [by destruct (Session.CoUninitialize o)|].
  split; [simpl; by rewrite last_snoc|].
  split; [reflexivity|]. split; [reflexivity|].
  split.
  { intros t2. eexists. split; [reflexivity|]. simpl.
    split; [reflexivity | by rewrite app_nil_r]. }
  split.
  { intros t2. eexists. split; [reflexivity|]. reflexivity. }
  intros t2 script_end duration.
  unfold Session.update_excel_status, Session.then_ at 1, Session.engine.
  unfold update_excel_status.
  cbn [Session.core Session.content Session.sheet excel_doc_updates
       Session.released with_auto_ws mapping_df auto_ws].
  destruct (excel_doc_updates (Session.core s)) as [u|] eqn:Eu.
  2:{ eexists. split; [reflexivity|]. by split. }
  destruct (write_statuses_unloaded (map_to_list u)) as [-> | ->].
  - eexists. split; [reflexivity|]. by split.
  - eexists. split; [reflexivity|]. by split.
Qed.

End CleanupFacts.

Section OutlookFacts.

(** X19.  The outcome of [connect_outlook].  When it raises, [self.folder]
    is what it was.  A mailbox that does not resolve gives the plain
    [Exception] whatever the folder arguments are; the [ValueError] for a
    custom folder or subfolder without a name comes only once the mailbox
    has resolved, and before the shared inbox is asked for.  When it
    returns, the folder returned is stored in [self.folder]: the shared
    inbox itself for the inbox type (the default), whatever [folder_name]
    is, and otherwise the folder of that name beside or below the shared
    inbox, the name being non-empty. *)
Theorem connect_outlook_outcome (o : Session.Outside)
    (folder_name : option string)
    (folder_type : option Session.OutlookFolderName)
    (s : Session.Session) (t : Session.Site) :
  let mailbox := mailbox_name (Session.core s) in
  let type := default Session.INBOX folder_type in
  exists s' t' r,
    Session.connect_outlook o folder_name folder_type s t = Some (s', t', r)
    /\ Session.books t' = Session.books t /\ Session.quiet t t'
    /\ match r with
       | Failed f =>
           s' = s
           /\ (Session.CreateRecipient o mailbox = Done tt ->
               Session.Resolve o mailbox = Done false ->
               f = PlainException)
           /\ (Session.CreateRecipient o mailbox = Done tt ->
               Session.Resolve o mailbox = Done true ->
               type <> Session.INBOX -> Session.not_given folder_name = true ->
               f = Engine ValueError
               /\ Session.journal t'
                  = Session.journal t ++ [Session.InfoConnecting mailbox])
       | Done folder =>
           s' = Session.set_folder s (Some folder)
           /\ Session.Resolve o mailbox = Done true
           /\ last (Session.journal t')
              = Some (Session.InfoConnected (Session.Name folder) type)
           /\ exists shared_inbox,
                Session.GetSharedDefaultFolder o mailbox = Done shared_inbox
                /\ match type with
                   | Session.INBOX => folder = shared_inbox
                   | Session.CUSTOM =>
                       exists name,
                         folder_name = Some name /\ name <> EmptyString
                         /\ Session.Parent_Folders o shared_inbox name
                            = Done folder
                   | Session.SUBFOLDER =>
                       exists name,
                         folder_name = Some name /\ name <> EmptyString
                         /\ Session.Folders o shared_inbox name = Done folder
                   end
       end.
Proof.
  intros mailbox type. unfold Session.connect_outlook.
  fold mailbox. fold type.
  unfold Session.then_, Session.outside, Session.say, Session.fail.
  destruct (Session.CreateRecipient o mailbox) as [[]|f0] eqn:Ec.
  2:{ eexists _, _, _. split; [reflexivity|]. split; [done|]. split; [done|].
      split; [done|]. split; intros; discriminate. }
  destruct (Session.Resolve o mailbox) as [[|]|f1] eqn:Er; cbn [negb].
  3:{ eexists _, _, _. split; [reflexivity|]. split; [done|]. split; [done|].
      split; [done|]. split; intros; discriminate. }
  2:{ eexists _, _, _. split; [reflexivity|]. split; [done|]. split; [done|].
      split; [done|]. split; [done|]. intros; discriminate. }
  destruct (bool_decide (type ∈ [Session.CUSTOM; Session.SUBFOLDER])
            && Session.not_given folder_name) eqn:Eg.
  { eexists _, _, _. split; [reflexivity|]. split; [done|]. split; [done|].
    split; [done|]. split; [intros; discriminate|]. done. }
  assert (Hname : type <> Session.INBOX ->
            exists name, folder_name = Some name /\ name <> EmptyString).
  { intros Ht. apply andb_false_iff in Eg as [Eg|Eg].
    - exfalso. apply bool_decide_eq_false in Eg. apply Eg.
      destruct type; [done | | ]; rewrite !elem_of_cons; auto.
    - unfold Session.not_given in Eg. destruct folder_name as [name|]; [|done].
      exists name. split; [done|]. by apply bool_decide_eq_false in Eg. }
  destruct (Session.GetSharedDefaultFolder o mailbox) as [shared_inbox|f2] eqn:Eb.
  2:{ eexists _, _, _. split; [reflexivity|]. split; [done|]. split; [done|].
      split; [done|]. split; [intros; discriminate|].
      intros _ _ Ht Hn. exfalso. destruct (Hname Ht) as (name & -> & Hne).
      simpl in Hn. by apply bool_decide_eq_true in Hn. }
  destruct (Session.pick_folder o type folder_name shared_inbox)
    as [folder|f3] eqn:Ep.
  2:{ eexists _, _, _. split; [reflexivity|]. split; [done|]. split; [done|].
      split; [done|]. split; [intros; discriminate|].
      intros _ _ Ht Hn. exfalso. destruct (Hname Ht) as (name & -> & Hne).
      simpl in Hn. by apply bool_decide_eq_true in Hn. }
  eexists _, _, _. split; [reflexivity|]. split; [done|]. split; [done|].
  split; [done|]. split; [done|]. split; [simpl; by rewrite last_snoc|].
  exists shared_inbox. split; [done|].
  unfold Session.pick_folder in Ep. destruct type; simpl in Ep.
  - congruence.
  - destruct Hname as (name & -> & Hne); [done|]. exists name.
    split; [done|]. split; [done|]. simpl in Ep.
    destruct (Session.Folders o shared_inbox name); congruence.
  - destruct Hname as (name & -> & Hne); [done|]. exists name.
    split; [done|]. split; [done|]. simpl in Ep.
    destruct (Session.Parent_Folders o shared_inbox name); congruence.
Qed.

End OutlookFacts.

Section ConfigFacts.

Variable config_get : string -> string -> Outcome (option string).

Lemma get_config_value_Done (section key v : string) :
  Session.get_config_value config_get section key = Done v
  <-> config_get section key = Done (Some v) /\ v <> EmptyString.
Proof.
  unfold Session.get_config_value.
  destruct (config_get section key) as [[x|]|f];
    [| by split; [|intros []] | by split; [|intros []]].
  destruct (decide (x = EmptyString)) as [->|Hx].
  - split; [done|]. intros [[= <-] ?]. done.
  - split; [intros [= ->]; done | intros [[= ->] _]; done].
Qed.

Lemma get_config_value_Failed (section key : string) (f : Failure) :
  Session.get_config_value config_get section key = Failed f ->
  config_get section key = Failed f
  \/ f = Engine ValueError
     /\ (config_get section key = Done None
         \/ config_get section key = Done (Some EmptyString)).
Proof.
  unfold Session.get_config_value.
  destruct (config_get section key) as [[x|]|f'].
  - destruct (decide (x = EmptyString)) as [->|Hx]; [|done].
    intros [= <-]. auto.
  - intros [= <-]. auto.
  - intros [= <-]. auto.
Qed.

End ConfigFacts.

(** X20.  The module can be imported only with all seven settings.  Its
    constants are the texts of the configuration file, none of them empty.
    When a setting is missing or empty, [settings_sheet] and
    [revisions_sheet] included, which nothing reads afterwards, the import
    raises [ValueError]; the only other way to fail is an exception of
    [config.get] itself. *)
Theorem import_needs_every_setting
    (config_get : string -> string -> Outcome (option string)) :
  match Session.module_constants config_get with
  | Done c =>
      config_get "EXCEL" "excel_file" = Done (Some (Session.EXCEL_FILE c))
      /\ config_get "EXCEL" "automated_sheet"
         = Done (Some (Session.AUTOMATED_SHEET c))
      /\ config_get "EXCEL" "settings_sheet"
         = Done (Some (Session.SETTINGS_SHEET c))
      /\ config_get "EXCEL" "revisions_sheet"
         = Done (Some (Session.REVISION_SHEET c))
      /\ config_get "Outlook" "shared_mailbox"
         = Done (Some (Session.SHARED_MAILBOX c))
      /\ config_get "Outlook" "folder_name" = Done (Some (Session.FOLDER_NAME c))
      /\ config_get "Directories" "daily_imported_statements"
         = Done (Some (Session.BASE_PATH c))
      /\ Forall (fun v => v <> EmptyString)
           [Session.EXCEL_FILE c; Session.AUTOMATED_SHEET c;
            Session.SETTINGS_SHEET c; Session.REVISION_SHEET c;
            Session.SHARED_MAILBOX c; Session.FOLDER_NAME c;
            Session.BASE_PATH c]
  | Failed f =>
      Exists (fun sk => config_get sk.1 sk.2 = Failed f
                        \/ f = Engine ValueError
                           /\ (config_get sk.1 sk.2 = Done None
                               \/ config_get sk.1 sk.2 = Done (Some EmptyString)))
        Session.settings
  end.
Proof.
  unfold Session.module_constants, Session.and_then, Session.settings.
  repeat match goal with
  | |- context [Session.get_config_value config_get ?a ?b] =>
      let E := fresh "E" in
      destruct (Session.get_config_value config_get a b) eqn:E;
      [apply get_config_value_Done in E as [? ?]
      |apply get_config_value_Failed in E;
       rewrite !Exists_cons; simpl; tauto]
  end.
  simpl. repeat (split; [assumption|]).
  repeat (constructor; [assumption|]). constructor.
Qed.

Section NamedCellFacts.

(** X21.  [_get_named_cell_value] on a workbook.  It returns a dict with
    exactly the names asked for: the cell of the first destination for a
    name the workbook defines, and [None], with one warning logged, for each
    name it does not define.  It raises only at the first name that is
    defined without a destination ([IndexError]) or whose first destination
    lies on a sheet the workbook does not have ([KeyError]); the warnings
    for the names before it have been logged.  The workbook is not
    changed. *)
Theorem named_cells_tolerate_missing_names (b : nat) (book : Session.Workbook)
    (names : list string) (s : Session.Session) (t : Session.Site) :
  Session.books t !! b = Some book ->
  exists es r,
    Session._get_named_cell_value (Some b) (Some names) s t
    = Some (s, Session.notes es t, r)
    /\ match r with
       | Done named_cells =>
           es = Session.warnings book names
           /\ Forall (fun name => is_Some (Session.found book name)) names
           /\ forall name,
                named_cells !! name
                = if decide (name ∈ names) then Session.found book name
                  else None
       | Failed f =>
           exists before name after,
             names = before ++ name :: after
             /\ Forall (fun name => is_Some (Session.found book name)) before
             /\ es = Session.warnings book before
             /\ (Session.defined_names book !! name = Some []
                   /\ f = IndexError
                 \/ (exists title address rest,
                       Session.defined_names book !! name
                       = Some ((title, address) :: rest)
                       /\ Session.sheets book !! title = None)
                    /\ f = Engine KeyError)
       end.
Proof.
  intros Hb. unfold Session._get_named_cell_value. cbn [default].
  destruct names as [|name rest].
  { exists [], (Done ∅). rewrite notes_nil. split; [reflexivity|].
    split; [reflexivity|]. split; [constructor|].
    intros name. rewrite lookup_empty.
    by rewrite decide_False by apply not_elem_of_nil. }
  rewrite Hb.
  destruct (for_names_spec book (name :: rest) ∅ s t) as (es & r & E & Hr).
  exists es, r. split; [exact E|].
  destruct r as [nc|f]; [|exact Hr].
  destruct Hr as (He & Hall & Hnc). split; [exact He|]. split; [exact Hall|].
  intros n. rewrite Hnc. by rewrite lookup_empty.
Qed.

End NamedCellFacts.

Lemma named_cells_tolerate_missing_names_witness :
  exists es r,
    Session._get_named_cell_value (Some 0) (Some ["CBD"; "PBD"])
      Office.processor
      {| Session.books := [Office.book_without_PBD]; Session.archive := [];
         Session.journal := []; Session.saved := []; Session.printed := [] |}
    = Some (Office.processor,
            {| Session.books := [Office.book_without_PBD];
               Session.archive := []; Session.journal := es;
               Session.saved := []; Session.printed := [] |}, r).
Proof.
  destruct (named_cells_tolerate_missing_names 0 Office.book_without_PBD
              ["CBD"; "PBD"] Office.processor
              {| Session.books := [Office.book_without_PBD];
                 Session.archive := []; Session.journal := [];
                 Session.saved := []; Session.printed := [] |})
    as (es & r & E & _).
  - reflexivity.
  - exists es, r. exact E.
Defined.
